(** * avi_lb_test: the API client, the configuration loader, the four-stage
      orchestrator, the framework setup and the run of the test cases,
      embedded from the Python sources

    The Python code works on dynamically typed values (parsed JSON, YAML
    and the dictionaries the stages build), raises and catches exceptions,
    and talks to a remote service.  The embedding keeps all three:

    - [value] is the universe of run-time values the sources handle;
    - [M S A] is a state-and-exception monad: an exception leaves the state
      as it was when it was raised, as in Python;
    - the remote service and the HTTP session are a world [W] with a
      transition function [send], arbitrary throughout. *)

From Stdlib Require Import ZArith String Ascii List.
From stdpp Require Import gmap strings list.

Open Scope Z_scope.
Open Scope string_scope.

Set Warnings "-register-all".

(** ** Run-time values *)

(** What [response.json()] and [yaml.safe_load] produce, and what the
    stages store.  A float is kept as its IEEE-754 binary64 bit pattern;
    a [dict] has string keys and is only ever looked up by key here.  A
    [str] is kept as a [string], one byte per character: on text outside
    ASCII, [py_len], [py_slice_to], [chars] and [upper] below see its bytes
    where Python sees its code points. *)
Inductive value : Type :=
| PNone
| PBool (b : bool)
| PInt (z : Z)
| PFloat (bits : Z)
| PStr (s : string)
| PList (l : list value)
| PDict (d : gmap string value).

(** An exception, as far as the code can see it: every handler is
    [except Exception as e] or names one class, and only [str(e)] is used. *)
Record exn : Type := Exn { exn_class : string; exn_message : string }.

Definition str_exn (e : exn) : string := exn_message e.

Definition type_name (v : value) : string :=
  match v with
  | PNone => "NoneType"
  | PBool _ => "bool"
  | PInt _ => "int"
  | PFloat _ => "float"
  | PStr _ => "str"
  | PList _ => "list"
  | PDict _ => "dict"
  end.

Definition AttributeError (v : value) (attr : string) : exn :=
  Exn "AttributeError"
      ("'" ++ type_name v ++ "' object has no attribute '" ++ attr ++ "'").

Definition TypeError (msg : string) : exn := Exn "TypeError" msg.

Definition KeyError (key : string) : exn := Exn "KeyError" ("'" ++ key ++ "'").

(** [bool(v)]: the truth value Python's [if v] and [not v] test. *)
Definition truthy (v : value) : bool :=
  match v with
  | PNone => false
  | PBool b => b
  | PInt z => negb (z =? 0)%Z
  | PFloat bits => negb (Z.land bits (Z.ones 63) =? 0)%Z
  | PStr s => negb (String.eqb s "")
  | PList l => match l with [] => false | _ => true end
  | PDict d => negb (bool_decide (d = ∅))
  end.

(** [v is None] *)
Definition is_None (v : value) : bool :=
  match v with PNone => true | _ => false end.

(** [isinstance(v, list)] and [isinstance(v, dict)] *)
Definition is_list (v : value) : bool :=
  match v with PList _ => true | _ => false end.

Definition is_dict (v : value) : bool :=
  match v with PDict _ => true | _ => false end.

(** [v == s] for a [str] [s]: only an equal string compares equal. *)
Definition py_eq_str (v : value) (s : string) : bool :=
  match v with PStr t => String.eqb t s | _ => false end.

(** [v.get(key, default)]; [v.get(key)] is [py_get v key PNone]. *)
Definition py_get (v : value) (key : string) (dflt : value) : exn + value :=
  match v with
  | PDict d => inr (default dflt (d !! key))
  | _ => inl (AttributeError v "get")
  end.

(** [v[key]] for a string key. *)
Definition py_index (v : value) (key : string) : exn + value :=
  match v with
  | PDict d =>
      match d !! key with
      | Some x => inr x
      | None => inl (KeyError key)
      end
  | PStr _ => inl (TypeError "string indices must be integers")
  | PList _ => inl (TypeError "list indices must be integers or slices, not str")
  | _ => inl (TypeError ("'" ++ type_name v ++ "' object is not subscriptable"))
  end.

(** [len(v)] *)
Definition py_len (v : value) : exn + Z :=
  match v with
  | PStr s => inr (Z.of_nat (String.length s))
  | PList l => inr (Z.of_nat (List.length l))
  | PDict d => inr (Z.of_nat (size d))
  | _ => inl (TypeError ("object of type '" ++ type_name v ++ "' has no len()"))
  end.

(** [v[:n]].  Slicing a [dict] fails too: with a [TypeError] (unhashable
    slice) before Python 3.12 and a [KeyError] from it on. *)
Definition py_slice_to (n : nat) (v : value) : exn + value :=
  match v with
  | PStr s => inr (PStr (String.substring 0 (Nat.min n (String.length s)) s))
  | PList l => inr (PList (take n l))
  | PDict _ => inl (TypeError "unhashable type: 'slice'")
  | _ => inl (TypeError ("'" ++ type_name v ++ "' object is not subscriptable"))
  end.

Fixpoint chars (s : string) : list value :=
  match s with
  | EmptyString => []
  | String c s' => PStr (String c EmptyString) :: chars s'
  end.

(** The items [for x in v] ranges over.  A [dict] yields its keys; Python
    yields them in insertion order, which a [gmap] does not keep: the code
    only ever relies on their being [str]. *)
Definition py_iter (v : value) : exn + list value :=
  match v with
  | PList l => inr l
  | PStr s => inr (chars s)
  | PDict d => inr (PStr <$> (map_to_list d).*1)
  | _ => inl (TypeError ("'" ++ type_name v ++ "' object is not iterable"))
  end.

Definition upper_ascii (c : ascii) : ascii :=
  let n := nat_of_ascii c in
  if (Nat.leb 97 n && Nat.leb n 122)%bool then ascii_of_nat (n - 32) else c.

(** [s.upper()], on the ASCII strings the summary prints. *)
Fixpoint upper (s : string) : string :=
  match s with
  | EmptyString => EmptyString
  | String c s' => String (upper_ascii c) (upper s')
  end.

(** [s.upper()] on a value: only a [str] has the method. *)
Definition py_upper (v : value) : exn + string :=
  match v with
  | PStr s => inr (upper s)
  | _ => inl (AttributeError v "upper")
  end.

(** A dict literal. *)
Definition dict_of (items : list (string * value)) : value :=
  PDict (list_to_map items).

(** ** State and exceptions *)

Definition M (S A : Type) : Type := S -> (exn + A) * S.

Definition ret {S A} (a : A) : M S A := fun s => (inr a, s).

Definition raise {S A} (e : exn) : M S A := fun s => (inl e, s).

Definition bind {S A B} (m : M S A) (k : A -> M S B) : M S B :=
  fun s =>
    match m s with
    | (inr a, s') => k a s'
    | (inl e, s') => (inl e, s')
    end.

(** [try: m  except Exception as e: h e] *)
Definition try_except {S A} (m : M S A) (h : exn -> M S A) : M S A :=
  fun s =>
    match m s with
    | (inr a, s') => (inr a, s')
    | (inl e, s') => h e s'
    end.

(** An expression that may raise and touches no state. *)
Definition eval {S A} (r : exn + A) : M S A := fun s => (r, s).

Definition gets {S A} (f : S -> A) : M S A := fun s => (inr (f s), s).

Definition modify {S} (f : S -> S) : M S unit := fun s => (inr tt, f s).

Declare Scope py_scope.
Delimit Scope py_scope with py.
Notation "x <- m ;; k" := (bind m (fun x => k))
  (at level 100, m at next level, k at level 200) : py_scope.
Notation "m ;; k" := (bind m (fun _ => k))
  (at level 100, k at level 200) : py_scope.
Open Scope py_scope.

(** [for x in xs: body x] *)
Fixpoint for_each {S A} (xs : list A) (body : A -> M S unit) : M S unit :=
  match xs with
  | [] => ret tt
  | x :: xs' => body x ;; for_each xs' body
  end.

(** ** The remote service *)

Inductive http_method : Type := GET | POST | PUT.

(** The path appended to the base URL.  The item path is the f-string
    [f"/api/virtualservice/{uuid}"]: it is kept with the value it formats. *)
Inductive endpoint : Type :=
| RegisterPath
| LoginPath
| TenantPath
| VirtualServicePath
| ServiceEnginePath
| VirtualServiceItemPath (uuid : value).

(** A header value: a literal, or the f-string [f"Bearer {token}"]. *)
Inductive header : Type :=
| HText (s : string)
| HBearer (tok : value).

Record request : Type := Request {
  req_method : http_method;
  req_base_url : string;
  req_path : endpoint;
  req_json : option value;
  req_auth : option (value * value);
  req_headers : option (gmap string header);
  req_timeout : value
}.

(** What the code reads of a response; [response.json()] may raise. *)
Record response : Type := Response {
  status_code : Z;
  text : string;
  json : exn + value
}.

(** [s.rstrip(c)] for a one-character [c]. *)
Fixpoint rstrip (c : ascii) (s : string) : string :=
  match s with
  | EmptyString => EmptyString
  | String a s' =>
      let r := rstrip c s' in
      if (Ascii.eqb a c && String.eqb r "")%bool then "" else String a r
  end.

(** ** api_client.py *)

Module APIClient.

(** The fields of an [APIClient]; its [requests.Session] lives in the
    world the requests are sent to. *)
Record t : Type := Build { base_url : string; timeout : value; token : value }.

(** [APIClient(base_url, timeout)]: [base_url.rstrip('/')] needs a [str]. *)
Definition __init__ (base_url timeout : value) : exn + t :=
  match base_url with
  | PStr s => inr (Build (rstrip "/" s) timeout PNone)
  | _ => inl (AttributeError base_url "rstrip")
  end.

Definition _get_headers (self : t) : gmap string header :=
  let headers : gmap string header := {[ "Content-Type" := HText "application/json" ]} in
  if truthy (token self) then <[ "Authorization" := HBearer (token self) ]> headers
  else headers.

(** The requests the methods send: [session.post(url, json=payload,
    timeout=...)], [session.post(url, auth=HTTPBasicAuth(...), timeout=...)],
    and [get] and [put] with the headers of [_get_headers]. *)
Definition register_request (c : t) (username password : value) : request :=
  Request POST (base_url c) RegisterPath
          (Some (dict_of [("username", username); ("password", password)]))
          None None (timeout c).

Definition login_request (c : t) (username password : value) : request :=
  Request POST (base_url c) LoginPath None (Some (username, password)) None (timeout c).

Definition get_request (c : t) (p : endpoint) : request :=
  Request GET (base_url c) p None None (Some (_get_headers c)) (timeout c).

Definition put_request (c : t) (p : endpoint) (payload : value) : request :=
  Request PUT (base_url c) p (Some payload) None (Some (_get_headers c)) (timeout c).

Section Transport.

(** The session and the service behind it: any state, any behaviour. *)
Context {W : Type} (send : request -> W -> (exn + response) * W).

Record state : Type := State { self : t; world : W }.

Definition set_token (tok : value) (s : state) : state :=
  State (Build (base_url (self s)) (timeout (self s)) tok) (world s).

Definition session (r : request) : M state response :=
  fun s =>
    let '(res, w) := send r (world s) in
    (res, State (self s) w).

(** [self.session.post(...)], [.get(...)], [.put(...)]: the request is
    built from the client's fields when it is sent. *)
Definition request_with (build : t -> request) : M state response :=
  fun s => session (build (self s)) s.

Definition register (username password : value) : M state bool :=
  try_except
    (response <- request_with (fun c => register_request c username password) ;;
     if (status_code response =? 200)%Z then ret true
     else if (status_code response =? 409)%Z then ret true
     else ret false)
    (fun e => ret false).

Definition login (username password : value) : M state bool :=
  try_except
    (response <- request_with (fun c => login_request c username password) ;;
     if (status_code response =? 200)%Z then
       data <- eval (json response) ;;
       tok <- eval (py_get data "token" PNone) ;;
       modify (set_token tok) ;;
       (* the f-string of the success message slices the token *)
       _ <- eval (py_slice_to 20 tok) ;;
       ret true
     else ret false)
    (fun e => ret false).

Definition get_tenants : M state value :=
  try_except
    (response <- request_with (fun c => get_request c TenantPath) ;;
     if (status_code response =? 200)%Z then
       tenants <- eval (json response) ;;
       _ <- eval (if is_list tenants then py_len tenants else inr 1%Z) ;;
       ret (if is_list tenants then tenants else PList [tenants])
     else ret PNone)
    (fun e => ret PNone).

Definition get_virtual_services : M state value :=
  try_except
    (response <- request_with (fun c => get_request c VirtualServicePath) ;;
     if (status_code response =? 200)%Z then
       data <- eval (json response) ;;
       services <-
         match data with
         | PDict d =>
             if bool_decide (is_Some (d !! "results"))
             then eval (py_get data "results" (PList []))
             else ret (PList [data])
         | _ => ret (if is_list data then data else PList [data])
         end ;;
       _ <- eval (py_len services) ;;
       ret services
     else ret PNone)
    (fun e => ret PNone).

Definition get_service_engines : M state value :=
  try_except
    (response <- request_with (fun c => get_request c ServiceEnginePath) ;;
     if (status_code response =? 200)%Z then
       engines <- eval (json response) ;;
       let engines_list := if is_list engines then engines else PList [engines] in
       _ <- eval (py_len engines_list) ;;
       ret engines_list
     else ret PNone)
    (fun e => ret PNone).

Definition get_virtual_service_by_uuid (uuid : value) : M state value :=
  try_except
    (response <- request_with (fun c => get_request c (VirtualServiceItemPath uuid)) ;;
     if (status_code response =? 200)%Z then eval (json response)
     else ret PNone)
    (fun e => ret PNone).

(** The body of [for service in services: if service.get('name') == name:
    return service]: [Some service] is the early return. *)
Fixpoint scan_by_name (name : string) (services : list value) : exn + option value :=
  match services with
  | [] => inr None
  | service :: rest =>
      match py_get service "name" PNone with
      | inl e => inl e
      | inr n => if py_eq_str n name then inr (Some service) else scan_by_name name rest
      end
  end.

Definition get_virtual_service_by_name (name : string) : M state value :=
  try_except
    (services <- get_virtual_services ;;
     found <-
       (if truthy services then
          items <- eval (py_iter services) ;;
          eval (scan_by_name name items)
        else ret None) ;;
     match found with
     | Some service => ret service
     | None => ret PNone
     end)
    (fun e => ret PNone).

Definition update_virtual_service (uuid payload : value) : M state value :=
  try_except
    (response <- request_with (fun c => put_request c (VirtualServiceItemPath uuid) payload) ;;
     if (status_code response =? 200)%Z then eval (json response)
     else ret PNone)
    (fun e => ret PNone).

End Transport.

End APIClient.

(** ** config_loader.py *)

(** Sequencing of expressions that may raise. *)
Definition and_then {A B} (r : exn + A) (k : A -> exn + B) : exn + B :=
  match r with
  | inl e => inl e
  | inr a => k a
  end.

Module ConfigLoader.

(** What the file system and [yaml.safe_load] answer for a path.
    [yaml.safe_load] returns [None] for an empty document. *)
Inductive file : Type :=
| Missing
| Unreadable (e : exn)
| Malformed (yaml_error : exn)
| Document (v : value).

Record t : Type := Build { config_file : string; config : value }.

Definition _load_config (config_file : string) (f : file) : exn + value :=
  match f with
  | Missing =>
      inl (Exn "FileNotFoundError" ("Configuration file not found: " ++ config_file))
  | Unreadable e => inl e
  | Malformed e =>
      inl (Exn "ValueError" ("Error parsing YAML configuration: " ++ str_exn e))
  | Document v => inr v
  end.

(** [ConfigLoader(config_file)] on a file system [fs]. *)
Definition __init__ (fs : string -> file) (config_file : string) : exn + t :=
  and_then (_load_config config_file (fs config_file))
           (fun v => inr (Build config_file v)).

Definition get_api_config (self : t) : exn + value :=
  py_get (config self) "api" (PDict ∅).

Definition get_credentials (self : t) : exn + value :=
  py_get (config self) "credentials" (PDict ∅).

Definition get_test_cases (self : t) : exn + value :=
  py_get (config self) "test_cases" (PList []).

Definition get_target_virtual_service (self : t) : exn + value :=
  py_get (config self) "target_virtual_service" (PStr "backend-vs-t1r_1000-1").

Definition get_timeout (self : t) : exn + value :=
  and_then (py_get (config self) "api" (PDict ∅))
           (fun api => py_get api "timeout" (PInt 30)).

Definition get_parallelism_method (self : t) : exn + value :=
  and_then (py_get (config self) "parallelism" (PDict ∅))
           (fun p => py_get p "method" (PStr "threading")).

Definition get_max_workers (self : t) : exn + value :=
  and_then (py_get (config self) "parallelism" (PDict ∅))
           (fun p => py_get p "max_workers" (PInt 4)).

End ConfigLoader.

(** ** test_orchestrator.py *)

(** A [dict] whose order of keys is observed ([items()], [values()]):
    assigning to a present key keeps its place, a new key goes last. *)
Fixpoint dict_set (k : string) (v : value) (d : list (string * value))
  : list (string * value) :=
  match d with
  | [] => [(k, v)]
  | (k', v') :: d' =>
      if String.eqb k' k then (k', v) :: d' else (k', v') :: dict_set k v d'
  end.

Fixpoint dict_lookup (k : string) (d : list (string * value)) : option value :=
  match d with
  | [] => None
  | (k', v') :: d' => if String.eqb k' k then Some v' else dict_lookup k d'
  end.

Module TestOrchestrator.

(** The methods the orchestrator calls on its [api_client], over whatever
    state [C] the client and the service behind it have.  A stub may raise. *)
Class ApiClient (C : Type) : Type := {
  get_tenants : M C value;
  get_virtual_services : M C value;
  get_service_engines : M C value;
  get_virtual_service_by_name : string -> M C value;
  update_virtual_service : value -> value -> M C value;
  get_virtual_service_by_uuid : value -> M C value
}.

Inductive symbol : Type := Tick | Cross | Ring.

(** The lines [run_full_workflow] and [_print_summary] print, one
    constructor per [print] statement (the three prints of a banner
    count as one).  The diagnostics of the stages and of the client format
    run-time data and are not recorded; evaluating their arguments is
    modelled wherever it can raise. *)
Inductive line : Type :=
| WorkflowBanner
| WorkflowStopped
| SummaryBanner
| SummaryStage (status_symbol : symbol) (stage status : string)
| SummaryOverall (overall_status : string)
| SummaryEnd.

Section Orchestrator.

Context {C : Type} `{ApiClient C}.

(** The orchestrator's fields, and the console it prints to. *)
Record t : Type := Build {
  api_client : C;
  target_vs_name : string;
  test_results : list (string * value);
  stdout : list line
}.

Definition __init__ (api_client : C) (target_vs_name : string) : t :=
  Build api_client target_vs_name
        [("pre_fetcher", PNone); ("pre_validation", PNone);
         ("task_trigger", PNone); ("post_validation", PNone)]
        [].

Definition with_client (c : C) (s : t) : t :=
  Build c (target_vs_name s) (test_results s) (stdout s).

Definition with_result (stage : string) (result : value) (s : t) : t :=
  Build (api_client s) (target_vs_name s)
        (dict_set stage result (test_results s)) (stdout s).

Definition with_line (l : line) (s : t) : t :=
  Build (api_client s) (target_vs_name s) (test_results s) (stdout s ++ [l]).

(** [self.api_client.method(...)] *)
Definition call {A} (m : M C A) : M t A :=
  fun s =>
    let '(r, c) := m (api_client s) in
    (r, with_client c s).

(** [self.test_results[stage] = result] *)
Definition record (stage : string) (result : value) : M t unit :=
  modify (with_result stage result).

Definition print (l : line) : M t unit :=
  modify (with_line l).

(** [{'status': 'failed', 'error': str(e)}], recorded and returned. *)
Definition failed_with (stage : string) (e : exn) : M t value :=
  let result := dict_of [("status", PStr "failed"); ("error", PStr (str_exn e))] in
  record stage result ;; ret result.

(** [len(x) if x else 0] *)
Definition count (x : value) : exn + value :=
  if truthy x then and_then (py_len x) (fun n => inr (PInt n)) else inr (PInt 0).

(** The listing loop of stage 1: the f-string evaluates three [vs.get]. *)
Definition show_virtual_services (virtual_services : value) : M t unit :=
  items <- eval (py_iter virtual_services) ;;
  for_each items (fun vs =>
    _ <- eval (py_get vs "name" PNone) ;;
    _ <- eval (py_get vs "uuid" (PStr "N/A")) ;;
    _ <- eval (py_get vs "enabled" PNone) ;;
    ret tt).

Definition stage_1_pre_fetcher : M t value :=
  try_except
    (tenants <- call get_tenants ;;
     virtual_services <- call get_virtual_services ;;
     service_engines <- call get_service_engines ;;
     tenants_count <- eval (count tenants) ;;
     virtual_services_count <- eval (count virtual_services) ;;
     service_engines_count <- eval (count service_engines) ;;
     let result := dict_of
       [("status", PStr "success");
        ("tenants_count", tenants_count);
        ("virtual_services_count", virtual_services_count);
        ("service_engines_count", service_engines_count);
        ("tenants", tenants);
        ("virtual_services", virtual_services);
        ("service_engines", service_engines)] in
     (if truthy virtual_services then show_virtual_services virtual_services
      else ret tt) ;;
     record "pre_fetcher" result ;;
     ret result)
    (failed_with "pre_fetcher").

Definition stage_2_pre_validation : M t value :=
  try_except
    (name <- gets target_vs_name ;;
     target_vs <- call (get_virtual_service_by_name name) ;;
     if negb (truthy target_vs) then
       let result := dict_of
         [("status", PStr "failed");
          ("error", PStr ("Virtual service '" ++ name ++ "' not found"))] in
       record "pre_validation" result ;; ret result
     else
       is_enabled <- eval (py_get target_vs "enabled" (PBool false)) ;;
       uuid <- eval (py_get target_vs "uuid" PNone) ;;
       _ <- eval (py_get target_vs "name" PNone) ;;
       if negb (truthy is_enabled) then
         let result := dict_of
           [("status", PStr "failed");
            ("error", PStr "Virtual service is not enabled");
            ("virtual_service", target_vs)] in
         record "pre_validation" result ;; ret result
       else
         let result := dict_of
           [("status", PStr "success");
            ("virtual_service", target_vs);
            ("uuid", uuid);
            ("enabled", is_enabled)] in
         record "pre_validation" result ;; ret result)
    (failed_with "pre_validation").

Definition stage_3_task_trigger (uuid : value) : M t value :=
  try_except
    (let payload := dict_of [("enabled", PBool false)] in
     response <- call (update_virtual_service uuid payload) ;;
     if is_None response then
       let result := dict_of
         [("status", PStr "failed");
          ("error", PStr "Failed to update virtual service")] in
       record "task_trigger" result ;; ret result
     else
       is_enabled <- eval (py_get response "enabled" (PBool true)) ;;
       if truthy is_enabled then
         let result := dict_of
           [("status", PStr "failed");
            ("error", PStr "Virtual service was not disabled");
            ("response", response)] in
         record "task_trigger" result ;; ret result
       else
         let result := dict_of
           [("status", PStr "success");
            ("response", response);
            ("enabled", is_enabled)] in
         record "task_trigger" result ;; ret result)
    (failed_with "task_trigger").

Definition stage_4_post_validation (uuid : value) : M t value :=
  try_except
    (response <- call (get_virtual_service_by_uuid uuid) ;;
     if is_None response then
       let result := dict_of
         [("status", PStr "failed");
          ("error", PStr "Failed to fetch virtual service")] in
       record "post_validation" result ;; ret result
     else
       is_enabled <- eval (py_get response "enabled" (PBool true)) ;;
       if truthy is_enabled then
         let result := dict_of
           [("status", PStr "failed");
            ("error", PStr "Virtual service is still enabled");
            ("response", response)] in
         record "post_validation" result ;; ret result
       else
         let result := dict_of
           [("status", PStr "success");
            ("response", response);
            ("enabled", is_enabled)] in
         record "post_validation" result ;; ret result)
    (failed_with "post_validation").

(** One line of the summary loop. *)
Definition summary_line (stage : string) (result : value) : exn + line :=
  and_then (if truthy result then py_get result "status" (PStr "unknown")
            else inr (PStr "not-executed"))
    (fun status =>
       let status_symbol :=
         if py_eq_str status "success" then Tick
         else if py_eq_str status "failed" then Cross
         else Ring in
       and_then (py_upper status)
                (fun up => inr (SummaryStage status_symbol (upper stage) up))).

(** [all(r and r.get('status') == 'success' for r in values if r is not None)] *)
Fixpoint all_success (values : list value) : exn + bool :=
  match values with
  | [] => inr true
  | r :: rest =>
      if is_None r then all_success rest
      else if truthy r then
        match py_get r "status" PNone with
        | inl e => inl e
        | inr status =>
            if py_eq_str status "success" then all_success rest else inr false
        end
      else inr false
  end.

Definition overall_status (results : list (string * value)) : exn + string :=
  and_then (all_success results.*2)
           (fun ok => inr (if ok : bool then "PASSED" else "FAILED")).

Definition _print_summary : M t unit :=
  print SummaryBanner ;;
  results <- gets test_results ;;
  for_each results (fun '(stage, result) =>
    l <- eval (summary_line stage result) ;; print l) ;;
  overall <- eval (overall_status results) ;;
  print (SummaryOverall overall) ;;
  print SummaryEnd.

Definition run_full_workflow : M t (list (string * value)) :=
  print WorkflowBanner ;;
  _ <- stage_1_pre_fetcher ;;
  pre_validation <- stage_2_pre_validation ;;
  status <- eval (py_index pre_validation "status") ;;
  if negb (py_eq_str status "success") then
    print WorkflowStopped ;;
    gets test_results
  else
    uuid <- eval (py_get pre_validation "uuid" PNone) ;;
    _ <- stage_3_task_trigger uuid ;;
    _ <- stage_4_post_validation uuid ;;
    _print_summary ;;
    gets test_results.

End Orchestrator.

End TestOrchestrator.

(** ** main.py: the setup of the framework *)

Module TestFramework.

Section Framework.

Context {W : Type} (send : request -> W -> (exn + response) * W).

(** The fields [setup] reads and writes, and the world of the client. *)
Record t : Type := Build {
  config_loader : ConfigLoader.t;
  api_client : option APIClient.t;
  world : W
}.

Definition __init__ (fs : string -> ConfigLoader.file) (config_file : string)
                    (w : W) : exn + t :=
  and_then (ConfigLoader.__init__ fs config_file)
           (fun loader => inr (Build loader None w)).

Definition set_api_client (c : APIClient.t) : M t unit :=
  modify (fun s => Build (config_loader s) (Some c) (world s)).

(** [self.api_client.method(...)]; on [None] the attribute is missing. *)
Definition call {A} (method : string) (m : M (APIClient.state (W := W)) A) : M t A :=
  fun s =>
    match api_client s with
    | None => (inl (AttributeError PNone method), s)
    | Some c =>
        let '(r, s') := m (APIClient.State c (world s)) in
        (r, Build (config_loader s) (Some (APIClient.self s')) (APIClient.world s'))
    end.

(** [not base_url or not credentials.get('username') or not
    credentials.get('password')], evaluated left to right. *)
Definition missing_settings (base_url credentials : value) : exn + bool :=
  if negb (truthy base_url) then inr true
  else
    and_then (py_get credentials "username" PNone) (fun username =>
    if negb (truthy username) then inr true
    else
      and_then (py_get credentials "password" PNone) (fun password =>
      inr (negb (truthy password)))).

Definition setup : M t bool :=
  try_except
    (loader <- gets config_loader ;;
     api_config <- eval (ConfigLoader.get_api_config loader) ;;
     credentials <- eval (ConfigLoader.get_credentials loader) ;;
     base_url <- eval (py_get api_config "base_url" PNone) ;;
     timeout <- eval (ConfigLoader.get_timeout loader) ;;
     missing <- eval (missing_settings base_url credentials) ;;
     if missing : bool then ret false
     else
       client <- eval (APIClient.__init__ base_url timeout) ;;
       set_api_client client ;;
       _ <- eval (py_index credentials "username") ;;
       username <- eval (py_index credentials "username") ;;
       password <- eval (py_index credentials "password") ;;
       (* a false result only prints a warning *)
       _ <- call "register" (APIClient.register send username password) ;;
       _ <- eval (py_index credentials "username") ;;
       username <- eval (py_index credentials "username") ;;
       password <- eval (py_index credentials "password") ;;
       logged_in <- call "login" (APIClient.login send username password) ;;
       if negb logged_in then ret false else ret true)
    (fun e => ret false).

End Framework.

End TestFramework.

(** ** The client the framework passes to the orchestrator *)

Definition real_client {W : Type} (send : request -> W -> (exn + response) * W)
  : TestOrchestrator.ApiClient (APIClient.state (W := W)) :=
  {| TestOrchestrator.get_tenants := APIClient.get_tenants send;
     TestOrchestrator.get_virtual_services := APIClient.get_virtual_services send;
     TestOrchestrator.get_service_engines := APIClient.get_service_engines send;
     TestOrchestrator.get_virtual_service_by_name :=
       APIClient.get_virtual_service_by_name send;
     TestOrchestrator.update_virtual_service := APIClient.update_virtual_service send;
     TestOrchestrator.get_virtual_service_by_uuid :=
       APIClient.get_virtual_service_by_uuid send |}.

(** ** Vocabulary of the statements *)

(** The three fetches of stage 1, in the order it makes them. *)
Definition fetches {C : Type} `{TestOrchestrator.ApiClient C}
  : M C (value * value * value) :=
  tenants <- TestOrchestrator.get_tenants ;;
  virtual_services <- TestOrchestrator.get_virtual_services ;;
  service_engines <- TestOrchestrator.get_service_engines ;;
  ret (tenants, virtual_services, service_engines).

(** An entry of a listing whose [name] field equals the query. *)
Definition has_name (name : string) (entry : value) : Prop :=
  exists d, entry = PDict d /\ d !! "name" = Some (PStr name).

(** A JSON object. *)
Definition is_object (v : value) : Prop := is_dict v = true.

(** What a stage records: a dict whose [status] is the given one. *)
Definition has_status (status : string) (result : value) : Prop :=
  exists d, result = PDict d /\ d !! "status" = Some (PStr status).

Definition stage_result (result : value) : Prop :=
  has_status "success" result \/ has_status "failed" result.

(** An entry of [test_results]: [None] until its stage has run. *)
Definition recorded (result : value) : Prop :=
  result = PNone \/ stage_result result.

(** A fetched result that is absent or a list, and the number it counts for. *)
Definition absent_or_list (v : value) : Prop :=
  v = PNone \/ exists l, v = PList l.

Definition absent_or_objects (v : value) : Prop :=
  v = PNone \/ exists l, v = PList l /\ Forall is_object l.

Definition count_of (v : value) : Z :=
  match v with
  | PList l => Z.of_nat (List.length l)
  | _ => 0
  end.

(** ** Services the statements are tried on *)

Module Examples.

(** A service without state: the answer depends on the request alone. *)
Definition stateless (answer : request -> exn + response)
  : request -> unit -> (exn + response) * unit :=
  fun r w => (answer r, w).

(** A 200 with a JSON body. *)
Definition ok (body : value) : exn + response :=
  inr (Response 200 "" (inr body)).

(** Another status, with a body that is not JSON. *)
Definition refused (status : Z) (body : string) : exn + response :=
  inr (Response status body
         (inl (Exn "JSONDecodeError" "Expecting value: line 1 column 1 (char 0)"))).

Definition unreachable : exn + response :=
  inl (Exn "ConnectionError" "Connection refused").

Definition client_on {W : Type} (w : W) (tok : value) : APIClient.state (W := W) :=
  APIClient.State (APIClient.Build "https://lb.example" (PInt 30) tok) w.

Definition client (tok : value) : APIClient.state (W := unit) := client_on tt tok.

(** Every request is answered 401. *)
Definition unauthorized := stateless (fun _ => refused 401 "Unauthorized").

(** No request gets through. *)
Definition down := stateless (fun _ => unreachable).

(** The login is answered 200 with an object that has no [token]. *)
Definition login_without_token :=
  stateless (fun r =>
    match req_path r with
    | LoginPath => ok (dict_of [("message", PStr "welcome")])
    | _ => refused 404 "Not Found"
    end).

Definition vs_a : value :=
  dict_of [("name", PStr "a"); ("uuid", PStr "vs-1"); ("enabled", PBool true)].

Definition vs_b : value :=
  dict_of [("name", PStr "b"); ("uuid", PStr "vs-2"); ("enabled", PBool false)].

(** The three collections, each in one of the shapes the client accepts. *)
Definition collections :=
  stateless (fun r =>
    match req_path r with
    | TenantPath => ok (dict_of [("name", PStr "admin")])
    | VirtualServicePath => ok (dict_of [("count", PInt 2); ("results", PList [vs_a; vs_b])])
    | ServiceEnginePath => ok (PList [])
    | _ => refused 404 "Not Found"
    end).

(** A listing with an entry that is not an object before the one sought. *)
Definition odd_listing :=
  stateless (fun r =>
    match req_path r with
    | VirtualServicePath => ok (PList [PInt 5; vs_a])
    | _ => refused 404 "Not Found"
    end).

(** A load balancer with one virtual service; its state is the [enabled]
    flag, which a PUT on the item sets. *)
Definition backend (enabled : bool) : value :=
  dict_of [("name", PStr "backend-vs-t1r_1000-1"); ("uuid", PStr "vs-1");
           ("enabled", PBool enabled)].

(** What it answers to the requests that change nothing. *)
Definition read (r : request) (enabled : bool) : exn + response :=
  match req_path r with
  | TenantPath => ok (PList [dict_of [("name", PStr "admin")]])
  | VirtualServicePath => ok (dict_of [("results", PList [backend enabled])])
  | ServiceEnginePath => ok (PList [])
  | VirtualServiceItemPath uuid =>
      if py_eq_str uuid "vs-1" then ok (backend enabled) else refused 404 "Not Found"
  | RegisterPath => refused 409 "User already exists"
  | LoginPath => ok (dict_of [("token", PStr "t0k3n")])
  end.

Definition load_balancer (r : request) (enabled : bool) : (exn + response) * bool :=
  match req_method r, req_path r, req_json r with
  | PUT, VirtualServiceItemPath uuid, Some payload =>
      if py_eq_str uuid "vs-1" then
        match py_get payload "enabled" PNone with
        | inr (PBool b) => (ok (backend b), b)
        | _ => (refused 400 "Bad Request", enabled)
        end
      else (refused 404 "Not Found", enabled)
  | _, _, _ => (read r enabled, enabled)
  end.

(** The same, refusing every update. *)
Definition read_only (r : request) (enabled : bool) : (exn + response) * bool :=
  match req_method r with
  | PUT => (refused 403 "Forbidden", enabled)
  | _ => (read r enabled, enabled)
  end.

(** The same, answering every update with the service as it is. *)
Definition ignores_updates (r : request) (enabled : bool)
  : (exn + response) * bool :=
  match req_method r with
  | PUT => (ok (backend enabled), enabled)
  | _ => (read r enabled, enabled)
  end.

(** A registration service that is down, in front of one that logs in. *)
Definition no_registration (r : request) (enabled : bool) : (exn + response) * bool :=
  match req_path r with
  | RegisterPath => (refused 500 "Internal Server Error", enabled)
  | _ => (read r enabled, enabled)
  end.

(** A file system whose every path holds an empty YAML document. *)
Definition empty_file (path : string) : ConfigLoader.file :=
  ConfigLoader.Document PNone.

(** The configuration the framework is set up from. *)
Definition settings : value :=
  dict_of
    [("api", dict_of [("base_url", PStr "https://lb.example/"); ("timeout", PInt 10)]);
     ("credentials", dict_of [("username", PStr "admin"); ("password", PStr "secret")]);
     ("test_cases", PList [dict_of [("name", PStr "disable-backend")]])].

End Examples.

(** ** main.py: running the test cases *)

Module TestRun.

(** What [run_test_case] returns: [{'test_name', 'status': 'completed',
    'results'}], where [results] is the orchestrator's ordered
    [test_results], or [{'test_name', 'status': 'failed', 'error'}]. *)
Inductive outcome : Type :=
| Completed (test_name : value) (results : list (string * value))
| Failed (test_name : value) (error : string).

(** [result.get('test_name', 'unknown')] and [result.get('status', 'unknown')] *)
Definition test_name (result : outcome) : value :=
  match result with
  | Completed n _ => n
  | Failed n _ => n
  end.

Definition status (result : outcome) : string :=
  match result with
  | Completed _ _ => "completed"
  | Failed _ _ => "failed"
  end.

(** The lines [print_final_summary] prints, one constructor per [print]
    statement; an f-string is kept with the values it formats. *)
Inductive final_line : Type :=
| FinalBanner
| FinalTestCase (test_name : value)
| FinalStatus (status : string)
| FinalStage (stage : string) (stage_status : value)
| FinalError (error : string)
| FinalEnd.

Section Run.

Context {W : Type} (send : request -> W -> (exn + response) * W).

(** What the orchestrator's embedding does not cover is left open: the
    workflow for a target name that is not a [str] (the orchestrator formats
    and compares that value), and the three strategies that run the test
    cases on threads, on processes and on an event loop. *)
Context (workflow_for_other_target :
           value -> M (TestFramework.t (W := W)) (list (string * value))).
Context (run_tests_in_parallel_threading
         run_tests_in_parallel_multiprocessing
         run_tests_async : value -> M (TestFramework.t (W := W)) (list outcome)).

(** [self.api_client], as the orchestrators built by [run_test_case] use
    it: the framework's client, [None] until [setup] has built one. *)
Definition shared_client : TestOrchestrator.ApiClient (TestFramework.t (W := W)) :=
  {| TestOrchestrator.get_tenants :=
       TestFramework.call "get_tenants" (APIClient.get_tenants send);
     TestOrchestrator.get_virtual_services :=
       TestFramework.call "get_virtual_services" (APIClient.get_virtual_services send);
     TestOrchestrator.get_service_engines :=
       TestFramework.call "get_service_engines" (APIClient.get_service_engines send);
     TestOrchestrator.get_virtual_service_by_name := fun name =>
       TestFramework.call "get_virtual_service_by_name"
         (APIClient.get_virtual_service_by_name send name);
     TestOrchestrator.update_virtual_service := fun uuid payload =>
       TestFramework.call "update_virtual_service"
         (APIClient.update_virtual_service send uuid payload);
     TestOrchestrator.get_virtual_service_by_uuid := fun uuid =>
       TestFramework.call "get_virtual_service_by_uuid"
         (APIClient.get_virtual_service_by_uuid send uuid) |}.

(** [TestOrchestrator(self.api_client, target).run_full_workflow()]; what
    the orchestrator prints is not kept. *)
Definition workflow (target : value)
  : M (TestFramework.t (W := W)) (list (string * value)) :=
  match target with
  | PStr name =>
      fun fw =>
        let '(r, o) :=
          TestOrchestrator.run_full_workflow (H := shared_client)
            (TestOrchestrator.__init__ fw name) in
        (r, TestOrchestrator.api_client o)
  | _ => workflow_for_other_target target
  end.

Definition run_test_case (test_case : value) : M (TestFramework.t (W := W)) outcome :=
  test_name <- eval (py_get test_case "name" (PStr "unknown")) ;;
  try_except
    (loader <- gets TestFramework.config_loader ;;
     target_default <- eval (ConfigLoader.get_target_virtual_service loader) ;;
     target <- eval (py_get test_case "target_virtual_service" target_default) ;;
     result <- workflow target ;;
     ret (Completed test_name result))
    (fun e => ret (Failed test_name (str_exn e))).

(** [for test_case in test_cases: results.append(self.run_test_case(test_case))] *)
Fixpoint run_each (test_cases : list value) (results : list outcome)
  : M (TestFramework.t (W := W)) (list outcome) :=
  match test_cases with
  | [] => ret results
  | test_case :: rest =>
      result <- run_test_case test_case ;;
      run_each rest (results ++ [result])
  end.

Definition run_tests_sequentially (test_cases : value)
  : M (TestFramework.t (W := W)) (list outcome) :=
  (* the first message formats len(test_cases) *)
  _ <- eval (py_len test_cases) ;;
  items <- eval (py_iter test_cases) ;;
  run_each items [].

(** The framework with the field [run_tests] assigns. *)
Record t : Type := Build {
  framework : TestFramework.t (W := W);
  test_results : list outcome
}.

(** A method of the framework that leaves [test_results] alone. *)
Definition on_framework {A} (m : M (TestFramework.t (W := W)) A) : M t A :=
  fun s =>
    let '(r, fw) := m (framework s) in
    (r, Build fw (test_results s)).

Definition set_test_results (results : list outcome) : M t unit :=
  modify (fun s => Build (framework s) results).

Definition run_tests (parallelism_method : value) : M t (list outcome) :=
  loader <- gets (fun s => TestFramework.config_loader (framework s)) ;;
  test_cases <- eval (ConfigLoader.get_test_cases loader) ;;
  if negb (truthy test_cases) then ret []
  else
    parallelism_method <-
      (if is_None parallelism_method
       then eval (ConfigLoader.get_parallelism_method loader)
       else ret parallelism_method) ;;
    if py_eq_str parallelism_method "sequential" then
      results <- on_framework (run_tests_sequentially test_cases) ;;
      set_test_results results ;; gets test_results
    else if py_eq_str parallelism_method "threading" then
      results <- on_framework (run_tests_in_parallel_threading test_cases) ;;
      set_test_results results ;; gets test_results
    else if py_eq_str parallelism_method "multiprocessing" then
      results <- on_framework (run_tests_in_parallel_multiprocessing test_cases) ;;
      set_test_results results ;; gets test_results
    else if py_eq_str parallelism_method "asyncio" then
      results <- on_framework (run_tests_async test_cases) ;;
      set_test_results results ;; gets test_results
    else ret [].

(** [print(line)] on a console. *)
Definition print (l : final_line) : M (list final_line) unit :=
  modify (fun console : list final_line => (console ++ [l])%list).

(** The lines of one stage of a completed test case. *)
Definition print_stage (entry : string * value) : M (list final_line) unit :=
  let '(stage, stage_result) := entry in
  stage_status <-
    eval (if truthy stage_result then py_get stage_result "status" (PStr "unknown")
          else inr (PStr "not-executed")) ;;
  print (FinalStage stage stage_status).

(** [print_final_summary], on the [self.test_results] it reads. *)
Definition print_final_summary (test_results : list outcome)
  : M (list final_line) unit :=
  print FinalBanner ;;
  for_each test_results (fun result =>
    print (FinalTestCase (test_name result)) ;;
    print (FinalStatus (status result)) ;;
    match result with
    | Completed _ workflow_results => for_each workflow_results print_stage
    | Failed _ error => print (FinalError error)
    end) ;;
  print FinalEnd.

(** [main()] once the command line is parsed into [args.config] and
    [args.parallel] ([None] or one of the four choices), on a file system
    and a service: the exit status of the process and the service it
    leaves.  [sys.exit(1)] is the status 1, falling off the end the status
    0.  An interrupt from the keyboard is not among the exceptions
    modelled. *)
Definition main (fs : string -> ConfigLoader.file) (config : string) (parallel : value)
                (w : W) : Z * W :=
  match TestFramework.__init__ fs config w with
  | inl _ => (1, w)
  | inr fw =>
      match TestFramework.setup send fw with
      | (inr true, fw') =>
          match run_tests parallel (Build fw' []) with
          | (inr _, s) =>
              match print_final_summary (test_results s) [] with
              | (inr _, _) => (0, TestFramework.world (framework s))
              | (inl _, _) => (1, TestFramework.world (framework s))
              end
          | (inl _, s) => (1, TestFramework.world (framework s))
          end
      | (_, fw') => (1, TestFramework.world fw')
      end
  end.

End Run.

End TestRun.

(** ** Vocabulary of the further statements *)

(** An answer that carries no body to use: the transport raised, the
    status is not 200, or the body does not decode. *)
Definition no_body (res : exn + response) : Prop :=
  match res with
  | inl _ => True
  | inr response => status_code response <> 200%Z \/ exists e, json response = inl e
  end.

(** Whether a recorded result reports success. *)
Definition succeeded (result : value) : bool :=
  match py_get result "status" PNone with
  | inr status => py_eq_str status "success"
  | inl _ => false
  end.

(** The line of the summary for a stage that has run. *)
Definition stage_line (stage : string) (result : value) : TestOrchestrator.line :=
  if succeeded result
  then TestOrchestrator.SummaryStage TestOrchestrator.Tick stage "SUCCESS"
  else TestOrchestrator.SummaryStage TestOrchestrator.Cross stage "FAILED".

(** [n] slashes. *)
Fixpoint slashes (n : nat) : string :=
  match n with
  | O => ""
  | S n' => String "/" (slashes n')
  end.

(** A property of the state that a computation keeps, whether it returns
    or raises. *)
Definition preserves {S A : Type} (Q : S -> Prop) (m : M S A) : Prop :=
  forall s, Q s -> Q (snd (m s)).

(** A property of the orchestrator's client. *)
Definition of_client {C : Type} `{TestOrchestrator.ApiClient C} (Q : C -> Prop)
                     (o : TestOrchestrator.t) : Prop :=
  Q (TestOrchestrator.api_client o).

(** The status the final summary shows for a recorded stage. *)
Definition shown_status (stage_result : value) : value :=
  match stage_result with
  | PDict d => default (PStr "not-executed") (d !! "status")
  | _ => PStr "not-executed"
  end.

(** The lines the final summary shows for one outcome. *)
Definition final_lines (result : TestRun.outcome) : list TestRun.final_line :=
  TestRun.FinalTestCase (TestRun.test_name result) ::
  TestRun.FinalStatus (TestRun.status result) ::
  match result with
  | TestRun.Completed _ results =>
      map (fun entry : string * value =>
             TestRun.FinalStage entry.1 (shown_status entry.2)) results
  | TestRun.Failed _ error => [TestRun.FinalError error]
  end.

(** An outcome whose stages hold what the orchestrator records. *)
Definition well_formed (result : TestRun.outcome) : Prop :=
  match result with
  | TestRun.Completed _ results =>
      Forall (fun entry : string * value => recorded entry.2) results
  | TestRun.Failed _ _ => True
  end.

(** The target of a test case, given the default of the configuration. *)
Definition target_of (cfg : gmap string value) (test_case : value) : value :=
  match test_case with
  | PDict d =>
      default (default (PStr "backend-vs-t1r_1000-1") (cfg !! "target_virtual_service"))
              (d !! "target_virtual_service")
  | _ => PNone
  end.

Definition is_str (v : value) : bool :=
  match v with
  | PStr _ => true
  | _ => false
  end.

(** ** More services and settings the statements are tried on *)

Module MoreExamples.

(** Every request is answered 200 with an empty list. *)
Definition answers_empty_list := Examples.stateless (fun _ => Examples.ok (PList [])).

(** A file system whose every path holds a YAML document that is a list. *)
Definition list_file (path : string) : ConfigLoader.file :=
  ConfigLoader.Document (PList [PStr "a"]).

(** A file system whose every path holds the settings of [Examples]. *)
Definition settings_file (path : string) : ConfigLoader.file :=
  ConfigLoader.Document Examples.settings.

(** Settings with two test cases and, between them, an entry that is not a
    mapping. *)
Definition odd_batch : gmap string value :=
  list_to_map
    [("api", dict_of [("base_url", PStr "https://lb.example/"); ("timeout", PInt 10)]);
     ("credentials", dict_of [("username", PStr "admin"); ("password", PStr "secret")]);
     ("test_cases",
      PList [dict_of [("name", PStr "first")]; PStr "second";
             dict_of [("name", PStr "third")]])].

Definition odd_batch_file (path : string) : ConfigLoader.file :=
  ConfigLoader.Document (PDict odd_batch).

(** A framework set up from a configuration, on the load balancer. *)
Definition framework_on (cfg : value) (enabled : bool)
  : TestFramework.t (W := bool) :=
  TestFramework.Build (ConfigLoader.Build "test_config.yaml" cfg)
    (Some (APIClient.Build "https://lb.example" (PInt 10) (PStr "t0k3n"))) enabled.

(** The workflow for a target that is not a [str], and a strategy, taken
    to raise. *)
Definition unsupported {S A : Type} (v : value) : M S A :=
  raise (Exn "RuntimeError" "unsupported").

End MoreExamples.

(** * Properties *)

(** ** Values and the monad *)

Lemma py_get_dict d key dflt :
  py_get (PDict d) key dflt = inr (default dflt (d !! key)).
Proof. reflexivity. Qed.

Lemma py_get_raises v key dflt :
  is_dict v = false -> py_get v key dflt = inl (AttributeError v "get").
Proof. destruct v; simpl; intros Hd; try reflexivity; discriminate. Qed.

Lemma py_eq_str_spec v s : py_eq_str v s = true <-> v = PStr s.
Proof.
  destruct v; simpl; split; intros Hv; try discriminate.
  - apply String.eqb_eq in Hv. now subst.
  - injection Hv as ->. apply String.eqb_refl.
Qed.

Lemma for_each_state {S A} (xs : list A) (body : A -> M S unit) (s : S) :
  (forall x s0, snd (body x s0) = s0) -> snd (for_each xs body s) = s.
Proof.
  intros Hbody. revert s.
  induction xs as [|x xs IH]; intros s; simpl; [reflexivity|].
  unfold bind. specialize (Hbody x s).
  destruct (body x s) as [[e|[]] s1]; simpl in *; subst; [reflexivity|apply IH].
Qed.

Lemma dict_lookup_set_eq k v d : dict_lookup k (dict_set k v d) = Some v.
Proof.
  induction d as [|[k' v'] d IH]; simpl.
  - now rewrite String.eqb_refl.
  - destruct (String.eqb k' k) eqn:Hk; simpl; rewrite Hk; [reflexivity|exact IH].
Qed.

Lemma dict_lookup_set_ne k k' v d :
  k <> k' -> dict_lookup k' (dict_set k v d) = dict_lookup k' d.
Proof.
  intros Hne. induction d as [|[k0 v0] d IH]; simpl.
  - destruct (String.eqb_spec k k'); [contradiction|reflexivity].
  - destruct (String.eqb_spec k0 k) as [->|Hk]; simpl.
    + destruct (String.eqb_spec k k'); [contradiction|reflexivity].
    + destruct (String.eqb k0 k'); [reflexivity|exact IH].
Qed.

Lemma has_status_truthy status r : has_status status r -> truthy r = true.
Proof.
  intros (d & -> & Hd). simpl. apply negb_true_iff, bool_decide_eq_false.
  intros ->. rewrite lookup_empty in Hd. discriminate.
Qed.

Lemma has_status_index status r :
  has_status status r -> py_index r "status" = inr (PStr status).
Proof. intros (d & -> & Hd). simpl. now rewrite Hd. Qed.

Lemma has_status_get status r dflt :
  has_status status r -> py_get r "status" dflt = inr (PStr status).
Proof. intros (d & -> & Hd). simpl. now rewrite Hd. Qed.

Lemma has_status_inj s1 s2 r : has_status s1 r -> has_status s2 r -> s1 = s2.
Proof. intros (d & -> & Hd) (d' & [= <-] & Hd'). congruence. Qed.

Lemma bind_returns {S A B} (m : M S A) (k : A -> M S B) s a s' :
  m s = (inr a, s') -> bind m k s = k a s'.
Proof. unfold bind. now intros ->. Qed.

Lemma bind_raises {S A B} (m : M S A) (k : A -> M S B) s e s' :
  m s = (inl e, s') -> bind m k s = (inl e, s').
Proof. unfold bind. now intros ->. Qed.

(** ** The API client *)

Module APIClientFacts.
Import APIClient.

Section Transport.

Context {W : Type} (send : request -> W -> (exn + response) * W).

Lemma headers_without_token (c : t) :
  truthy (token c) = false -> _get_headers c !! "Authorization" = None.
Proof. unfold _get_headers. intros ->. reflexivity. Qed.

Lemma headers_with_token (c : t) :
  truthy (token c) = true ->
  _get_headers c !! "Authorization" = Some (HBearer (token c)).
Proof. unfold _get_headers. intros ->. apply lookup_insert_eq. Qed.

Lemma headers_content_type (c : t) :
  _get_headers c !! "Content-Type" = Some (HText "application/json").
Proof. unfold _get_headers. destruct (truthy (token c)); reflexivity. Qed.

(** What [register] answers, from what the transport answers. *)
Lemma register_run (s : state) (username password : value) res w' :
  send (register_request (self s) username password) (world s) = (res, w') ->
  register send username password s =
    (inr match res with
         | inl _ => false
         | inr response =>
             ((status_code response =? 200)%Z || (status_code response =? 409)%Z)%bool
         end,
     State (self s) w').
Proof.
  intros Hsend.
  unfold register, try_except, bind, request_with, session, ret.
  rewrite Hsend.
  destruct res as [e|response]; [reflexivity|].
  destruct (status_code response =? 200)%Z; [reflexivity|].
  destruct (status_code response =? 409)%Z; reflexivity.
Qed.

(** A login that fails before the token is assigned. *)
Lemma login_rejected (s : state) (username password : value) res w' :
  send (login_request (self s) username password) (world s) = (res, w') ->
  (forall response, res = inr response -> status_code response <> 200%Z) ->
  login send username password s = (inr false, State (self s) w').
Proof.
  intros Hsend Hstatus.
  unfold login, try_except, bind, request_with, session, ret.
  rewrite Hsend.
  destruct res as [e|response]; [reflexivity|].
  specialize (Hstatus response eq_refl). apply Z.eqb_neq in Hstatus.
  rewrite Hstatus. reflexivity.
Qed.

(** A 200 whose body is an object: the token is assigned whatever it is,
    then the success message slices it. *)
Lemma login_accepted (s : state) (username password : value) response w' d :
  send (login_request (self s) username password) (world s) = (inr response, w') ->
  status_code response = 200%Z ->
  json response = inr (PDict d) ->
  login send username password s =
    (inr match py_slice_to 20 (default PNone (d !! "token")) with
         | inl _ => false
         | inr _ => true
         end,
     set_token (default PNone (d !! "token")) (State (self s) w')).
Proof.
  intros Hsend Hstatus Hjson.
  unfold login, try_except, bind, request_with, session, ret, eval, modify.
  rewrite Hsend, Hstatus, Hjson.
  simpl. destruct (py_slice_to 20 (default PNone (d !! "token"))); reflexivity.
Qed.

Lemma get_tenants_run (s : state) res w' :
  send (get_request (self s) TenantPath) (world s) = (res, w') ->
  get_tenants send s =
    (inr match res with
         | inl _ => PNone
         | inr response =>
             if (status_code response =? 200)%Z then
               match json response with
               | inl _ => PNone
               | inr body => if is_list body then body else PList [body]
               end
             else PNone
         end,
     State (self s) w').
Proof.
  intros Hsend.
  unfold get_tenants, try_except, bind, request_with, session, ret, eval.
  rewrite Hsend.
  destruct res as [e|response]; [reflexivity|].
  destruct (status_code response =? 200)%Z; [|reflexivity].
  destruct (json response) as [e|body]; [reflexivity|].
  destruct body; reflexivity.
Qed.

Lemma get_service_engines_run (s : state) res w' :
  send (get_request (self s) ServiceEnginePath) (world s) = (res, w') ->
  get_service_engines send s =
    (inr match res with
         | inl _ => PNone
         | inr response =>
             if (status_code response =? 200)%Z then
               match json response with
               | inl _ => PNone
               | inr body => if is_list body then body else PList [body]
               end
             else PNone
         end,
     State (self s) w').
Proof.
  intros Hsend.
  unfold get_service_engines, try_except, bind, request_with, session, ret, eval.
  rewrite Hsend.
  destruct res as [e|response]; [reflexivity|].
  destruct (status_code response =? 200)%Z; [|reflexivity].
  destruct (json response) as [e|body]; [reflexivity|].
  destruct body; reflexivity.
Qed.

(** The listing a 200 body gives: the value under [results] when the body
    is an object with that key (absent when it has no length), a list as it
    is, anything else wrapped. *)
Lemma get_virtual_services_run (s : state) res w' :
  send (get_request (self s) VirtualServicePath) (world s) = (res, w') ->
  get_virtual_services send s =
    (inr match res with
         | inl _ => PNone
         | inr response =>
             if (status_code response =? 200)%Z then
               match json response with
               | inl _ => PNone
               | inr (PDict d) =>
                   match d !! "results" with
                   | Some inner =>
                       match py_len inner with inl _ => PNone | inr _ => inner end
                   | None => PList [PDict d]
                   end
               | inr body => if is_list body then body else PList [body]
               end
             else PNone
         end,
     State (self s) w').
Proof.
  intros Hsend.
  unfold get_virtual_services, try_except, bind, request_with, session, ret, eval.
  rewrite Hsend.
  destruct res as [e|response]; [reflexivity|].
  destruct (status_code response =? 200)%Z; [|reflexivity].
  destruct (json response) as [e|body]; [reflexivity|].
  destruct body as [| | | | |l|d]; try reflexivity.
  destruct (d !! "results") as [inner|] eqn:Hres.
  - rewrite bool_decide_eq_true_2 by eauto. simpl. rewrite Hres. simpl.
    destruct (py_len inner); reflexivity.
  - rewrite bool_decide_eq_false_2 by (intros [x Hx]; discriminate). reflexivity.
Qed.

Lemma get_virtual_services_returns (s : state) :
  exists listing w', get_virtual_services send s = (inr listing, State (self s) w').
Proof.
  destruct (send (get_request (self s) VirtualServicePath) (world s)) as [res w'] eqn:Hsend.
  rewrite (get_virtual_services_run _ _ _ Hsend). eauto.
Qed.

(** *** The scan of [get_virtual_service_by_name] *)

Lemma has_name_get name entry :
  has_name name entry <->
  exists n, py_get entry "name" PNone = inr n /\ py_eq_str n name = true.
Proof.
  split.
  - intros (d & -> & Hd). exists (PStr name). simpl. rewrite Hd. simpl.
    split; [reflexivity|apply String.eqb_refl].
  - intros (n & Hget & Heq). apply py_eq_str_spec in Heq. subst n.
    destruct entry; try discriminate. simpl in Hget.
    exists d. split; [reflexivity|].
    destruct (d !! "name") as [x|]; simpl in Hget; [congruence|discriminate].
Qed.

Lemma scan_by_name_skip name entry rest :
  is_object entry -> ~ has_name name entry ->
  scan_by_name name (entry :: rest) = scan_by_name name rest.
Proof.
  intros Hobj Hno. destruct entry; try discriminate. simpl.
  destruct (py_eq_str (default PNone (d !! "name")) name) eqn:Heq; [|reflexivity].
  exfalso. apply Hno. apply has_name_get. eexists. split; [reflexivity|exact Heq].
Qed.

Lemma scan_by_name_found name before entry after :
  Forall is_object before -> Forall (fun x => ~ has_name name x) before ->
  has_name name entry ->
  scan_by_name name (before ++ entry :: after) = inr (Some entry).
Proof.
  intros Hobj Hno Hentry.
  induction before as [|x before IH].
  - destruct Hentry as (d & -> & Hd). simpl. rewrite Hd. simpl.
    now rewrite String.eqb_refl.
  - apply Forall_cons in Hobj as [Hx Hobj]. apply Forall_cons in Hno as [Hnx Hno].
    rewrite <- app_comm_cons, scan_by_name_skip by assumption. now apply IH.
Qed.

Lemma scan_by_name_no_match name entries :
  Forall (fun x => ~ has_name name x) entries ->
  forall entry, scan_by_name name entries <> inr (Some entry).
Proof.
  intros Hno.
  induction entries as [|x entries IH]; intros entry; simpl; [discriminate|].
  apply Forall_cons in Hno as [Hnx Hno].
  destruct (py_get x "name" PNone) as [e|n] eqn:Hget; [discriminate|].
  destruct (py_eq_str n name) eqn:Heq; [|now apply IH].
  exfalso. apply Hnx. apply has_name_get. eauto.
Qed.

Lemma scan_by_name_blocked name before x after :
  Forall (fun y => ~ has_name name y) before -> ~ is_object x ->
  exists e, scan_by_name name (before ++ x :: after) = inl e.
Proof.
  intros Hno Hx.
  induction before as [|y before IH]; simpl.
  - rewrite py_get_raises; [eauto|]. unfold is_object in Hx. now destruct (is_dict x).
  - apply Forall_cons in Hno as [Hny Hno].
    destruct (py_get y "name" PNone) as [e|n] eqn:Hget; [eauto|].
    destruct (py_eq_str n name) eqn:Heq; [|now apply IH].
    exfalso. apply Hny. apply has_name_get. eauto.
Qed.

(** [get_virtual_service_by_name], from the listing [get_virtual_services]
    returns to it. *)
Lemma by_name_run (s s' : state) (name : string) (listing : value) :
  get_virtual_services send s = (inr listing, s') ->
  get_virtual_service_by_name send name s =
    (inr match (if truthy listing
                then and_then (py_iter listing) (scan_by_name name)
                else inr None) with
         | inr (Some service) => service
         | _ => PNone
         end,
     s').
Proof.
  intros Hlist.
  unfold get_virtual_service_by_name, try_except, bind, ret, eval.
  rewrite Hlist.
  destruct (truthy listing); [|reflexivity].
  destruct (py_iter listing) as [e|items]; [reflexivity|]. simpl.
  destruct (scan_by_name name items) as [e|[service|]]; reflexivity.
Qed.

Lemma iter_not_list_blocked name listing :
  is_list listing = false -> truthy listing = true ->
  exists e, and_then (py_iter listing) (scan_by_name name) = inl e.
Proof.
  intros Hl Ht. destruct listing as [| | | |str|l|d]; simpl; eauto; try discriminate.
  - destruct str as [|c str]; [discriminate|]. simpl. eauto.
  - simpl in Ht. apply negb_true_iff, bool_decide_eq_false in Ht.
    destruct (map_to_list d) as [|[k v] rest] eqn:Hd.
    + now apply map_to_list_empty_iff in Hd.
    + simpl. eauto.
Qed.

(** *** The claims on the client *)

(** C2.  A login answered with a status other than 200, or not answered at
    all (the transport raises), returns [False] and leaves the client as it
    was, its token included; so, when no token was present, the headers
    [_get_headers] builds afterwards have no [Authorization]. *)
Theorem login_failure_keeps_token (s : state) (username password : value) res w' :
  send (login_request (self s) username password) (world s) = (res, w') ->
  (forall response, res = inr response -> status_code response <> 200%Z) ->
  exists s',
    login send username password s = (inr false, s') /\
    self s' = self s /\
    token (self s') = token (self s) /\
    (truthy (token (self s)) = false ->
     _get_headers (self s') !! "Authorization" = None).
Proof.
  intros Hsend Hstatus. exists (State (self s) w').
  split; [now apply login_rejected with (res := res)|].
  simpl. repeat split. apply headers_without_token.
Qed.

(** C3.  On a 200, [get_virtual_services] returns the list under [results]
    when the body is an object with that key, a list body as it is, and an
    object without [results] as a one-element list; [get_tenants] and
    [get_service_engines] return a list body as it is and wrap any other
    body into a one-element list. *)
Theorem listing_normalisation (s : state) response w' body :
  status_code response = 200%Z ->
  json response = inr body ->
  (send (get_request (self s) VirtualServicePath) (world s) = (inr response, w') ->
   (forall d inner, body = PDict d -> d !! "results" = Some (PList inner) ->
      get_virtual_services send s = (inr (PList inner), State (self s) w')) /\
   (forall l, body = PList l ->
      get_virtual_services send s = (inr (PList l), State (self s) w')) /\
   (forall d, body = PDict d -> d !! "results" = None ->
      get_virtual_services send s = (inr (PList [PDict d]), State (self s) w'))) /\
  (send (get_request (self s) TenantPath) (world s) = (inr response, w') ->
   (forall l, body = PList l ->
      get_tenants send s = (inr (PList l), State (self s) w')) /\
   (is_list body = false ->
      get_tenants send s = (inr (PList [body]), State (self s) w'))) /\
  (send (get_request (self s) ServiceEnginePath) (world s) = (inr response, w') ->
   (forall l, body = PList l ->
      get_service_engines send s = (inr (PList l), State (self s) w')) /\
   (is_list body = false ->
      get_service_engines send s = (inr (PList [body]), State (self s) w'))).
Proof.
  intros Hstatus Hjson. repeat split.
  - intros d inner -> Hres. rewrite (get_virtual_services_run _ _ _ H).
    rewrite Hstatus, Hjson, Hres. reflexivity.
  - intros l ->. rewrite (get_virtual_services_run _ _ _ H).
    rewrite Hstatus, Hjson. reflexivity.
  - intros d -> Hres. rewrite (get_virtual_services_run _ _ _ H).
    rewrite Hstatus, Hjson, Hres. reflexivity.
  - intros l ->. rewrite (get_tenants_run _ _ _ H).
    rewrite Hstatus, Hjson. reflexivity.
  - intros Hl. rewrite (get_tenants_run _ _ _ H).
    rewrite Hstatus, Hjson, Hl. reflexivity.
  - intros l ->. rewrite (get_service_engines_run _ _ _ H).
    rewrite Hstatus, Hjson. reflexivity.
  - intros Hl. rewrite (get_service_engines_run _ _ _ H).
    rewrite Hstatus, Hjson, Hl. reflexivity.
Qed.

(** C4, as amended.  Whatever listing [get_virtual_services] returns to it,
    [get_virtual_service_by_name] returns the first entry whose [name]
    equals the query when every entry before it is an object; it returns
    [None] when the listing is absent (or not a list), when no entry has the
    name, and when an entry that is not an object comes before the first
    entry that has it. *)
Theorem by_name_first_match (s s' : state) (name : string) (listing : value) :
  get_virtual_services send s = (inr listing, s') ->
  (forall before entry after,
      listing = PList (before ++ entry :: after) ->
      Forall is_object before ->
      Forall (fun x => ~ has_name name x) before ->
      has_name name entry ->
      get_virtual_service_by_name send name s = (inr entry, s')) /\
  (is_list listing = false ->
      get_virtual_service_by_name send name s = (inr PNone, s')) /\
  (forall entries,
      listing = PList entries ->
      Forall (fun x => ~ has_name name x) entries ->
      get_virtual_service_by_name send name s = (inr PNone, s')) /\
  (forall before x after,
      listing = PList (before ++ x :: after) ->
      Forall (fun y => ~ has_name name y) before ->
      ~ is_object x ->
      get_virtual_service_by_name send name s = (inr PNone, s')).
Proof.
  intros Hlist. rewrite (by_name_run _ _ name _ Hlist). repeat split.
  - intros before entry after -> Hobj Hno Hentry.
    replace (truthy (PList (before ++ entry :: after))) with true
      by (now destruct before).
    simpl. now rewrite scan_by_name_found.
  - intros Hl. destruct (truthy listing) eqn:Ht; [|reflexivity].
    destruct (iter_not_list_blocked name _ Hl Ht) as [e ->]. reflexivity.
  - intros entries -> Hno. destruct (truthy (PList entries)); [|reflexivity].
    simpl. pose proof (scan_by_name_no_match name entries Hno) as Hscan.
    destruct (scan_by_name name entries) as [e|[entry|]]; try reflexivity.
    now destruct (Hscan entry).
  - intros before x after -> Hno Hx.
    replace (truthy (PList (before ++ x :: after))) with true
      by (now destruct before).
    simpl. destruct (scan_by_name_blocked name before x after Hno Hx) as [e ->].
    reflexivity.
Qed.

(** C9.  A login answered 200 with an object that has no [token] returns
    [False], and by then the stored token has been replaced by [None],
    whatever it was. *)
Theorem login_without_token_field_drops_token
    (s : state) (username password : value) response w' d :
  send (login_request (self s) username password) (world s) = (inr response, w') ->
  status_code response = 200%Z ->
  json response = inr (PDict d) ->
  d !! "token" = None ->
  exists s',
    login send username password s = (inr false, s') /\
    token (self s') = PNone /\
    _get_headers (self s') !! "Authorization" = None.
Proof.
  intros Hsend Hstatus Hjson Htoken.
  rewrite (login_accepted _ _ _ _ _ _ Hsend Hstatus Hjson), Htoken.
  eexists. split; [reflexivity|]. split; reflexivity.
Qed.

End Transport.

(** *** The claims at concrete services *)

Lemma login_failure_keeps_token_witness :
  (exists s',
     login Examples.unauthorized (PStr "admin") (PStr "secret") (Examples.client PNone)
       = (inr false, s') /\
     self s' = self (Examples.client PNone) /\
     token (self s') = token (self (Examples.client PNone)) /\
     (truthy (token (self (Examples.client PNone))) = false ->
      _get_headers (self s') !! "Authorization" = None)) /\
  (exists s',
     login Examples.down (PStr "admin") (PStr "secret") (Examples.client (PStr "t0k3n"))
       = (inr false, s') /\
     self s' = self (Examples.client (PStr "t0k3n")) /\
     token (self s') = token (self (Examples.client (PStr "t0k3n"))) /\
     (truthy (token (self (Examples.client (PStr "t0k3n")))) = false ->
      _get_headers (self s') !! "Authorization" = None)).
Proof.
  split.
  - apply (login_failure_keeps_token Examples.unauthorized (Examples.client PNone)
             (PStr "admin") (PStr "secret") (Examples.refused 401 "Unauthorized") tt).
    + reflexivity.
    + intros response [= <-]. simpl. lia.
  - apply (login_failure_keeps_token Examples.down (Examples.client (PStr "t0k3n"))
             (PStr "admin") (PStr "secret") Examples.unreachable tt).
    + reflexivity.
    + intros response [=].
Defined.

Lemma listing_normalisation_witness :
  get_virtual_services Examples.collections (Examples.client (PStr "t0k3n"))
    = (inr (PList [Examples.vs_a; Examples.vs_b]), Examples.client (PStr "t0k3n")) /\
  get_tenants Examples.collections (Examples.client (PStr "t0k3n"))
    = (inr (PList [dict_of [("name", PStr "admin")]]), Examples.client (PStr "t0k3n")) /\
  get_service_engines Examples.collections (Examples.client (PStr "t0k3n"))
    = (inr (PList []), Examples.client (PStr "t0k3n")).
Proof.
  set (s := Examples.client (PStr "t0k3n")).
  split; [|split].
  - refine (proj1 (proj1 (listing_normalisation Examples.collections s
        (Response 200 "" (inr (dict_of [("count", PInt 2);
                                        ("results", PList [Examples.vs_a; Examples.vs_b])])))
        tt _ eq_refl eq_refl) eq_refl) _ _ eq_refl _).
    reflexivity.
  - refine (proj2 (proj1 (proj2 (listing_normalisation Examples.collections s
        (Response 200 "" (inr (dict_of [("name", PStr "admin")])))
        tt _ eq_refl eq_refl)) eq_refl) _).
    reflexivity.
  - refine (proj1 (proj2 (proj2 (listing_normalisation Examples.collections s
        (Response 200 "" (inr (PList [])))
        tt _ eq_refl eq_refl)) eq_refl) _ eq_refl).
Defined.

Lemma by_name_first_match_witness :
  get_virtual_service_by_name Examples.collections "b" (Examples.client PNone)
    = (inr Examples.vs_b, Examples.client PNone) /\
  get_virtual_service_by_name Examples.collections "c" (Examples.client PNone)
    = (inr PNone, Examples.client PNone).
Proof.
  assert (forall name, ~ has_name name Examples.vs_a \/ name = "a") as Ha.
  { intros name. destruct (String.eqb_spec name "a") as [->|Hne]; [now right|left].
    intros (d & [= <-] & Hd). vm_compute in Hd. congruence. }
  assert (forall name, ~ has_name name Examples.vs_b \/ name = "b") as Hb.
  { intros name. destruct (String.eqb_spec name "b") as [->|Hne]; [now right|left].
    intros (d & [= <-] & Hd). vm_compute in Hd. congruence. }
  split.
  - refine (proj1 (by_name_first_match Examples.collections (Examples.client PNone)
                     (Examples.client PNone) "b" (PList [Examples.vs_a; Examples.vs_b]) _)
                  [Examples.vs_a] Examples.vs_b [] eq_refl _ _ _).
    + reflexivity.
    + repeat constructor.
    + constructor; [|constructor]. destruct (Ha "b") as [Hno|[=]]. exact Hno.
    + eexists. split; [reflexivity|]. reflexivity.
  - refine (proj1 (proj2 (proj2 (by_name_first_match Examples.collections
                     (Examples.client PNone) (Examples.client PNone) "c"
                     (PList [Examples.vs_a; Examples.vs_b]) _)))
                  [Examples.vs_a; Examples.vs_b] eq_refl _).
    + reflexivity.
    + constructor; [|constructor; [|constructor]].
      * destruct (Ha "c") as [Hno|[=]]. exact Hno.
      * destruct (Hb "c") as [Hno|[=]]. exact Hno.
Defined.

(** C4, as stated, fails: the listing [[5, vs_a]] is one
    [get_virtual_services] returns, its first entry named ["a"] is [vs_a],
    and the lookup of ["a"] returns [None]. *)
Lemma by_name_misses_entry_after_non_object :
  get_virtual_services Examples.odd_listing (Examples.client PNone)
    = (inr (PList [PInt 5; Examples.vs_a]), Examples.client PNone) /\
  ~ has_name "a" (PInt 5) /\
  has_name "a" Examples.vs_a /\
  get_virtual_service_by_name Examples.odd_listing "a" (Examples.client PNone)
    <> (inr Examples.vs_a, Examples.client PNone) /\
  get_virtual_service_by_name Examples.odd_listing "a" (Examples.client PNone)
    = (inr PNone, Examples.client PNone).
Proof.
  split; [reflexivity|]. split; [intros (d & [=] & _)|].
  split; [eexists; split; reflexivity|].
  split; [|reflexivity].
  intros Heq. apply (f_equal fst) in Heq. discriminate Heq.
Defined.

Lemma login_without_token_field_drops_token_witness :
  truthy (token (self (Examples.client (PStr "t0k3n")))) = true /\
  exists s',
    login Examples.login_without_token (PStr "admin") (PStr "secret")
          (Examples.client (PStr "t0k3n")) = (inr false, s') /\
    token (self s') = PNone /\
    _get_headers (self s') !! "Authorization" = None.
Proof.
  split; [reflexivity|].
  apply (login_without_token_field_drops_token Examples.login_without_token
           (Examples.client (PStr "t0k3n")) (PStr "admin") (PStr "secret")
           (Response 200 "" (inr (dict_of [("message", PStr "welcome")]))) tt
           (list_to_map [("message", PStr "welcome")])); reflexivity.
Defined.

End APIClientFacts.

(** ** The orchestrator *)

Module TestOrchestratorFacts.
Import TestOrchestrator.

Section Orchestrator.

Context {C : Type} `{ApiClient C}.

Lemma failed_result_status e :
  has_status "failed" (dict_of [("status", PStr "failed"); ("error", PStr (str_exn e))]).
Proof. eexists. split; reflexivity. Qed.

Lemma show_virtual_services_state v (o : @t C) :
  snd (show_virtual_services v o) = o.
Proof.
  unfold show_virtual_services, bind, eval.
  destruct (py_iter v) as [e|items]; [reflexivity|].
  apply for_each_state. intros vs s0.
  destruct (py_get vs "name" PNone); [reflexivity|].
  destruct (py_get vs "uuid" (PStr "N/A")); [reflexivity|].
  destruct (py_get vs "enabled" PNone); reflexivity.
Qed.

Ltac run :=
  unfold try_except, bind, eval, ret, gets, modify, call, record, failed_with;
  simpl.

Ltac status_ok :=
  first [ left; eexists; split; reflexivity | right; eexists; split; reflexivity ].

Ltac done_stage := eexists _, _; (split; [reflexivity|status_ok]).

Lemma stage_1_returns (o : @t C) :
  exists r c,
    stage_1_pre_fetcher o = (inr r, with_result "pre_fetcher" r (with_client c o)) /\
    stage_result r.
Proof.
  unfold stage_1_pre_fetcher. run.
  destruct (get_tenants (api_client o)) as [[e|tenants] c1]; simpl; [done_stage|].
  destruct (get_virtual_services c1) as [[e|vss] c2]; simpl; [done_stage|].
  destruct (get_service_engines c2) as [[e|ses] c3]; simpl; [done_stage|].
  destruct (count tenants) as [e|n1]; simpl; [done_stage|].
  destruct (count vss) as [e|n2]; simpl; [done_stage|].
  destruct (count ses) as [e|n3]; simpl; [done_stage|].
  destruct (truthy vss); simpl; [|done_stage].
  match goal with |- context [show_virtual_services vss ?s] =>
    pose proof (show_virtual_services_state vss s) as Hshow;
    destruct (show_virtual_services vss s) as [[e|[]] s1] end;
    simpl in Hshow; subst s1; simpl; done_stage.
Qed.

Lemma stage_2_returns (o : @t C) :
  exists r c,
    stage_2_pre_validation o = (inr r, with_result "pre_validation" r (with_client c o)) /\
    stage_result r.
Proof.
  unfold stage_2_pre_validation. run.
  destruct (get_virtual_service_by_name (target_vs_name o) (api_client o))
    as [[e|target_vs] c1]; simpl; [done_stage|].
  destruct (truthy target_vs); simpl; [|done_stage].
  destruct (py_get target_vs "enabled" (PBool false)) as [e|is_enabled]; simpl; [done_stage|].
  destruct (py_get target_vs "uuid" PNone) as [e|uuid]; simpl; [done_stage|].
  destruct (py_get target_vs "name" PNone) as [e|n]; simpl; [done_stage|].
  destruct (truthy is_enabled); simpl; done_stage.
Qed.

(** Stage 3 calls [update_virtual_service] with the identifier it is given
    and the payload [{'enabled': False}], and records a result whatever
    the call does. *)
Lemma stage_3_returns (uuid : value) (o : @t C) :
  exists r,
    stage_3_task_trigger uuid o =
      (inr r,
       with_result "task_trigger" r
         (with_client
            (snd (update_virtual_service uuid (dict_of [("enabled", PBool false)])
                    (api_client o))) o)) /\
    stage_result r.
Proof.
  unfold stage_3_task_trigger. run.
  destruct (update_virtual_service uuid (dict_of [("enabled", PBool false)]) (api_client o))
    as [[e|response] c1]; simpl; [eexists; split; [reflexivity|status_ok]|].
  destruct (is_None response); simpl; [eexists; split; [reflexivity|status_ok]|].
  destruct (py_get response "enabled" (PBool true)) as [e|is_enabled]; simpl;
    [eexists; split; [reflexivity|status_ok]|].
  destruct (truthy is_enabled); simpl; eexists; (split; [reflexivity|status_ok]).
Qed.

Lemma stage_4_returns (uuid : value) (o : @t C) :
  exists r,
    stage_4_post_validation uuid o =
      (inr r,
       with_result "post_validation" r
         (with_client (snd (get_virtual_service_by_uuid uuid (api_client o))) o)) /\
    stage_result r.
Proof.
  unfold stage_4_post_validation. run.
  destruct (get_virtual_service_by_uuid uuid (api_client o))
    as [[e|response] c1]; simpl; [eexists; split; [reflexivity|status_ok]|].
  destruct (is_None response); simpl; [eexists; split; [reflexivity|status_ok]|].
  destruct (py_get response "enabled" (PBool true)) as [e|is_enabled]; simpl;
    [eexists; split; [reflexivity|status_ok]|].
  destruct (truthy is_enabled); simpl; eexists; (split; [reflexivity|status_ok]).
Qed.


(** *** The summary *)

Lemma summary_line_absent stage :
  summary_line stage PNone = inr (SummaryStage Ring (upper stage) "NOT-EXECUTED").
Proof. reflexivity. Qed.

Lemma summary_line_success stage r :
  has_status "success" r ->
  summary_line stage r = inr (SummaryStage Tick (upper stage) "SUCCESS").
Proof.
  intros Hr. unfold summary_line.
  rewrite (has_status_truthy _ _ Hr), (has_status_get _ _ _ Hr). reflexivity.
Qed.

Lemma summary_line_failed stage r :
  has_status "failed" r ->
  summary_line stage r = inr (SummaryStage Cross (upper stage) "FAILED").
Proof.
  intros Hr. unfold summary_line.
  rewrite (has_status_truthy _ _ Hr), (has_status_get _ _ _ Hr). reflexivity.
Qed.

Lemma summary_line_recorded stage r :
  recorded r ->
  exists sym status, summary_line stage r = inr (SummaryStage sym (upper stage) status).
Proof.
  intros [->|[Hr|Hr]].
  - rewrite summary_line_absent. eauto.
  - rewrite (summary_line_success _ _ Hr). eauto.
  - rewrite (summary_line_failed _ _ Hr). eauto.
Qed.

Lemma all_success_step status r rest :
  has_status status r ->
  all_success (r :: rest) =
    if String.eqb status "success" then all_success rest else inr false.
Proof.
  intros Hr.
  pose proof (has_status_truthy _ _ Hr) as Ht.
  pose proof (has_status_get _ _ PNone Hr) as Hg.
  destruct Hr as (d & -> & _).
  cbn [all_success is_None]. rewrite Ht, Hg. reflexivity.
Qed.

Lemma all_success_returns values :
  Forall recorded values -> exists ok, all_success values = inr ok.
Proof.
  induction 1 as [|r values Hr _ IH]; [simpl; eauto|].
  destruct Hr as [->|[Hr|Hr]]; [exact IH| |];
    rewrite (all_success_step _ _ _ Hr); simpl; eauto.
Qed.

Lemma all_success_failed values :
  Forall recorded values -> Exists (has_status "failed") values ->
  all_success values = inr false.
Proof.
  intros Hall Hex. induction Hall as [|r values Hr Hall IH]; [inversion Hex|].
  destruct Hr as [->|[Hr|Hr]].
  - simpl. apply IH. inversion Hex as [? ? Hbad|]; subst; [|assumption].
    destruct Hbad as (? & [=] & _).
  - rewrite (all_success_step _ _ _ Hr). simpl.
    apply IH. inversion Hex as [? ? Hbad|]; subst; [|assumption].
    pose proof (has_status_inj _ _ _ Hr Hbad). discriminate.
  - rewrite (all_success_step _ _ _ Hr). reflexivity.
Qed.

Lemma all_success_passed values :
  Forall (fun r => r = PNone \/ has_status "success" r) values ->
  all_success values = inr true.
Proof.
  induction 1 as [|r values Hr _ IH]; [reflexivity|].
  destruct Hr as [->|Hr]; [exact IH|].
  rewrite (all_success_step _ _ _ Hr). exact IH.
Qed.

Lemma summary_loop (results : list (string * value)) (o : @t C) :
  Forall (fun kv => recorded kv.2) results ->
  exists lines,
    for_each results (fun '(stage, result) =>
      l <- eval (summary_line stage result) ;; print l) o
    = (inr tt, Build (api_client o) (target_vs_name o) (test_results o) (stdout o ++ lines)) /\
    Forall2 (fun kv l => summary_line kv.1 kv.2 = inr l) results lines.
Proof.
  intros Hall. revert o.
  induction Hall as [|[stage r] results Hr _ IH]; intros o; simpl.
  - exists []. rewrite app_nil_r. destruct o. split; [reflexivity|constructor].
  - destruct (summary_line_recorded stage r Hr) as (sym & status & Hline).
    unfold bind at 1. unfold bind at 1. unfold eval at 1. rewrite Hline.
    unfold print at 1. unfold modify at 1.
    destruct (IH (with_line (SummaryStage sym (upper stage) status) o)) as (lines & Hrun & Hlines).
    rewrite Hrun. simpl. eexists (_ :: lines). rewrite <- app_assoc. simpl.
    split; [reflexivity|]. constructor; assumption.
Qed.

(** [_print_summary] on results that are each [None] or what a stage
    records: one line per stage, then the overall verdict. *)
Lemma print_summary_returns (o : @t C) :
  Forall (fun kv => recorded kv.2) (test_results o) ->
  exists lines overall,
    _print_summary o =
      (inr tt,
       Build (api_client o) (target_vs_name o) (test_results o)
             (stdout o ++ SummaryBanner :: lines ++ [SummaryOverall overall; SummaryEnd])) /\
    overall_status (test_results o) = inr overall /\
    Forall2 (fun kv l => summary_line kv.1 kv.2 = inr l) (test_results o) lines.
Proof.
  intros Hall.
  destruct (summary_loop (test_results o) (with_line SummaryBanner o) Hall)
    as (lines & Hloop & Hlines).
  destruct (all_success_returns (test_results o).*2) as [ok Hok].
  { apply Forall_fmap. exact Hall. }
  exists lines, (if ok then "PASSED" else "FAILED").
  unfold _print_summary, overall_status.
  unfold bind at 1. unfold print at 1. unfold modify at 1.
  unfold bind at 1. unfold gets at 1.
  unfold bind at 1. simpl test_results at 1. rewrite Hloop.
  unfold bind, eval, print, modify. simpl. rewrite Hok. simpl.
  split; [|split; [reflexivity|exact Hlines]].
  unfold with_line. simpl. rewrite <- !app_assoc. reflexivity.
Qed.


(** *** Stage 1 *)

Lemma count_absent_or_list v : absent_or_list v -> count v = inr (PInt (count_of v)).
Proof. intros [->|[l ->]]; [reflexivity|]. destruct l; reflexivity. Qed.

Lemma show_objects (l : list value) (o : @t C) :
  Forall is_object l -> show_virtual_services (PList l) o = (inr tt, o).
Proof.
  unfold show_virtual_services, bind at 1, eval at 1. simpl.
  induction 1 as [|vs l Hvs _ IH]; simpl; [reflexivity|].
  destruct vs; try discriminate. unfold bind, eval in *. simpl. exact IH.
Qed.

Lemma stage_1_fetch_raises (o : @t C) e c :
  fetches (api_client o) = (inl e, c) ->
  stage_1_pre_fetcher o =
    (inr (dict_of [("status", PStr "failed"); ("error", PStr (str_exn e))]),
     with_result "pre_fetcher"
       (dict_of [("status", PStr "failed"); ("error", PStr (str_exn e))])
       (with_client c o)).
Proof.
  unfold stage_1_pre_fetcher, fetches. run.
  destruct (get_tenants (api_client o)) as [[e1|tenants] c1]; simpl;
    [intros [= <- <-]; reflexivity|].
  destruct (get_virtual_services c1) as [[e2|vss] c2]; simpl;
    [intros [= <- <-]; reflexivity|].
  destruct (get_service_engines c2) as [[e3|ses] c3]; simpl;
    [intros [= <- <-]; reflexivity|discriminate].
Qed.

Lemma stage_1_fetch_returns (o : @t C) tenants virtual_services service_engines c :
  fetches (api_client o) = (inr (tenants, virtual_services, service_engines), c) ->
  absent_or_list tenants ->
  absent_or_objects virtual_services ->
  absent_or_list service_engines ->
  let result := dict_of
    [("status", PStr "success");
     ("tenants_count", PInt (count_of tenants));
     ("virtual_services_count", PInt (count_of virtual_services));
     ("service_engines_count", PInt (count_of service_engines));
     ("tenants", tenants);
     ("virtual_services", virtual_services);
     ("service_engines", service_engines)] in
  stage_1_pre_fetcher o = (inr result, with_result "pre_fetcher" result (with_client c o)).
Proof.
  intros Hfetch Ht Hv Hs.
  assert (absent_or_list virtual_services) as Hv'.
  { destruct Hv as [->|(l & -> & _)]; [now left|right; eauto]. }
  unfold stage_1_pre_fetcher, fetches in *. revert Hfetch. run.
  destruct (get_tenants (api_client o)) as [[e1|t1] c1]; simpl; [discriminate|].
  destruct (get_virtual_services c1) as [[e2|v2] c2]; simpl; [discriminate|].
  destruct (get_service_engines c2) as [[e3|s3] c3]; simpl; [discriminate|].
  intros [= -> -> -> ->].
  rewrite (count_absent_or_list _ Ht), (count_absent_or_list _ Hv'),
    (count_absent_or_list _ Hs). simpl.
  destruct (truthy virtual_services) eqn:Htruthy; [|reflexivity].
  destruct Hv as [->|(l & -> & Hl)]; [discriminate|].
  pose proof (show_objects l) as Hshow. unfold with_client in *.
  rewrite Hshow by assumption. reflexivity.
Qed.

(** *** The workflow *)

Lemma recorded_dict_set stage r results :
  recorded r ->
  Forall (fun kv : string * value => recorded kv.2) results ->
  Forall (fun kv : string * value => recorded kv.2) (dict_set stage r results).
Proof.
  intros Hr. induction 1 as [|[k v] results Hv Hall IH]; simpl.
  - constructor; [exact Hr|constructor].
  - destruct (String.eqb k stage); constructor; assumption.
Qed.

Lemma run_full_workflow_cases (o : @t C) :
  Forall (fun kv => recorded kv.2) (test_results o) ->
  exists r1 o1 r2 o2,
    stage_1_pre_fetcher (with_line WorkflowBanner o) = (inr r1, o1) /\
    stage_2_pre_validation o1 = (inr r2, o2) /\
    stage_result r1 /\ stage_result r2 /\
    test_results o2 =
      dict_set "pre_validation" r2 (dict_set "pre_fetcher" r1 (test_results o)) /\
    stdout o2 = (stdout o ++ [WorkflowBanner])%list /\
    (has_status "failed" r2 ->
     run_full_workflow o = (inr (test_results o2), with_line WorkflowStopped o2)) /\
    (has_status "success" r2 ->
     exists uuid r3 o3 r4 o4 o5,
       py_get r2 "uuid" PNone = inr uuid /\
       stage_3_task_trigger uuid o2 = (inr r3, o3) /\
       stage_4_post_validation uuid o3 = (inr r4, o4) /\
       stage_result r3 /\ stage_result r4 /\
       test_results o4 =
         dict_set "post_validation" r4 (dict_set "task_trigger" r3 (test_results o2)) /\
       _print_summary o4 = (inr tt, o5) /\
       test_results o5 = test_results o4 /\
       run_full_workflow o = (inr (test_results o4), o5)).
Proof.
  intros Hinv.
  destruct (stage_1_returns (with_line WorkflowBanner o)) as (r1 & c1 & Hs1 & Hr1).
  set (o1 := with_result "pre_fetcher" r1 (with_client c1 (with_line WorkflowBanner o))) in *.
  destruct (stage_2_returns o1) as (r2 & c2 & Hs2 & Hr2).
  set (o2 := with_result "pre_validation" r2 (with_client c2 o1)) in *.
  exists r1, o1, r2, o2. repeat split; try assumption.
  - intros Hfailed. unfold run_full_workflow.
    rewrite (bind_returns _ _ o tt (with_line WorkflowBanner o)) by reflexivity.
    rewrite (bind_returns _ _ _ _ _ Hs1), (bind_returns _ _ _ _ _ Hs2).
    erewrite bind_returns by (unfold eval; rewrite (has_status_index _ _ Hfailed); reflexivity).
    reflexivity.
  - intros Hsuccess.
    assert (exists uuid, py_get r2 "uuid" PNone = inr uuid) as [uuid Huuid].
    { destruct Hsuccess as (d & -> & _). simpl. eauto. }
    exists uuid.
    destruct (stage_3_returns uuid o2) as (r3 & Hs3 & Hr3).
    match type of Hs3 with _ = (_, ?s) => set (o3 := s) in * end.
    destruct (stage_4_returns uuid o3) as (r4 & Hs4 & Hr4).
    match type of Hs4 with _ = (_, ?s) => set (o4 := s) in * end.
    destruct (print_summary_returns o4) as (lines & overall & Hsum & _).
    { subst o4 o3 o2 o1. simpl.
      repeat (apply recorded_dict_set; [right; assumption|]). exact Hinv. }
    eexists r3, o3, r4, o4, _.
    split; [exact Huuid|]. split; [exact Hs3|]. split; [exact Hs4|].
    split; [exact Hr3|]. split; [exact Hr4|]. split; [reflexivity|].
    split; [exact Hsum|]. split; [reflexivity|].
    unfold run_full_workflow.
    rewrite (bind_returns _ _ o tt (with_line WorkflowBanner o)) by reflexivity.
    rewrite (bind_returns _ _ _ _ _ Hs1), (bind_returns _ _ _ _ _ Hs2).
    erewrite bind_returns by (unfold eval; rewrite (has_status_index _ _ Hsuccess); reflexivity).
    replace (negb (py_eq_str (PStr "success") "success")) with false by reflexivity.
    erewrite bind_returns by (unfold eval; rewrite Huuid; reflexivity).
    rewrite (bind_returns _ _ _ _ _ Hs3), (bind_returns _ _ _ _ _ Hs4).
    rewrite (bind_returns _ _ _ _ _ Hsum).
    reflexivity.
Qed.


(** The results of an orchestrator are each [None] or what a stage
    records: so it is when it is built, and a run keeps it so. *)
Lemma init_recorded (c : C) (name : string) :
  Forall (fun kv : string * value => recorded kv.2) (test_results (__init__ c name)).
Proof. repeat (constructor; [left; reflexivity|]). constructor. Qed.

Lemma run_full_workflow_recorded (o : @t C) res (o' : @t C) :
  Forall (fun kv => recorded kv.2) (test_results o) ->
  run_full_workflow o = (res, o') ->
  Forall (fun kv => recorded kv.2) (test_results o').
Proof.
  intros Hinv Hrun.
  destruct (run_full_workflow_cases o Hinv)
    as (r1 & o1 & r2 & o2 & _ & _ & Hr1 & Hr2 & Hres & _ & Hfailed & Hsuccess).
  assert (Forall (fun kv : string * value => recorded kv.2) (test_results o2)) as Hinv2.
  { rewrite Hres. repeat (apply recorded_dict_set; [right; assumption|]). exact Hinv. }
  destruct Hr2 as [Hr2|Hr2].
  - destruct (Hsuccess Hr2)
      as (uuid & r3 & o3 & r4 & o4 & o5 & _ & _ & _ & Hr3 & Hr4 & Hres4 & _ & Hres5 & Hrun').
    rewrite Hrun in Hrun'. injection Hrun' as -> ->.
    rewrite Hres5, Hres4.
    repeat (apply recorded_dict_set; [right; assumption|]). exact Hinv2.
  - rewrite (Hfailed Hr2) in Hrun. injection Hrun as <- <-. exact Hinv2.
Qed.

(** The run of a new orchestrator whose stage 2 does not report success. *)
Lemma early_stop_run (c : C) (name : string) res (o' : @t C) :
  run_full_workflow (__init__ c name) = (res, o') ->
  (forall r2, dict_lookup "pre_validation" (test_results o') = Some r2 ->
              ~ has_status "success" r2) ->
  exists r1 r2,
    stage_result r1 /\ has_status "failed" r2 /\
    res = inr (test_results o') /\
    test_results o' =
      [("pre_fetcher", r1); ("pre_validation", r2);
       ("task_trigger", PNone); ("post_validation", PNone)] /\
    stdout o' = [WorkflowBanner; WorkflowStopped].
Proof.
  intros Hrun Hstage2.
  destruct (run_full_workflow_cases (__init__ c name) (init_recorded c name))
    as (r1 & o1 & r2 & o2 & Hs1 & Hs2 & Hr1 & Hr2 & Hres & Hout & Hfailed & Hsuccess).
  simpl in Hres, Hout.
  destruct Hr2 as [Hr2|Hr2].
  - exfalso.
    destruct (Hsuccess Hr2)
      as (uuid & r3 & o3 & r4 & o4 & o5 & _ & _ & _ & _ & _ & Hres4 & _ & Hres5 & Hrun').
    rewrite Hrun in Hrun'. injection Hrun' as -> ->.
    apply (Hstage2 r2); [|exact Hr2].
    rewrite Hres5, Hres4, Hres. reflexivity.
  - rewrite (Hfailed Hr2) in Hrun. injection Hrun as <- <-.
    exists r1, r2. simpl. rewrite Hres, Hout.
    repeat (split; [assumption || reflexivity|]). reflexivity.
Qed.

(** What the workflow prints when it stops after stage 2: its banner and
    the line that it stops. *)
Lemma early_stop_output (c : C) (name : string) res (o' : @t C) :
  run_full_workflow (__init__ c name) = (res, o') ->
  (forall r2, dict_lookup "pre_validation" (test_results o') = Some r2 ->
              ~ has_status "success" r2) ->
  stdout o' = [WorkflowBanner; WorkflowStopped].
Proof.
  intros Hrun Hstage2.
  destruct (early_stop_run c name res o' Hrun Hstage2) as (r1 & r2 & _ & _ & _ & _ & Hout).
  exact Hout.
Qed.

(** *** The claims on the workflow *)

(** C1.  The code misses the claim.  When the result stage 2 records does
    not report success, the workflow of a new orchestrator stops there and
    returns its results with stages 3 and 4 still [None], as the claim
    says.  But it returns before [_print_summary] is called: of the lines
    of the workflow and of the summary it has printed the banner and the
    line that it stops, so no summary and no verdict, FAILED or other. *)
Theorem early_stop_skips_the_summary (c : C) (name : string) res (o' : @t C) :
  run_full_workflow (__init__ c name) = (res, o') ->
  (forall r2, dict_lookup "pre_validation" (test_results o') = Some r2 ->
              ~ has_status "success" r2) ->
  res = inr (test_results o') /\
  dict_lookup "task_trigger" (test_results o') = Some PNone /\
  dict_lookup "post_validation" (test_results o') = Some PNone /\
  stdout o' = [WorkflowBanner; WorkflowStopped] /\
  (forall overall, ~ In (SummaryOverall overall) (stdout o')).
Proof.
  intros Hrun Hstage2.
  destruct (early_stop_run c name res o' Hrun Hstage2)
    as (r1 & r2 & _ & _ & Hres & Hresults & Hout).
  split; [exact Hres|]. rewrite Hresults at 1 2.
  split; [reflexivity|]. split; [reflexivity|]. split; [exact Hout|].
  rewrite Hout. intros overall [Hin|[Hin|[]]]; discriminate Hin.
Qed.

(** What [_print_summary] would print for the results of such a run, had it
    been called as it is at the end of a complete run: a summary whose
    verdict is FAILED.  No run reaches it on this path. *)
Lemma stopped_run_would_report_failed (c : C) (name : string) res (o' : @t C) :
  run_full_workflow (__init__ c name) = (res, o') ->
  (forall r2, dict_lookup "pre_validation" (test_results o') = Some r2 ->
              ~ has_status "success" r2) ->
  res = inr (test_results o') /\
  dict_lookup "task_trigger" (test_results o') = Some PNone /\
  dict_lookup "post_validation" (test_results o') = Some PNone /\
  overall_status (test_results o') = inr "FAILED" /\
  exists lines o'',
    _print_summary o' = (inr tt, o'') /\
    stdout o'' =
      (stdout o' ++ [SummaryBanner] ++ lines ++
       [SummaryOverall "FAILED"; SummaryEnd])%list.
Proof.
  intros Hrun Hstage2.
  destruct (early_stop_run c name res o' Hrun Hstage2)
    as (r1 & r2 & Hr1 & Hr2 & Hres & Hresults & Hout).
  assert (Forall (fun kv : string * value => recorded kv.2) (test_results o')) as Hrec.
  { rewrite Hresults.
    constructor; [right; exact Hr1|].
    constructor; [right; right; exact Hr2|].
    repeat (constructor; [left; reflexivity|]). constructor. }
  assert (overall_status (test_results o') = inr "FAILED") as Hoverall.
  { unfold overall_status.
    rewrite (all_success_failed (test_results o').*2); [reflexivity| |].
    - apply Forall_fmap. exact Hrec.
    - rewrite Hresults. right. left. exact Hr2. }
  split; [exact Hres|]. rewrite Hresults at 1 2.
  split; [reflexivity|]. split; [reflexivity|]. split; [exact Hoverall|].
  destruct (print_summary_returns o' Hrec) as (lines & overall & Hsum & Hov & _).
  rewrite Hoverall in Hov. injection Hov as <-.
  eexists lines, _. split; [exact Hsum|]. reflexivity.
Qed.

(** C5.  When stage 2 reports success, stage 3 runs with the [uuid] of
    stage 2's result: it calls [update_virtual_service] with it and records
    a result, success or failed; stage 4 then runs with the same [uuid]
    from the state stage 3 leaves, whichever of the two stage 3 recorded,
    and both results are in what the workflow returns. *)
Theorem stage_4_follows_stage_3 (o : @t C) r1 o1 r2 o2 :
  Forall (fun kv => recorded kv.2) (test_results o) ->
  stage_1_pre_fetcher (with_line WorkflowBanner o) = (inr r1, o1) ->
  stage_2_pre_validation o1 = (inr r2, o2) ->
  has_status "success" r2 ->
  exists uuid r3 r4 o5,
    py_get r2 "uuid" PNone = inr uuid /\
    let o3 :=
      with_result "task_trigger" r3
        (with_client
           (snd (update_virtual_service uuid (dict_of [("enabled", PBool false)])
                   (api_client o2))) o2) in
    let o4 :=
      with_result "post_validation" r4
        (with_client (snd (get_virtual_service_by_uuid uuid (api_client o3))) o3) in
    stage_3_task_trigger uuid o2 = (inr r3, o3) /\
    stage_result r3 /\
    stage_4_post_validation uuid o3 = (inr r4, o4) /\
    stage_result r4 /\
    run_full_workflow o = (inr (test_results o5), o5) /\
    dict_lookup "task_trigger" (test_results o5) = Some r3 /\
    dict_lookup "post_validation" (test_results o5) = Some r4.
Proof.
  intros Hinv Hs1 Hs2 Hr2.
  destruct (run_full_workflow_cases o Hinv)
    as (r1' & o1' & r2' & o2' & Hs1' & Hs2' & _ & _ & _ & _ & _ & Hsuccess).
  rewrite Hs1 in Hs1'. injection Hs1' as <- <-.
  rewrite Hs2 in Hs2'. injection Hs2' as <- <-.
  destruct (Hsuccess Hr2)
    as (uuid & r3 & o3 & r4 & o4 & o5 & Huuid & Hs3 & Hs4 & Hr3 & Hr4 & Hres4 & _ & Hres5 & Hrun).
  destruct (stage_3_returns uuid o2) as (r3' & Hs3' & _).
  rewrite Hs3 in Hs3'. injection Hs3' as <- Ho3.
  destruct (stage_4_returns uuid o3) as (r4' & Hs4' & _).
  rewrite Hs4 in Hs4'. injection Hs4' as <- Ho4.
  exists uuid, r3, r4, o5. split; [exact Huuid|]. cbv zeta.
  rewrite <- Ho3, <- Ho4, Hres5.
  repeat (split; [assumption|]).
  rewrite Hres4. split.
  - rewrite dict_lookup_set_ne by discriminate. apply dict_lookup_set_eq.
  - apply dict_lookup_set_eq.
Qed.

(** C6, as amended.  Stage 1 reports failed, with the exception's message,
    when one of its fetches raises; it reports success, an absent result
    counting for zero, when none raises and each result is absent or a list,
    of objects for the virtual services.  Whatever stage 1 reports, it
    returns, and the workflow goes on to stage 2, whose result is recorded in
    what the workflow leaves. *)
Theorem stage_1_outcome (o : @t C) :
  (forall e c,
     fetches (api_client o) = (inl e, c) ->
     let result := dict_of [("status", PStr "failed"); ("error", PStr (str_exn e))] in
     stage_1_pre_fetcher o = (inr result, with_result "pre_fetcher" result (with_client c o))) /\
  (forall tenants virtual_services service_engines c,
     fetches (api_client o) = (inr (tenants, virtual_services, service_engines), c) ->
     absent_or_list tenants ->
     absent_or_objects virtual_services ->
     absent_or_list service_engines ->
     let result := dict_of
       [("status", PStr "success");
        ("tenants_count", PInt (count_of tenants));
        ("virtual_services_count", PInt (count_of virtual_services));
        ("service_engines_count", PInt (count_of service_engines));
        ("tenants", tenants);
        ("virtual_services", virtual_services);
        ("service_engines", service_engines)] in
     stage_1_pre_fetcher o = (inr result, with_result "pre_fetcher" result (with_client c o))) /\
  count_of PNone = 0%Z /\
  (Forall (fun kv => recorded kv.2) (test_results o) ->
   exists r1 o1 r2 o2,
     stage_1_pre_fetcher (with_line WorkflowBanner o) = (inr r1, o1) /\
     stage_result r1 /\
     stage_2_pre_validation o1 = (inr r2, o2) /\
     stage_result r2 /\
     forall res o',
       run_full_workflow o = (res, o') ->
       dict_lookup "pre_validation" (test_results o') = Some r2).
Proof.
  split; [intros e c Hfetch; now apply stage_1_fetch_raises|].
  split; [intros t v s c Hfetch Ht Hv Hs; now apply stage_1_fetch_returns|].
  split; [reflexivity|].
  intros Hinv.
  destruct (run_full_workflow_cases o Hinv)
    as (r1 & o1 & r2 & o2 & Hs1 & Hs2 & Hr1 & Hr2 & Hres & _ & Hfailed & Hsuccess).
  exists r1, o1, r2, o2. repeat (split; [assumption|]).
  intros res o' Hrun. destruct Hr2 as [Hr2|Hr2].
  - destruct (Hsuccess Hr2)
      as (uuid & r3 & o3 & r4 & o4 & o5 & _ & _ & _ & _ & _ & Hres4 & _ & Hres5 & Hrun').
    rewrite Hrun in Hrun'. injection Hrun' as -> ->.
    rewrite Hres5, Hres4, Hres.
    rewrite !dict_lookup_set_ne by discriminate. apply dict_lookup_set_eq.
  - rewrite (Hfailed Hr2) in Hrun. injection Hrun as <- <-.
    simpl. rewrite Hres. apply dict_lookup_set_eq.
Qed.

End Orchestrator.

(** *** The claims at concrete services *)

Lemma early_stop_skips_the_summary_witness :
  let run :=
    run_full_workflow (H := real_client Examples.unauthorized)
      (__init__ (Examples.client PNone) "backend-vs-t1r_1000-1") in
  (forall r2, dict_lookup "pre_validation" (test_results (snd run)) = Some r2 ->
              ~ has_status "success" r2) /\
  fst run = inr (test_results (snd run)) /\
  dict_lookup "task_trigger" (test_results (snd run)) = Some PNone /\
  dict_lookup "post_validation" (test_results (snd run)) = Some PNone /\
  stdout (snd run) = [WorkflowBanner; WorkflowStopped] /\
  (forall overall, ~ In (SummaryOverall overall) (stdout (snd run))).
Proof.
  intros run.
  assert (forall r2, dict_lookup "pre_validation" (test_results (snd run)) = Some r2 ->
                     ~ has_status "success" r2) as Hstage2.
  { intros r2 Hr2 (d & -> & Hd). vm_compute in Hr2. injection Hr2 as <-.
    vm_compute in Hd. discriminate Hd. }
  split; [exact Hstage2|].
  apply (early_stop_skips_the_summary (H := real_client Examples.unauthorized)
           (Examples.client PNone) "backend-vs-t1r_1000-1" (fst run) (snd run)).
  - apply surjective_pairing.
  - exact Hstage2.
Defined.

Lemma stage_4_follows_stage_3_witness :
  let o := __init__ (Examples.client_on true (PStr "t0k3n")) "backend-vs-t1r_1000-1" in
  let run := run_full_workflow (H := real_client Examples.read_only) o in
  exists r3 r4,
    fst run = inr (test_results (snd run)) /\
    dict_lookup "task_trigger" (test_results (snd run)) = Some r3 /\
    has_status "failed" r3 /\
    dict_lookup "post_validation" (test_results (snd run)) = Some r4 /\
    stage_result r4.
Proof.
  intros o run.
  pose (a1 := stage_1_pre_fetcher (H := real_client Examples.read_only)
                (with_line WorkflowBanner o)).
  pose (a2 := stage_2_pre_validation (H := real_client Examples.read_only) (snd a1)).
  destruct (stage_4_follows_stage_3 (H := real_client Examples.read_only) o
              (dict_of
                 [("status", PStr "success");
                  ("tenants_count", PInt 1);
                  ("virtual_services_count", PInt 1);
                  ("service_engines_count", PInt 0);
                  ("tenants", PList [dict_of [("name", PStr "admin")]]);
                  ("virtual_services", PList [Examples.backend true]);
                  ("service_engines", PList [])])
              (snd a1)
              (dict_of
                 [("status", PStr "success");
                  ("virtual_service", Examples.backend true);
                  ("uuid", PStr "vs-1");
                  ("enabled", PBool true)])
              (snd a2))
    as (uuid & r3 & r4 & o5 & Huuid & Hs3 & Hr3 & Hs4 & Hr4 & Hrun & Hl3 & Hl4).
  - repeat constructor.
  - reflexivity.
  - reflexivity.
  - eexists. split; reflexivity.
  - exists r3, r4. subst run. rewrite Hrun. simpl.
    split; [reflexivity|]. split; [exact Hl3|]. split; [|split; [exact Hl4|exact Hr4]].
    injection Huuid as <-. cbv zeta in Hs3.
    vm_compute in Hs3. injection Hs3 as <-. eexists. split; reflexivity.
Defined.

Lemma stage_1_outcome_witness :
  let o := __init__ (Examples.client PNone) "backend-vs-t1r_1000-1" in
  let result := dict_of
    [("status", PStr "success");
     ("tenants_count", PInt 0);
     ("virtual_services_count", PInt 0);
     ("service_engines_count", PInt 0);
     ("tenants", PNone);
     ("virtual_services", PNone);
     ("service_engines", PNone)] in
  stage_1_pre_fetcher (H := real_client Examples.unauthorized) o
    = (inr result, with_result "pre_fetcher" result o) /\
  exists r2,
    has_status "failed" r2 /\
    dict_lookup "pre_validation"
      (test_results (snd (run_full_workflow (H := real_client Examples.unauthorized) o)))
    = Some r2.
Proof.
  intros o result.
  pose proof (stage_1_outcome (H := real_client Examples.unauthorized) o)
    as (_ & Hsuccess & _ & Hnext).
  split.
  - apply (Hsuccess PNone PNone PNone (Examples.client PNone));
      [reflexivity|now left..].
  - destruct (Hnext (init_recorded _ _)) as (r1 & o1 & r2 & o2 & Hs1 & _ & Hs2 & _ & Hrun).
    exists r2. split; [|apply (Hrun (fst (run_full_workflow
                                 (H := real_client Examples.unauthorized) o)));
                       apply surjective_pairing].
    vm_compute in Hs1. injection Hs1 as <- <-.
    vm_compute in Hs2. injection Hs2 as <- <-.
    eexists. split; reflexivity.
Defined.

(** C6, as stated, fails: the listing [[5, vs_a]] is fetched, no fetch
    raises, and stage 1 reports failed, with the message of the exception
    its listing loop raised on [5]. *)
Lemma stage_1_fails_without_fetch_raising :
  let o := __init__ (Examples.client PNone) "a" in
  fetches (H := real_client Examples.odd_listing) (api_client o)
    = (inr (PNone, PList [PInt 5; Examples.vs_a], PNone), Examples.client PNone) /\
  fst (stage_1_pre_fetcher (H := real_client Examples.odd_listing) o)
    = inr (dict_of [("status", PStr "failed");
                    ("error", PStr "'int' object has no attribute 'get'")]) /\
  ~ has_status "success"
      (dict_of [("status", PStr "failed");
                ("error", PStr "'int' object has no attribute 'get'")]).
Proof.
  intros o. split; [reflexivity|]. split; [reflexivity|].
  intros (d & [= <-] & Hd). vm_compute in Hd. discriminate Hd.
Defined.

(** A run that passes: the target is found enabled, the update disables
    it, the fresh read shows it disabled, and the summary says PASSED. *)
Lemma full_run_passes :
  let run :=
    run_full_workflow (H := real_client Examples.load_balancer)
      (__init__ (Examples.client_on true (PStr "t0k3n")) "backend-vs-t1r_1000-1") in
  Forall (has_status "success") (test_results (snd run)).*2 /\
  APIClient.world (api_client (snd run)) = false /\
  stdout (snd run) =
    [WorkflowBanner; SummaryBanner;
     SummaryStage Tick "PRE_FETCHER" "SUCCESS";
     SummaryStage Tick "PRE_VALIDATION" "SUCCESS";
     SummaryStage Tick "TASK_TRIGGER" "SUCCESS";
     SummaryStage Tick "POST_VALIDATION" "SUCCESS";
     SummaryOverall "PASSED"; SummaryEnd].
Proof.
  intros run. split; [|split; reflexivity].
  repeat (constructor; [eexists; split; reflexivity|]). constructor.
Qed.

(** An update that is answered 200 and leaves the service enabled: stage 3
    reports failed. *)
Lemma stage_3_checks_the_answer :
  let o := __init__ (Examples.client_on true (PStr "t0k3n")) "backend-vs-t1r_1000-1" in
  fst (stage_3_task_trigger (H := real_client Examples.ignores_updates)
         (PStr "vs-1") o)
  = inr (dict_of [("status", PStr "failed");
                  ("error", PStr "Virtual service was not disabled");
                  ("response", Examples.backend true)]).
Proof. reflexivity. Qed.

End TestOrchestratorFacts.

(** ** The configuration loader *)

Module ConfigLoaderFacts.
Import ConfigLoader.

(** C10.  When the file exists and [yaml.safe_load] returns [None] for it,
    as it does for an empty document, the construction of the loader
    succeeds with [config] set to [None], and each of the seven accessors
    raises (an [AttributeError]: [None] has no [get]) instead of returning
    its default. *)
Theorem empty_document_breaks_accessors (fs : string -> file) (config_file : string) :
  fs config_file = Document PNone ->
  exists loader,
    __init__ fs config_file = inr loader /\
    config loader = PNone /\
    get_api_config loader = inl (AttributeError PNone "get") /\
    get_credentials loader = inl (AttributeError PNone "get") /\
    get_test_cases loader = inl (AttributeError PNone "get") /\
    get_target_virtual_service loader = inl (AttributeError PNone "get") /\
    get_timeout loader = inl (AttributeError PNone "get") /\
    get_parallelism_method loader = inl (AttributeError PNone "get") /\
    get_max_workers loader = inl (AttributeError PNone "get").
Proof.
  intros Hfile. exists (Build config_file PNone).
  unfold __init__. rewrite Hfile. repeat split.
Qed.

Lemma empty_document_breaks_accessors_witness :
  Examples.empty_file "test_config.yaml" = Document PNone /\
  exists loader,
    __init__ Examples.empty_file "test_config.yaml" = inr loader /\
    config loader = PNone /\
    get_api_config loader = inl (AttributeError PNone "get") /\
    get_credentials loader = inl (AttributeError PNone "get") /\
    get_test_cases loader = inl (AttributeError PNone "get") /\
    get_target_virtual_service loader = inl (AttributeError PNone "get") /\
    get_timeout loader = inl (AttributeError PNone "get") /\
    get_parallelism_method loader = inl (AttributeError PNone "get") /\
    get_max_workers loader = inl (AttributeError PNone "get").
Proof.
  split; [reflexivity|].
  apply (empty_document_breaks_accessors Examples.empty_file "test_config.yaml").
  reflexivity.
Defined.

(** The defaults, for a document that is a mapping without the keys. *)
Lemma accessor_defaults (config_file : string) :
  let loader := Build config_file (PDict ∅) in
  get_api_config loader = inr (PDict ∅) /\
  get_credentials loader = inr (PDict ∅) /\
  get_test_cases loader = inr (PList []) /\
  get_target_virtual_service loader = inr (PStr "backend-vs-t1r_1000-1") /\
  get_timeout loader = inr (PInt 30) /\
  get_parallelism_method loader = inr (PStr "threading") /\
  get_max_workers loader = inr (PInt 4).
Proof. repeat split. Qed.

Lemma load_failures (fs : string -> file) (config_file : string) :
  (fs config_file = Missing ->
   exists e, __init__ fs config_file = inl e /\ exn_class e = "FileNotFoundError") /\
  (forall yaml_error, fs config_file = Malformed yaml_error ->
   exists e, __init__ fs config_file = inl e /\ exn_class e = "ValueError").
Proof.
  unfold __init__. split.
  - intros ->. eexists. split; reflexivity.
  - intros yaml_error ->. eexists. split; reflexivity.
Qed.

End ConfigLoaderFacts.

(** ** The setup of the framework *)

Module TestFrameworkFacts.
Import TestFramework.

Section Framework.

Context {W : Type} (send : request -> W -> (exn + response) * W).

Lemma login_returns (s : APIClient.state) (username password : value) :
  exists logged_in s', APIClient.login send username password s = (inr logged_in, s').
Proof.
  unfold APIClient.login, try_except, bind, APIClient.request_with, APIClient.session,
    ret, eval, modify.
  destruct (send _ (APIClient.world s)) as [[e|response] w']; [eauto|].
  destruct (status_code response =? 200)%Z; [|eauto].
  destruct (json response) as [e|data]; [eauto|].
  destruct (py_get data "token" PNone) as [e|tok]; [eauto|].
  destruct (py_slice_to 20 tok); eauto.
Qed.

(** C7.  [register] returns [True] exactly on a 200 or a 409, and [False],
    without raising, on any other status and when the transport raises.
    In [setup], once the settings are there, the result of [register] only
    decides a warning: [login] is called next in the state [register]
    leaves, and [setup] returns what [login] returns. *)
Theorem registration_is_only_a_warning :
  (forall (s : APIClient.state) username password res w',
     send (APIClient.register_request (APIClient.self s) username password)
          (APIClient.world s) = (res, w') ->
     APIClient.register send username password s =
       (inr match res with
            | inl _ => false
            | inr response =>
                ((status_code response =? 200)%Z || (status_code response =? 409)%Z)%bool
            end,
        APIClient.State (APIClient.self s) w')) /\
  (forall (fw : @t W) cfg api creds (url : string) (username password : value),
     ConfigLoader.config (config_loader fw) = PDict cfg ->
     cfg !! "api" = Some (PDict api) ->
     api !! "base_url" = Some (PStr url) ->
     url <> "" ->
     cfg !! "credentials" = Some (PDict creds) ->
     creds !! "username" = Some username ->
     truthy username = true ->
     creds !! "password" = Some password ->
     truthy password = true ->
     let client :=
       APIClient.Build (rstrip "/" url) (default (PInt 30) (api !! "timeout")) PNone in
     exists registered s1 logged_in s2,
       APIClient.register send username password (APIClient.State client (world fw))
         = (inr registered, s1) /\
       APIClient.login send username password s1 = (inr logged_in, s2) /\
       setup send fw =
         (inr logged_in,
          Build (config_loader fw) (Some (APIClient.self s2)) (APIClient.world s2))).
Proof.
  split; [intros s u p res w'; apply APIClientFacts.register_run|].
  intros fw cfg api creds url username password
         Hcfg Hapi Hurl Hne Hcreds Huser Htu Hpass Htp client.
  destruct (send (APIClient.register_request client username password) (world fw))
    as [res w1] eqn:Hsend.
  pose proof (APIClientFacts.register_run send (APIClient.State client (world fw))
                username password res w1 Hsend) as Hreg.
  simpl in Hreg.
  destruct (login_returns (APIClient.State client w1) username password)
    as (logged_in & s2 & Hlogin).
  eexists _, _, logged_in, s2. split; [exact Hreg|]. split; [exact Hlogin|].
  unfold setup, try_except.
  erewrite bind_returns by reflexivity.
  erewrite bind_returns
    by (unfold eval, ConfigLoader.get_api_config; rewrite Hcfg; simpl; rewrite Hapi; reflexivity).
  erewrite bind_returns
    by (unfold eval, ConfigLoader.get_credentials; rewrite Hcfg; simpl; rewrite Hcreds;
        reflexivity).
  erewrite bind_returns by (unfold eval; simpl; rewrite Hurl; reflexivity).
  erewrite bind_returns
    by (unfold eval, ConfigLoader.get_timeout; rewrite Hcfg; simpl; rewrite Hapi; reflexivity).
  assert (truthy (PStr url) = true) as Htruthy.
  { simpl. destruct (String.eqb_spec url ""); [contradiction|reflexivity]. }
  cbn [from_option id].
  erewrite bind_returns
    by (unfold eval, missing_settings; rewrite Htruthy; simpl; rewrite Huser; simpl;
        rewrite Htu; simpl; rewrite Hpass; simpl; rewrite Htp; reflexivity).
  cbn [negb]. cbv beta iota.
  erewrite bind_returns by reflexivity.
  erewrite bind_returns by reflexivity.
  erewrite !bind_returns by (unfold eval; simpl; rewrite ?Huser, ?Hpass; reflexivity).
  erewrite bind_returns
    by (unfold call; simpl; fold client; rewrite Hreg; reflexivity).
  erewrite !bind_returns by (unfold eval; simpl; rewrite ?Huser, ?Hpass; reflexivity).
  erewrite bind_returns
    by (unfold call; simpl; rewrite Hlogin; reflexivity).
  destruct logged_in; reflexivity.
Qed.

End Framework.

Lemma registration_is_only_a_warning_witness :
  let fw := Build (ConfigLoader.Build "test_config.yaml" Examples.settings) None true in
  let client := APIClient.Build "https://lb.example" (PInt 10) PNone in
  APIClient.register Examples.no_registration (PStr "admin") (PStr "secret")
    (APIClient.State client true) = (inr false, APIClient.State client true) /\
  fst (setup Examples.no_registration fw) = inr true /\
  option_map APIClient.token (api_client (snd (setup Examples.no_registration fw)))
    = Some (PStr "t0k3n").
Proof.
  intros fw client.
  destruct (registration_is_only_a_warning Examples.no_registration)
    as (Hregister & Hsetup).
  destruct (Hsetup fw
              (list_to_map
                 [("api", dict_of [("base_url", PStr "https://lb.example/");
                                   ("timeout", PInt 10)]);
                  ("credentials", dict_of [("username", PStr "admin");
                                           ("password", PStr "secret")]);
                  ("test_cases", PList [dict_of [("name", PStr "disable-backend")]])])
              (list_to_map [("base_url", PStr "https://lb.example/"); ("timeout", PInt 10)])
              (list_to_map [("username", PStr "admin"); ("password", PStr "secret")])
              "https://lb.example/" (PStr "admin") (PStr "secret"))
    as (registered & s1 & logged_in & s2 & Hreg & Hlogin & Hrun);
    try reflexivity; [discriminate|].
  split.
  - apply (Hregister (APIClient.State client true) (PStr "admin") (PStr "secret")
             (Examples.refused 500 "Internal Server Error") true).
    reflexivity.
  - rewrite Hrun. vm_compute in Hreg. injection Hreg as <- <-.
    vm_compute in Hlogin. injection Hlogin as <- <-.
    split; reflexivity.
Defined.

End TestFrameworkFacts.

(** ** More on the API client *)

Module APIClientMore.
Import APIClient.

Section Transport.

Context {W : Type} (send : request -> W -> (exn + response) * W).

(** The decoded body of a 200, [None] for any other answer. *)
Lemma get_virtual_service_by_uuid_run (s : state) (uuid : value) res w' :
  send (get_request (self s) (VirtualServiceItemPath uuid)) (world s) = (res, w') ->
  get_virtual_service_by_uuid send uuid s =
    (inr match res with
         | inl _ => PNone
         | inr response =>
             if (status_code response =? 200)%Z then
               match json response with inl _ => PNone | inr body => body end
             else PNone
         end,
     State (self s) w').
Proof.
  intros Hsend.
  unfold get_virtual_service_by_uuid, try_except, bind, request_with, session, ret, eval.
  rewrite Hsend.
  destruct res as [e|response]; [reflexivity|].
  destruct (status_code response =? 200)%Z; [|reflexivity].
  destruct (json response); reflexivity.
Qed.

Lemma update_virtual_service_run (s : state) (uuid payload : value) res w' :
  send (put_request (self s) (VirtualServiceItemPath uuid) payload) (world s) = (res, w') ->
  update_virtual_service send uuid payload s =
    (inr match res with
         | inl _ => PNone
         | inr response =>
             if (status_code response =? 200)%Z then
               match json response with inl _ => PNone | inr body => body end
             else PNone
         end,
     State (self s) w').
Proof.
  intros Hsend.
  unfold update_virtual_service, try_except, bind, request_with, session, ret, eval.
  rewrite Hsend.
  destruct res as [e|response]; [reflexivity|].
  destruct (status_code response =? 200)%Z; [|reflexivity].
  destruct (json response); reflexivity.
Qed.

Lemma login_run (s : state) (username password : value) :
  exists logged_in tok w',
    login send username password s = (inr logged_in, set_token tok (State (self s) w')).
Proof.
  unfold login, try_except, bind, request_with, session, ret, eval, modify.
  destruct (send _ (world s)) as [[e|response] w'].
  - exists false, (token (self s)), w'. destruct s as [[b t k] w]. reflexivity.
  - destruct (status_code response =? 200)%Z.
    + destruct (json response) as [e|data];
        [exists false, (token (self s)), w'; destruct s as [[b t k] w]; reflexivity|].
      destruct (py_get data "token" PNone) as [e|tok];
        [exists false, (token (self s)), w'; destruct s as [[b t k] w]; reflexivity|].
      simpl. destruct (py_slice_to 20 tok); eauto.
    + exists false, (token (self s)), w'. destruct s as [[b t k] w]. reflexivity.
Qed.

(** X1.  No method of the client raises, whatever the transport does: each
    returns a value.  [register], the five reads and the update leave the
    client's fields as they are; [login] can change the token only. *)
Theorem client_methods_never_raise (s : state) :
  (forall username password, exists ok w',
     register send username password s = (inr ok, State (self s) w')) /\
  (forall username password, exists ok s',
     login send username password s = (inr ok, s') /\
     base_url (self s') = base_url (self s) /\
     timeout (self s') = timeout (self s)) /\
  (exists v w', get_tenants send s = (inr v, State (self s) w')) /\
  (exists v w', get_virtual_services send s = (inr v, State (self s) w')) /\
  (exists v w', get_service_engines send s = (inr v, State (self s) w')) /\
  (forall uuid, exists v w',
     get_virtual_service_by_uuid send uuid s = (inr v, State (self s) w')) /\
  (forall name, exists v w',
     get_virtual_service_by_name send name s = (inr v, State (self s) w')) /\
  (forall uuid payload, exists v w',
     update_virtual_service send uuid payload s = (inr v, State (self s) w')).
Proof.
  repeat split.
  - intros u p.
    destruct (send (register_request (self s) u p) (world s)) as [res w'] eqn:Hsend.
    rewrite (APIClientFacts.register_run send s u p res w' Hsend). eauto.
  - intros u p. destruct (login_run s u p) as (ok & tok & w' & ->).
    eexists _, _. split; [reflexivity|]. split; reflexivity.
  - destruct (send (get_request (self s) TenantPath) (world s)) as [res w'] eqn:Hsend.
    rewrite (APIClientFacts.get_tenants_run send s res w' Hsend). eauto.
  - apply APIClientFacts.get_virtual_services_returns.
  - destruct (send (get_request (self s) ServiceEnginePath) (world s)) as [res w'] eqn:Hsend.
    rewrite (APIClientFacts.get_service_engines_run send s res w' Hsend). eauto.
  - intros uuid.
    destruct (send (get_request (self s) (VirtualServiceItemPath uuid)) (world s))
      as [res w'] eqn:Hsend.
    rewrite (get_virtual_service_by_uuid_run s uuid res w' Hsend). eauto.
  - intros name.
    destruct (APIClientFacts.get_virtual_services_returns send s) as (listing & w' & Hlist).
    rewrite (APIClientFacts.by_name_run send _ _ name _ Hlist). eauto.
  - intros uuid payload.
    destruct (send (put_request (self s) (VirtualServiceItemPath uuid) payload) (world s))
      as [res w'] eqn:Hsend.
    rewrite (update_virtual_service_run s uuid payload res w' Hsend). eauto.
Qed.

(** X2.  A login answered 200 with an object stores [data.get('token')]
    whatever that value is, and returns [True] exactly when the value can be
    sliced, that is when it is a [str] or a list.  The headers built
    afterwards carry [Authorization] exactly when the stored value is
    truthy: not for an empty string though the login returned [True], and
    for a non-zero number though it returned [False]. *)
Theorem login_stores_any_token (s : state) (username password : value) response w' d :
  send (login_request (self s) username password) (world s) = (inr response, w') ->
  status_code response = 200%Z ->
  json response = inr (PDict d) ->
  let tok := default PNone (d !! "token") in
  exists ok s',
    login send username password s = (inr ok, s') /\
    token (self s') = tok /\
    (ok = true <-> (exists str, tok = PStr str) \/ (exists l, tok = PList l)) /\
    _get_headers (self s') !! "Authorization" =
      (if truthy tok then Some (HBearer tok) else None).
Proof.
  intros Hsend Hstatus Hjson tok.
  rewrite (APIClientFacts.login_accepted send _ _ _ _ _ _ Hsend Hstatus Hjson).
  fold tok. eexists _, _. split; [reflexivity|]. split; [reflexivity|]. split.
  - destruct tok; simpl; split; intros Hok; try discriminate; eauto;
      destruct Hok as [[? [=]]|[? [=]]].
  - simpl. destruct (truthy tok) eqn:Htok.
    + apply APIClientFacts.headers_with_token. exact Htok.
    + apply APIClientFacts.headers_without_token. exact Htok.
Qed.

(** X3.  A login answered 200 with a body that does not decode, or decodes
    to something that is not an object, returns [False] and leaves the
    client, its token included, as it was. *)
Theorem login_ignores_other_bodies (s : state) (username password : value) response w' :
  send (login_request (self s) username password) (world s) = (inr response, w') ->
  status_code response = 200%Z ->
  (forall d, json response <> inr (PDict d)) ->
  login send username password s = (inr false, State (self s) w').
Proof.
  intros Hsend Hstatus Hjson.
  unfold login, try_except, bind, request_with, session, ret, eval, modify.
  rewrite Hsend, Hstatus. simpl.
  destruct (json response) as [e|data]; [reflexivity|].
  destruct data; try reflexivity. now destruct (Hjson d).
Qed.

(** X4.  When the transport raises, the status is not 200 or the body does
    not decode, each of the three listings returns [None]. *)
Theorem listings_without_body (s : state) res w' :
  no_body res ->
  (send (get_request (self s) TenantPath) (world s) = (res, w') ->
   get_tenants send s = (inr PNone, State (self s) w')) /\
  (send (get_request (self s) VirtualServicePath) (world s) = (res, w') ->
   get_virtual_services send s = (inr PNone, State (self s) w')) /\
  (send (get_request (self s) ServiceEnginePath) (world s) = (res, w') ->
   get_service_engines send s = (inr PNone, State (self s) w')).
Proof.
  intros Hres.
  assert (match res with
          | inl _ => True
          | inr response =>
              (status_code response =? 200)%Z = false \/ exists e, json response = inl e
          end) as Hres'.
  { destruct res as [e|response]; [exact I|].
    destruct Hres as [Hne|He]; [left; now apply Z.eqb_neq|now right]. }
  split; [|split]; intros Hsend.
  - rewrite (APIClientFacts.get_tenants_run send s res w' Hsend).
    destruct res as [e|response]; [reflexivity|].
    destruct Hres' as [->|[e ->]]; [reflexivity|].
    now destruct (status_code response =? 200)%Z.
  - rewrite (APIClientFacts.get_virtual_services_run send s res w' Hsend).
    destruct res as [e|response]; [reflexivity|].
    destruct Hres' as [->|[e ->]]; [reflexivity|].
    now destruct (status_code response =? 200)%Z.
  - rewrite (APIClientFacts.get_service_engines_run send s res w' Hsend).
    destruct res as [e|response]; [reflexivity|].
    destruct Hres' as [->|[e ->]]; [reflexivity|].
    now destruct (status_code response =? 200)%Z.
Qed.

(** X5.  What the listings can return.  [get_tenants] and
    [get_service_engines] return [None] or a list.  [get_virtual_services]
    returns [None] or a value that has a length: under the key [results] a
    string or an object is passed on as it is, and a value without a length
    ([null], a number, a boolean) gives [None]. *)
Theorem listing_shapes (s : state) :
  (forall v s', get_tenants send s = (inr v, s') -> v = PNone \/ is_list v = true) /\
  (forall v s', get_service_engines send s = (inr v, s') -> v = PNone \/ is_list v = true) /\
  (forall v s', get_virtual_services send s = (inr v, s') ->
     v = PNone \/ exists n, py_len v = inr n) /\
  (forall response w' d inner,
     send (get_request (self s) VirtualServicePath) (world s) = (inr response, w') ->
     status_code response = 200%Z ->
     json response = inr (PDict d) ->
     d !! "results" = Some inner ->
     get_virtual_services send s =
       (inr match py_len inner with inl _ => PNone | inr _ => inner end,
        State (self s) w')).
Proof.
  split; [|split; [|split]].
  - intros v s'.
    destruct (send (get_request (self s) TenantPath) (world s)) as [res w'] eqn:Hsend.
    rewrite (APIClientFacts.get_tenants_run send s res w' Hsend). intros [= <- _].
    destruct res as [e|response]; [now left|].
    destruct (status_code response =? 200)%Z; [|now left].
    destruct (json response) as [e|body]; [now left|].
    destruct (is_list body) eqn:Hl; [now right|now right].
  - intros v s'.
    destruct (send (get_request (self s) ServiceEnginePath) (world s)) as [res w'] eqn:Hsend.
    rewrite (APIClientFacts.get_service_engines_run send s res w' Hsend). intros [= <- _].
    destruct res as [e|response]; [now left|].
    destruct (status_code response =? 200)%Z; [|now left].
    destruct (json response) as [e|body]; [now left|].
    destruct (is_list body) eqn:Hl; [now right|now right].
  - intros v s'.
    destruct (send (get_request (self s) VirtualServicePath) (world s)) as [res w'] eqn:Hsend.
    rewrite (APIClientFacts.get_virtual_services_run send s res w' Hsend). intros [= <- _].
    destruct res as [e|response]; [now left|].
    destruct (status_code response =? 200)%Z; [|now left].
    destruct (json response) as [e|body]; [now left|].
    destruct body as [| | | | |l|d]; try (right; simpl; eauto; fail).
    destruct (d !! "results") as [inner|]; [|right; simpl; eauto].
    destruct (py_len inner) as [e|n] eqn:Hlen; [now left|right; eauto].
  - intros response w' d inner Hsend Hstatus Hjson Hinner.
    rewrite (APIClientFacts.get_virtual_services_run send s _ w' Hsend).
    rewrite Hstatus, Hjson, Hinner. reflexivity.
Qed.

Lemma scan_by_name_sound name entries entry :
  scan_by_name name entries = inr (Some entry) ->
  entry ∈ entries /\ has_name name entry.
Proof.
  induction entries as [|x entries IH]; simpl; [discriminate|].
  destruct (py_get x "name" PNone) as [e|n] eqn:Hget; [discriminate|].
  destruct (py_eq_str n name) eqn:Heq.
  - intros [= <-]. split; [left|]. apply APIClientFacts.has_name_get. eauto.
  - intros Hscan. destruct (IH Hscan) as [Hin Hname]. split; [now right|exact Hname].
Qed.

(** X6.  What [get_virtual_service_by_name] returns is [None] or an entry
    of the list [get_virtual_services] returned to it, an object whose
    [name] equals the query: never an entry with another name.  It sends
    the one request of that listing. *)
Theorem by_name_returns_a_named_entry (s s' : state) (name : string) (v : value) :
  get_virtual_service_by_name send name s = (inr v, s') ->
  s' = snd (get_virtual_services send s) /\
  (v = PNone \/
   has_name name v /\
   exists entries,
     fst (get_virtual_services send s) = inr (PList entries) /\ v ∈ entries).
Proof.
  destruct (APIClientFacts.get_virtual_services_returns send s) as (listing & w' & Hlist).
  rewrite (APIClientFacts.by_name_run send _ _ name _ Hlist), Hlist.
  intros [= <- <-]. split; [reflexivity|].
  destruct (truthy listing) eqn:Htruthy; [|now left].
  destruct (is_list listing) eqn:Hl.
  - destruct listing; try discriminate. simpl.
    destruct (scan_by_name name l) as [e|[entry|]] eqn:Hscan; [now left| |now left].
    destruct (scan_by_name_sound _ _ _ Hscan) as [Hin Hname].
    right. split; [exact Hname|]. eauto.
  - destruct (APIClientFacts.iter_not_list_blocked name _ Hl Htruthy) as [e ->]. now left.
Qed.

(** X7.  [get_virtual_service_by_uuid] and [update_virtual_service] return
    the decoded body of a 200 as it is, whatever its shape, and [None] for
    every other answer; so a 200 whose body is [null] cannot be told from a
    failure. *)
Theorem item_calls (s : state) (uuid payload : value) res w' :
  let answer :=
    match res with
    | inl _ => PNone
    | inr response =>
        if (status_code response =? 200)%Z then
          match json response with inl _ => PNone | inr body => body end
        else PNone
    end in
  (no_body res -> answer = PNone) /\
  (send (get_request (self s) (VirtualServiceItemPath uuid)) (world s) = (res, w') ->
   get_virtual_service_by_uuid send uuid s = (inr answer, State (self s) w')) /\
  (send (put_request (self s) (VirtualServiceItemPath uuid) payload) (world s) = (res, w') ->
   update_virtual_service send uuid payload s = (inr answer, State (self s) w')).
Proof.
  intros answer. split; [|split].
  - subst answer. destruct res as [e|response]; [reflexivity|].
    intros [Hne|[e He]].
    + apply Z.eqb_neq in Hne. now rewrite Hne.
    + rewrite He. now destruct (status_code response =? 200)%Z.
  - apply get_virtual_service_by_uuid_run.
  - apply update_virtual_service_run.
Qed.

End Transport.

(** *** The base URL *)

Lemma rstrip_tail (s : string) : exists n, s = rstrip "/" s ++ slashes n.
Proof.
  induction s as [|a s [n IH]]; [exists O; reflexivity|].
  cbn [rstrip].
  destruct (Ascii.eqb a "/" && String.eqb (rstrip "/" s) "")%bool eqn:Hcase.
  - apply andb_true_iff in Hcase as [Ha Hr].
    apply Ascii.eqb_eq in Ha. apply String.eqb_eq in Hr. subst a.
    exists (S n). rewrite IH at 1. rewrite Hr. reflexivity.
  - exists n. change (String a s = String a (rstrip "/" s ++ slashes n)).
    now rewrite <- IH.
Qed.

Lemma rstrip_no_trailing (s t : string) : rstrip "/" s <> t ++ "/".
Proof.
  revert t. induction s as [|a s IH]; intros t; simpl.
  - destruct t; discriminate.
  - destruct (Ascii.eqb a "/" && String.eqb (rstrip "/" s) "")%bool eqn:Hcase.
    + destruct t; discriminate.
    + destruct t as [|b t]; simpl.
      * intros [= -> Hr]. rewrite Hr in Hcase. discriminate.
      * intros [= _ Hr]. exact (IH t Hr).
Qed.

(** X8.  A client is built with the base URL without its trailing slashes,
    and no other character removed, with the timeout it is given and no
    token; a base URL that is not a [str] raises an [AttributeError]. *)
Theorem init_strips_trailing_slashes (timeout : value) :
  (forall url, exists c n,
     __init__ (PStr url) timeout = inr c /\
     url = base_url c ++ slashes n /\
     (forall t, base_url c <> t ++ "/") /\
     APIClient.timeout c = timeout /\
     token c = PNone) /\
  (forall v, (forall url, v <> PStr url) ->
     exists e, __init__ v timeout = inl e /\ exn_class e = "AttributeError").
Proof.
  split.
  - intros url. destruct (rstrip_tail url) as [n Hn].
    exists (Build (rstrip "/" url) timeout PNone), n. simpl.
    split; [reflexivity|]. split; [exact Hn|]. split; [apply rstrip_no_trailing|].
    split; reflexivity.
  - intros v Hv. destruct v; try (eexists; split; reflexivity).
    now destruct (Hv s).
Qed.

(** *** The further statements at concrete services *)

Lemma login_stores_any_token_witness :
  exists ok s',
    login Examples.load_balancer (PStr "admin") (PStr "secret")
      (Examples.client_on true PNone) = (inr ok, s') /\
    token (self s') = PStr "t0k3n" /\
    (ok = true <-> (exists str, PStr "t0k3n" = PStr str) \/ (exists l, PStr "t0k3n" = PList l)) /\
    _get_headers (self s') !! "Authorization" = Some (HBearer (PStr "t0k3n")).
Proof.
  exact (login_stores_any_token Examples.load_balancer (Examples.client_on true PNone)
           (PStr "admin") (PStr "secret")
           (Response 200 "" (inr (dict_of [("token", PStr "t0k3n")]))) true
           (list_to_map [("token", PStr "t0k3n")]) eq_refl eq_refl eq_refl).
Defined.

Lemma login_ignores_other_bodies_witness :
  login MoreExamples.answers_empty_list (PStr "admin") (PStr "secret")
    (Examples.client (PStr "t0k3n"))
  = (inr false, Examples.client (PStr "t0k3n")).
Proof.
  apply (login_ignores_other_bodies MoreExamples.answers_empty_list
           (Examples.client (PStr "t0k3n")) (PStr "admin") (PStr "secret")
           (Response 200 "" (inr (PList []))) tt).
  - reflexivity.
  - reflexivity.
  - intros d [=].
Defined.

Lemma listings_without_body_witness :
  get_tenants Examples.unauthorized (Examples.client PNone)
    = (inr PNone, Examples.client PNone) /\
  get_virtual_services Examples.down (Examples.client PNone)
    = (inr PNone, Examples.client PNone).
Proof.
  split.
  - refine (proj1 (listings_without_body Examples.unauthorized (Examples.client PNone)
                     (Examples.refused 401 "Unauthorized") tt _) eq_refl).
    left. simpl. lia.
  - refine (proj1 (proj2 (listings_without_body Examples.down (Examples.client PNone)
                            Examples.unreachable tt _)) eq_refl).
    exact I.
Defined.

Lemma by_name_returns_a_named_entry_witness :
  Examples.client PNone
    = snd (get_virtual_services Examples.collections (Examples.client PNone)) /\
  (Examples.vs_b = PNone \/
   has_name "b" Examples.vs_b /\
   exists entries,
     fst (get_virtual_services Examples.collections (Examples.client PNone))
       = inr (PList entries) /\ Examples.vs_b ∈ entries).
Proof.
  apply (by_name_returns_a_named_entry Examples.collections
           (Examples.client PNone) (Examples.client PNone) "b" Examples.vs_b).
  reflexivity.
Defined.

End APIClientMore.

(** ** More on the configuration loader *)

Module ConfigLoaderMore.
Import ConfigLoader.

(** X9.  The loader is built exactly when the file exists, can be read and
    parses, and then holds the parsed document without looking at it.  A
    missing file raises [FileNotFoundError] naming the path, a YAML error is
    turned into a [ValueError] quoting it, and an error of [open] is raised
    as it is. *)
Theorem construction_by_file (fs : string -> file) (config_file : string) :
  (forall loader,
     __init__ fs config_file = inr loader <->
     exists v, fs config_file = Document v /\ loader = Build config_file v) /\
  (fs config_file = Missing ->
   __init__ fs config_file =
     inl (Exn "FileNotFoundError" ("Configuration file not found: " ++ config_file))) /\
  (forall e, fs config_file = Malformed e ->
   __init__ fs config_file =
     inl (Exn "ValueError" ("Error parsing YAML configuration: " ++ str_exn e))) /\
  (forall e, fs config_file = Unreadable e -> __init__ fs config_file = inl e).
Proof.
  unfold __init__, _load_config. repeat split.
  - intros Hinit. destruct (fs config_file); try discriminate.
    injection Hinit as <-. eauto.
  - intros (v & -> & ->). reflexivity.
  - intros ->. reflexivity.
  - intros e ->. reflexivity.
  - intros e ->. reflexivity.
Qed.

(** X10.  On a document that is a mapping, an accessor returns its default
    when its key is absent: the empty mapping for [api] and [credentials],
    the empty list for [test_cases], the default target name, and, for the
    nested ones, 30, ["threading"] and 4 both when the section is absent
    and when it is a mapping without the key. *)
Theorem defaults_for_absent_keys (config_file : string) (cfg : gmap string value) :
  let loader := Build config_file (PDict cfg) in
  (cfg !! "api" = None ->
   get_api_config loader = inr (PDict ∅) /\ get_timeout loader = inr (PInt 30)) /\
  (cfg !! "credentials" = None -> get_credentials loader = inr (PDict ∅)) /\
  (cfg !! "test_cases" = None -> get_test_cases loader = inr (PList [])) /\
  (cfg !! "target_virtual_service" = None ->
   get_target_virtual_service loader = inr (PStr "backend-vs-t1r_1000-1")) /\
  (cfg !! "parallelism" = None ->
   get_parallelism_method loader = inr (PStr "threading") /\
   get_max_workers loader = inr (PInt 4)) /\
  (forall api, cfg !! "api" = Some (PDict api) -> api !! "timeout" = None ->
   get_timeout loader = inr (PInt 30)) /\
  (forall p, cfg !! "parallelism" = Some (PDict p) ->
   (p !! "method" = None -> get_parallelism_method loader = inr (PStr "threading")) /\
   (p !! "max_workers" = None -> get_max_workers loader = inr (PInt 4))).
Proof.
  intros loader.
  unfold get_api_config, get_credentials, get_test_cases, get_target_virtual_service,
    get_timeout, get_parallelism_method, get_max_workers. simpl.
  repeat split; intros;
    repeat (match goal with Hk : _ !! _ = _ |- _ => rewrite Hk end; simpl);
    reflexivity.
Qed.

(** X11.  A key that is present with the value [null] defeats the default:
    the accessor of the key returns [None], and an accessor that reads
    inside the section raises instead of returning 30, ["threading"] or 4.
    A nested key present with [null] is returned as [None] too. *)
Theorem null_defeats_the_default (config_file : string) (cfg : gmap string value) :
  let loader := Build config_file (PDict cfg) in
  (cfg !! "api" = Some PNone ->
   get_api_config loader = inr PNone /\
   get_timeout loader = inl (AttributeError PNone "get")) /\
  (cfg !! "parallelism" = Some PNone ->
   get_parallelism_method loader = inl (AttributeError PNone "get") /\
   get_max_workers loader = inl (AttributeError PNone "get")) /\
  (cfg !! "test_cases" = Some PNone -> get_test_cases loader = inr PNone) /\
  (cfg !! "target_virtual_service" = Some PNone ->
   get_target_virtual_service loader = inr PNone) /\
  (forall api, cfg !! "api" = Some (PDict api) -> api !! "timeout" = Some PNone ->
   get_timeout loader = inr PNone).
Proof.
  intros loader.
  unfold get_api_config, get_test_cases, get_target_virtual_service,
    get_timeout, get_parallelism_method, get_max_workers. simpl.
  repeat split; intros;
    repeat (match goal with Hk : _ !! _ = _ |- _ => rewrite Hk end; simpl);
    reflexivity.
Qed.

(** X12.  The loader accepts a document that is not a mapping (a list, a
    string, a number, nothing): the construction succeeds, and then each of
    the seven accessors raises an [AttributeError]. *)
Theorem document_that_is_no_mapping (fs : string -> file) (config_file : string) (v : value) :
  fs config_file = Document v ->
  is_dict v = false ->
  __init__ fs config_file = inr (Build config_file v) /\
  forall accessor,
    In accessor [get_api_config; get_credentials; get_test_cases;
                 get_target_virtual_service; get_timeout;
                 get_parallelism_method; get_max_workers] ->
    accessor (Build config_file v) = inl (AttributeError v "get").
Proof.
  intros Hfile Hv. split; [unfold __init__; now rewrite Hfile|].
  intros accessor Hin. simpl in Hin.
  repeat (destruct Hin as [<-|Hin];
          [unfold get_api_config, get_credentials, get_test_cases,
             get_target_virtual_service, get_timeout, get_parallelism_method,
             get_max_workers; simpl; rewrite py_get_raises by exact Hv; reflexivity|]).
  destruct Hin.
Qed.

Lemma document_that_is_no_mapping_witness :
  __init__ MoreExamples.list_file "test_config.yaml"
    = inr (Build "test_config.yaml" (PList [PStr "a"])) /\
  forall accessor,
    In accessor [get_api_config; get_credentials; get_test_cases;
                 get_target_virtual_service; get_timeout;
                 get_parallelism_method; get_max_workers] ->
    accessor (Build "test_config.yaml" (PList [PStr "a"]))
      = inl (AttributeError (PList [PStr "a"]) "get").
Proof.
  apply (document_that_is_no_mapping MoreExamples.list_file "test_config.yaml"
           (PList [PStr "a"])); reflexivity.
Defined.

End ConfigLoaderMore.

(** ** More on the orchestrator *)

Module TestOrchestratorMore.
Import TestOrchestrator.

Lemma succeeded_success r : has_status "success" r -> succeeded r = true.
Proof. intros Hr. unfold succeeded. now rewrite (has_status_get _ _ _ Hr). Qed.

Lemma succeeded_failed r : has_status "failed" r -> succeeded r = false.
Proof. intros Hr. unfold succeeded. now rewrite (has_status_get _ _ _ Hr). Qed.

Lemma dict_set_keys stage r (results : list (string * value)) :
  stage ∈ results.*1 -> (dict_set stage r results).*1 = results.*1.
Proof.
  induction results as [|[k v] results IH]; simpl; [intros Hin; inversion Hin|].
  destruct (String.eqb_spec k stage) as [->|Hne]; [reflexivity|].
  intros Hin. simpl. f_equal. apply IH.
  apply elem_of_cons in Hin as [->|Hin]; [contradiction|exact Hin].
Qed.

Section Orchestrator.

Context {C : Type} `{ApiClient C}.

Ltac run :=
  unfold try_except, bind, eval, ret, gets, modify, call, record, failed_with;
  simpl.

(** X13.  What stage 2 records, by what the lookup of the target gives it:
    the message of an exception the lookup raises; "not found" for [None]
    and for any other falsy value; "not enabled" when the object's
    [enabled] is falsy or missing; and success, with the object's [uuid]
    ([None] when it has none) and its [enabled], otherwise.  A truthy value
    that is not an object fails with the [AttributeError] of its [get]. *)
Theorem stage_2_outcome (o : @t C) res c :
  get_virtual_service_by_name (target_vs_name o) (api_client o) = (res, c) ->
  let result :=
    match res with
    | inl e => dict_of [("status", PStr "failed"); ("error", PStr (str_exn e))]
    | inr target_vs =>
        if negb (truthy target_vs) then
          dict_of [("status", PStr "failed");
                   ("error", PStr ("Virtual service '" ++ target_vs_name o ++ "' not found"))]
        else
          match target_vs with
          | PDict d =>
              if truthy (default (PBool false) (d !! "enabled")) then
                dict_of [("status", PStr "success");
                         ("virtual_service", target_vs);
                         ("uuid", default PNone (d !! "uuid"));
                         ("enabled", default (PBool false) (d !! "enabled"))]
              else
                dict_of [("status", PStr "failed");
                         ("error", PStr "Virtual service is not enabled");
                         ("virtual_service", target_vs)]
          | _ =>
              dict_of [("status", PStr "failed");
                       ("error", PStr (str_exn (AttributeError target_vs "get")))]
          end
    end in
  stage_2_pre_validation o =
    (inr result, with_result "pre_validation" result (with_client c o)).
Proof.
  intros Hcall. unfold stage_2_pre_validation. run. rewrite Hcall.
  destruct res as [e|target_vs]; [reflexivity|]. simpl.
  destruct (truthy target_vs) eqn:Htruthy; simpl; [|reflexivity].
  destruct target_vs; try reflexivity. simpl.
  destruct (truthy (default (PBool false) (d !! "enabled"))); reflexivity.
Qed.

(** The result stages 3 and 4 record for an answer of the client, with
    the two messages of the stage. *)
Lemma stage_3_run (uuid : value) (o : @t C) res c :
  update_virtual_service uuid (dict_of [("enabled", PBool false)]) (api_client o) = (res, c) ->
  let result :=
    match res with
    | inl e => dict_of [("status", PStr "failed"); ("error", PStr (str_exn e))]
    | inr response =>
        if is_None response then
          dict_of [("status", PStr "failed");
                   ("error", PStr "Failed to update virtual service")]
        else
          match py_get response "enabled" (PBool true) with
          | inl e => dict_of [("status", PStr "failed"); ("error", PStr (str_exn e))]
          | inr is_enabled =>
              if truthy is_enabled then
                dict_of [("status", PStr "failed");
                         ("error", PStr "Virtual service was not disabled");
                         ("response", response)]
              else
                dict_of [("status", PStr "success");
                         ("response", response);
                         ("enabled", is_enabled)]
          end
    end in
  stage_3_task_trigger uuid o =
    (inr result, with_result "task_trigger" result (with_client c o)).
Proof.
  intros Hcall. unfold stage_3_task_trigger. run. rewrite Hcall.
  destruct res as [e|response]; [reflexivity|]. simpl.
  destruct (is_None response); [reflexivity|]. simpl.
  destruct (py_get response "enabled" (PBool true)) as [e|is_enabled]; [reflexivity|].
  simpl. destruct (truthy is_enabled); reflexivity.
Qed.

Lemma stage_4_run (uuid : value) (o : @t C) res c :
  get_virtual_service_by_uuid uuid (api_client o) = (res, c) ->
  let result :=
    match res with
    | inl e => dict_of [("status", PStr "failed"); ("error", PStr (str_exn e))]
    | inr response =>
        if is_None response then
          dict_of [("status", PStr "failed");
                   ("error", PStr "Failed to fetch virtual service")]
        else
          match py_get response "enabled" (PBool true) with
          | inl e => dict_of [("status", PStr "failed"); ("error", PStr (str_exn e))]
          | inr is_enabled =>
              if truthy is_enabled then
                dict_of [("status", PStr "failed");
                         ("error", PStr "Virtual service is still enabled");
                         ("response", response)]
              else
                dict_of [("status", PStr "success");
                         ("response", response);
                         ("enabled", is_enabled)]
          end
    end in
  stage_4_post_validation uuid o =
    (inr result, with_result "post_validation" result (with_client c o)).
Proof.
  intros Hcall. unfold stage_4_post_validation. run. rewrite Hcall.
  destruct res as [e|response]; [reflexivity|]. simpl.
  destruct (is_None response); [reflexivity|]. simpl.
  destruct (py_get response "enabled" (PBool true)) as [e|is_enabled]; [reflexivity|].
  simpl. destruct (truthy is_enabled); reflexivity.
Qed.

(** X14.  Stage 3 reports success exactly when the update returns an
    object whose [enabled] is present and falsy.  It reports failed when the
    update raises or returns [None], when the answer is not an object, and
    when [enabled] is truthy or missing: a 200 that leaves the service
    enabled, or does not say, is a failure. *)
Theorem stage_3_succeeds_only_when_disabled (uuid : value) (o : @t C) res c r o' :
  update_virtual_service uuid (dict_of [("enabled", PBool false)]) (api_client o) = (res, c) ->
  stage_3_task_trigger uuid o = (inr r, o') ->
  stage_result r /\
  (has_status "success" r <->
   exists d is_enabled,
     res = inr (PDict d) /\ d !! "enabled" = Some is_enabled /\ truthy is_enabled = false).
Proof.
  intros Hcall Hrun. rewrite (stage_3_run uuid o res c Hcall) in Hrun.
  injection Hrun as <- <-.
  assert (forall l, ~ has_status "success" (dict_of (("status", PStr "failed") :: l))) as Hno.
  { intros l (d & [= <-] & Hd). rewrite lookup_insert_eq in Hd. discriminate. }
  destruct res as [e|response].
  - split; [right; eexists; split; reflexivity|].
    split; [intros Hs; now apply Hno in Hs|intros (d & v & [=] & _)].
  - destruct response as [| | | | | |d]; simpl;
      try (split; [right; eexists; split; reflexivity|];
           split; [intros Hs; now apply Hno in Hs|intros (d & v & [=] & _)]).
    destruct (d !! "enabled") as [is_enabled|] eqn:Hd; simpl.
    + destruct (truthy is_enabled) eqn:Ht.
      * split; [right; eexists; split; reflexivity|].
        split; [intros Hs; now apply Hno in Hs|].
        intros (d' & v & [= <-] & Hv & Hf). congruence.
      * split; [left; eexists; split; reflexivity|].
        split; [intros _; eauto|intros _; eexists; split; reflexivity].
    + split; [right; eexists; split; reflexivity|].
      split; [intros Hs; now apply Hno in Hs|].
      intros (d' & v & [= <-] & Hv & Hf). congruence.
Qed.

(** X15.  Stage 4 reports success exactly when the fresh read returns an
    object whose [enabled] is present and falsy, and failed in every other
    case, [enabled] missing included. *)
Theorem stage_4_succeeds_only_when_disabled (uuid : value) (o : @t C) res c r o' :
  get_virtual_service_by_uuid uuid (api_client o) = (res, c) ->
  stage_4_post_validation uuid o = (inr r, o') ->
  stage_result r /\
  (has_status "success" r <->
   exists d is_enabled,
     res = inr (PDict d) /\ d !! "enabled" = Some is_enabled /\ truthy is_enabled = false).
Proof.
  intros Hcall Hrun. rewrite (stage_4_run uuid o res c Hcall) in Hrun.
  injection Hrun as <- <-.
  assert (forall l, ~ has_status "success" (dict_of (("status", PStr "failed") :: l))) as Hno.
  { intros l (d & [= <-] & Hd). rewrite lookup_insert_eq in Hd. discriminate. }
  destruct res as [e|response].
  - split; [right; eexists; split; reflexivity|].
    split; [intros Hs; now apply Hno in Hs|intros (d & v & [=] & _)].
  - destruct response as [| | | | | |d]; simpl;
      try (split; [right; eexists; split; reflexivity|];
           split; [intros Hs; now apply Hno in Hs|intros (d & v & [=] & _)]).
    destruct (d !! "enabled") as [is_enabled|] eqn:Hd; simpl.
    + destruct (truthy is_enabled) eqn:Ht.
      * split; [right; eexists; split; reflexivity|].
        split; [intros Hs; now apply Hno in Hs|].
        intros (d' & v & [= <-] & Hv & Hf). congruence.
      * split; [left; eexists; split; reflexivity|].
        split; [intros _; eauto|intros _; eexists; split; reflexivity].
    + split; [right; eexists; split; reflexivity|].
      split; [intros Hs; now apply Hno in Hs|].
      intros (d' & v & [= <-] & Hv & Hf). congruence.
Qed.

(** X16.  No stage raises: each returns a result whose status is success
    or failed, records it under its own key, and leaves the other entries
    of the results and the target name as they were. *)
Theorem stages_record_under_their_own_key (o : @t C) (uuid : value) :
  forall stage run,
    In (stage, run)
       [("pre_fetcher", stage_1_pre_fetcher);
        ("pre_validation", stage_2_pre_validation);
        ("task_trigger", stage_3_task_trigger uuid);
        ("post_validation", stage_4_post_validation uuid)] ->
    exists r o',
      run o = (inr r, o') /\
      stage_result r /\
      dict_lookup stage (test_results o') = Some r /\
      (forall other, other <> stage ->
         dict_lookup other (test_results o') = dict_lookup other (test_results o)) /\
      target_vs_name o' = target_vs_name o.
Proof.
  intros stage run Hin. simpl in Hin.
  destruct Hin as [[= <- <-]|[[= <- <-]|[[= <- <-]|[[= <- <-]|[]]]]].
  - destruct (TestOrchestratorFacts.stage_1_returns o) as (r & c & -> & Hr).
    exists r, (with_result "pre_fetcher" r (with_client c o)). simpl.
    split; [reflexivity|]. split; [exact Hr|]. split; [apply dict_lookup_set_eq|].
    split; [|reflexivity].
    intros other Hne. apply dict_lookup_set_ne. congruence.
  - destruct (TestOrchestratorFacts.stage_2_returns o) as (r & c & -> & Hr).
    exists r, (with_result "pre_validation" r (with_client c o)). simpl.
    split; [reflexivity|]. split; [exact Hr|]. split; [apply dict_lookup_set_eq|].
    split; [|reflexivity].
    intros other Hne. apply dict_lookup_set_ne. congruence.
  - destruct (TestOrchestratorFacts.stage_3_returns uuid o) as (r & -> & Hr).
    eexists r, _. simpl.
    split; [reflexivity|]. split; [exact Hr|]. split; [apply dict_lookup_set_eq|].
    split; [|reflexivity].
    intros other Hne. apply dict_lookup_set_ne. congruence.
  - destruct (TestOrchestratorFacts.stage_4_returns uuid o) as (r & -> & Hr).
    eexists r, _. simpl.
    split; [reflexivity|]. split; [exact Hr|]. split; [apply dict_lookup_set_eq|].
    split; [|reflexivity].
    intros other Hne. apply dict_lookup_set_ne. congruence.
Qed.

Lemma all_success_forallb values :
  Forall recorded values ->
  all_success values = inr (forallb (fun r => is_None r || succeeded r)%bool values).
Proof.
  induction 1 as [|r values Hr _ IH]; [reflexivity|].
  destruct Hr as [->|[Hr|Hr]].
  - exact IH.
  - rewrite (TestOrchestratorFacts.all_success_step _ _ _ Hr). simpl.
    rewrite (succeeded_success _ Hr), orb_true_r. exact IH.
  - rewrite (TestOrchestratorFacts.all_success_step _ _ _ Hr). simpl.
    rewrite (succeeded_failed _ Hr), orb_false_r.
    destruct Hr as (d & -> & _). reflexivity.
Qed.

Lemma summary_line_stage stage r :
  stage_result r -> summary_line stage r = inr (stage_line (upper stage) r).
Proof.
  intros [Hr|Hr]; unfold stage_line.
  - rewrite (succeeded_success _ Hr). now apply TestOrchestratorFacts.summary_line_success.
  - rewrite (succeeded_failed _ Hr). now apply TestOrchestratorFacts.summary_line_failed.
Qed.

(** X17.  The verdict of the summary.  Over results that are each [None]
    or what a stage records, it is PASSED exactly when every result that is
    not [None] reports success: the stages that have not run never turn it
    to FAILED.  So the summary of an orchestrator that has run nothing
    shows four stages NOT-EXECUTED and the verdict PASSED. *)
Theorem verdict_ignores_absent_stages :
  (forall results : list (string * value),
     Forall (fun kv => recorded kv.2) results ->
     overall_status results =
       inr (if forallb (fun r => is_None r || succeeded r)%bool results.*2
            then "PASSED" else "FAILED")) /\
  (forall (c : C) (name : string),
     _print_summary (__init__ c name) =
       (inr tt,
        Build c name (test_results (__init__ c name))
          [SummaryBanner;
           SummaryStage Ring "PRE_FETCHER" "NOT-EXECUTED";
           SummaryStage Ring "PRE_VALIDATION" "NOT-EXECUTED";
           SummaryStage Ring "TASK_TRIGGER" "NOT-EXECUTED";
           SummaryStage Ring "POST_VALIDATION" "NOT-EXECUTED";
           SummaryOverall "PASSED"; SummaryEnd])).
Proof.
  split.
  - intros results Hrec. unfold overall_status.
    rewrite all_success_forallb by (apply Forall_fmap; exact Hrec). reflexivity.
  - intros c name. reflexivity.
Qed.

(** X18.  A run of a new orchestrator that gets past stage 2 prints its
    banner and the summary: one line per stage, in the order of the stages,
    with the status that stage recorded, and the verdict PASSED exactly
    when the four stages report success.  A failure of stage 1 or of stage
    3 alone makes the verdict FAILED. *)
Theorem complete_run_summary (c : C) (name : string) res (o' : @t C) r2 :
  run_full_workflow (__init__ c name) = (res, o') ->
  dict_lookup "pre_validation" (test_results o') = Some r2 ->
  has_status "success" r2 ->
  exists r1 r3 r4,
    stage_result r1 /\ stage_result r3 /\ stage_result r4 /\
    test_results o' =
      [("pre_fetcher", r1); ("pre_validation", r2);
       ("task_trigger", r3); ("post_validation", r4)] /\
    stdout o' =
      [WorkflowBanner; SummaryBanner;
       stage_line "PRE_FETCHER" r1;
       SummaryStage Tick "PRE_VALIDATION" "SUCCESS";
       stage_line "TASK_TRIGGER" r3;
       stage_line "POST_VALIDATION" r4;
       SummaryOverall (if (succeeded r1 && succeeded r3 && succeeded r4)%bool
                       then "PASSED" else "FAILED");
       SummaryEnd].
Proof.
  intros Hrun Hlookup Hr2.
  destruct (TestOrchestratorFacts.run_full_workflow_cases (__init__ c name)
              (TestOrchestratorFacts.init_recorded c name))
    as (r1 & o1 & r2' & o2 & Hs1 & Hs2 & Hr1 & Hr2' & Hres & Hout & Hfailed & Hsuccess).
  simpl in Hres, Hout.
  assert (r2' = r2) as ->.
  { destruct Hr2' as [Hr2'|Hr2'].
    - destruct (Hsuccess Hr2')
        as (uuid & r3 & o3 & r4 & o4 & o5 & _ & _ & _ & _ & _ & Hres4 & _ & Hres5 & Hrun').
      rewrite Hrun in Hrun'. injection Hrun' as -> ->.
      rewrite Hres5, Hres4, Hres in Hlookup. simpl in Hlookup. congruence.
    - rewrite (Hfailed Hr2') in Hrun. injection Hrun as <- <-.
      simpl in Hlookup. rewrite Hres in Hlookup. simpl in Hlookup. congruence. }
  destruct (Hsuccess Hr2)
    as (uuid & r3 & o3 & r4 & o4 & o5 & _ & Hs3 & Hs4 & Hr3 & Hr4 & Hres4 & Hsum & Hres5 & Hrun').
  rewrite Hrun in Hrun'. injection Hrun' as -> ->.
  assert (stdout o3 = stdout o2) as Hout3.
  { destruct (TestOrchestratorFacts.stage_3_returns uuid o2) as (r3' & Hs3' & _).
    rewrite Hs3 in Hs3'. injection Hs3' as _ ->. reflexivity. }
  assert (stdout o4 = stdout o3) as Hout4'.
  { destruct (TestOrchestratorFacts.stage_4_returns uuid o3) as (r4' & Hs4' & _).
    rewrite Hs4 in Hs4'. injection Hs4' as _ ->. reflexivity. }
  assert (test_results o4 =
            [("pre_fetcher", r1); ("pre_validation", r2);
             ("task_trigger", r3); ("post_validation", r4)]) as Hfour
    by (rewrite Hres4, Hres; reflexivity).
  assert (stdout o4 = [WorkflowBanner]) as Hout4 by congruence.
  exists r1, r3, r4. repeat (split; [assumption|]).
  split; [rewrite Hres5; exact Hfour|].
  assert (Forall (fun kv : string * value => recorded kv.2) (test_results o4)) as Hrec.
  { rewrite Hfour.
    repeat (constructor; [right; first [assumption|left; assumption]|]). constructor. }
  destruct (TestOrchestratorFacts.print_summary_returns o4 Hrec)
    as (lines & overall & Hsum' & Hoverall & Hlines).
  rewrite Hsum in Hsum'. injection Hsum' as ->. simpl. rewrite Hout4.
  rewrite Hfour in Hlines, Hoverall.
  inversion Hlines as [|? l1 ? lines1 Hl1 Hlines1]; subst.
  inversion Hlines1 as [|? l2 ? lines2 Hl2 Hlines2]; subst.
  inversion Hlines2 as [|? l3 ? lines3 Hl3 Hlines3]; subst.
  inversion Hlines3 as [|? l4 ? lines4 Hl4 Hlines4]; subst.
  inversion Hlines4; subst.
  simpl in Hl1, Hl2, Hl3, Hl4.
  rewrite summary_line_stage in Hl1, Hl3, Hl4 by assumption.
  rewrite (TestOrchestratorFacts.summary_line_success _ _ Hr2) in Hl2.
  injection Hl1 as <-. injection Hl2 as <-. injection Hl3 as <-. injection Hl4 as <-.
  unfold overall_status in Hoverall.
  rewrite all_success_forallb in Hoverall
    by (rewrite <- Hfour; apply Forall_fmap; exact Hrec).
  simpl in Hoverall. injection Hoverall as <-.
  rewrite (succeeded_success _ Hr2).
  assert (is_None r1 = false) as -> by (destruct Hr1 as [(d & -> & _)|(d & -> & _)]; reflexivity).
  assert (is_None r2 = false) as -> by (destruct Hr2 as (d & -> & _); reflexivity).
  assert (is_None r3 = false) as -> by (destruct Hr3 as [(d & -> & _)|(d & -> & _)]; reflexivity).
  assert (is_None r4 = false) as -> by (destruct Hr4 as [(d & -> & _)|(d & -> & _)]; reflexivity).
  unfold stage_line.
  destruct (succeeded r1), (succeeded r3), (succeeded r4); reflexivity.
Qed.

(** X19.  Whatever the client does, the workflow returns, with the
    orchestrator's own results.  When it stops after stage 2 it records
    nothing for stages 3 and 4: their entries are what they were before the
    run, [None] for a new orchestrator and the results of the earlier run
    for one that is run again. *)
Theorem early_stop_keeps_later_entries (o : @t C) res (o' : @t C) :
  Forall (fun kv => recorded kv.2) (test_results o) ->
  run_full_workflow o = (res, o') ->
  res = inr (test_results o') /\
  Forall (fun kv => recorded kv.2) (test_results o') /\
  ((forall r2, dict_lookup "pre_validation" (test_results o') = Some r2 ->
               ~ has_status "success" r2) ->
   dict_lookup "task_trigger" (test_results o')
     = dict_lookup "task_trigger" (test_results o) /\
   dict_lookup "post_validation" (test_results o')
     = dict_lookup "post_validation" (test_results o)).
Proof.
  intros Hinv Hrun.
  destruct (TestOrchestratorFacts.run_full_workflow_cases o Hinv)
    as (r1 & o1 & r2 & o2 & Hs1 & Hs2 & Hr1 & Hr2 & Hres & Hout & Hfailed & Hsuccess).
  assert (Forall (fun kv : string * value => recorded kv.2) (test_results o2)) as Hinv2.
  { rewrite Hres.
    repeat (apply TestOrchestratorFacts.recorded_dict_set; [right; assumption|]).
    exact Hinv. }
  destruct Hr2 as [Hr2|Hr2].
  - destruct (Hsuccess Hr2)
      as (uuid & r3 & o3 & r4 & o4 & o5 & _ & _ & _ & Hr3 & Hr4 & Hres4 & _ & Hres5 & Hrun').
    rewrite Hrun in Hrun'. injection Hrun' as -> ->.
    split; [now rewrite Hres5|]. split.
    + rewrite Hres5, Hres4.
      repeat (apply TestOrchestratorFacts.recorded_dict_set; [right; assumption|]).
      exact Hinv2.
    + intros Hno. exfalso. apply (Hno r2); [|exact Hr2].
      rewrite Hres5, Hres4, Hres.
      rewrite !dict_lookup_set_ne by discriminate. apply dict_lookup_set_eq.
  - rewrite (Hfailed Hr2) in Hrun. injection Hrun as <- <-. simpl.
    split; [reflexivity|]. split; [exact Hinv2|].
    intros _. rewrite Hres. rewrite !dict_lookup_set_ne by discriminate. split; reflexivity.
Qed.

End Orchestrator.

(** *** The further statements at concrete services *)

Lemma stage_2_outcome_witness :
  let o := __init__ (Examples.client_on true (PStr "t0k3n")) "backend-vs-t1r_1000-1" in
  let result :=
    dict_of [("status", PStr "success");
             ("virtual_service", Examples.backend true);
             ("uuid", PStr "vs-1");
             ("enabled", PBool true)] in
  stage_2_pre_validation (H := real_client Examples.load_balancer) o
    = (inr result, with_result "pre_validation" result o).
Proof.
  intros o result.
  exact (stage_2_outcome (H := real_client Examples.load_balancer) o
           (inr (Examples.backend true)) (Examples.client_on true (PStr "t0k3n")) eq_refl).
Defined.

Lemma stage_3_succeeds_only_when_disabled_witness :
  let o := __init__ (Examples.client_on true (PStr "t0k3n")) "backend-vs-t1r_1000-1" in
  let run := stage_3_task_trigger (H := real_client Examples.load_balancer) (PStr "vs-1") o in
  exists r,
    fst run = inr r /\ stage_result r /\
    (has_status "success" r <->
     exists d is_enabled,
       (inr (Examples.backend false) : exn + value) = inr (PDict d) /\
       d !! "enabled" = Some is_enabled /\ truthy is_enabled = false).
Proof.
  intros o run.
  eexists. split; [reflexivity|].
  eapply (stage_3_succeeds_only_when_disabled (H := real_client Examples.load_balancer)
            (PStr "vs-1") o (inr (Examples.backend false))
            (Examples.client_on false (PStr "t0k3n")) _ (snd run)).
  - reflexivity.
  - reflexivity.
Defined.

Lemma stage_4_succeeds_only_when_disabled_witness :
  let o := __init__ (Examples.client_on true (PStr "t0k3n")) "backend-vs-t1r_1000-1" in
  let run := stage_4_post_validation (H := real_client Examples.load_balancer) (PStr "vs-1") o in
  exists r,
    fst run = inr r /\ stage_result r /\
    (has_status "success" r <->
     exists d is_enabled,
       (inr (Examples.backend true) : exn + value) = inr (PDict d) /\
       d !! "enabled" = Some is_enabled /\ truthy is_enabled = false).
Proof.
  intros o run.
  eexists. split; [reflexivity|].
  eapply (stage_4_succeeds_only_when_disabled (H := real_client Examples.load_balancer)
            (PStr "vs-1") o (inr (Examples.backend true))
            (Examples.client_on true (PStr "t0k3n")) _ (snd run)).
  - reflexivity.
  - reflexivity.
Defined.

Lemma stages_record_under_their_own_key_witness :
  let o := __init__ (Examples.client PNone) "backend-vs-t1r_1000-1" in
  exists r o',
    stage_2_pre_validation (H := real_client Examples.unauthorized) o = (inr r, o') /\
    stage_result r /\
    dict_lookup "pre_validation" (test_results o') = Some r /\
    (forall other, other <> "pre_validation" ->
       dict_lookup other (test_results o') = dict_lookup other (test_results o)) /\
    target_vs_name o' = target_vs_name o.
Proof.
  intros o.
  apply (stages_record_under_their_own_key (H := real_client Examples.unauthorized)
           o PNone "pre_validation").
  right. left. reflexivity.
Defined.

Lemma complete_run_summary_witness :
  let run :=
    run_full_workflow (H := real_client Examples.read_only)
      (__init__ (Examples.client_on true (PStr "t0k3n")) "backend-vs-t1r_1000-1") in
  exists r1 r2 r3 r4,
    has_status "success" r2 /\
    test_results (snd run) =
      [("pre_fetcher", r1); ("pre_validation", r2);
       ("task_trigger", r3); ("post_validation", r4)] /\
    stdout (snd run) =
      [WorkflowBanner; SummaryBanner;
       SummaryStage Tick "PRE_FETCHER" "SUCCESS";
       SummaryStage Tick "PRE_VALIDATION" "SUCCESS";
       SummaryStage Cross "TASK_TRIGGER" "FAILED";
       SummaryStage Cross "POST_VALIDATION" "FAILED";
       SummaryOverall "FAILED"; SummaryEnd].
Proof.
  intros run.
  destruct (complete_run_summary (H := real_client Examples.read_only)
              (Examples.client_on true (PStr "t0k3n")) "backend-vs-t1r_1000-1"
              (fst run) (snd run)
              (dict_of [("status", PStr "success");
                        ("virtual_service", Examples.backend true);
                        ("uuid", PStr "vs-1");
                        ("enabled", PBool true)]))
    as (r1 & r3 & r4 & _ & _ & _ & Hres & Hout).
  - apply surjective_pairing.
  - reflexivity.
  - eexists. split; reflexivity.
  - exists r1, (dict_of [("status", PStr "success");
                           ("virtual_service", Examples.backend true);
                           ("uuid", PStr "vs-1");
                           ("enabled", PBool true)]), r3, r4.
    split; [eexists; split; reflexivity|].
    split; [exact Hres|]. rewrite Hout.
    assert (test_results (snd run) = test_results (snd run)) as Hcompute by reflexivity.
    rewrite Hres in Hcompute at 1. vm_compute in Hcompute.
    injection Hcompute as -> -> ->. reflexivity.
Defined.

Lemma early_stop_keeps_later_entries_witness :
  let o := __init__ (Examples.client PNone) "backend-vs-t1r_1000-1" in
  let run := run_full_workflow (H := real_client Examples.unauthorized) o in
  fst run = inr (test_results (snd run)) /\
  dict_lookup "task_trigger" (test_results (snd run)) = Some PNone /\
  dict_lookup "post_validation" (test_results (snd run)) = Some PNone.
Proof.
  intros o run.
  destruct (early_stop_keeps_later_entries (H := real_client Examples.unauthorized)
              o (fst run) (snd run))
    as (Hres & _ & Hkeep).
  - apply TestOrchestratorFacts.init_recorded.
  - apply surjective_pairing.
  - split; [exact Hres|]. apply Hkeep.
    intros r2 Hr2 (d & -> & Hd). vm_compute in Hr2. injection Hr2 as <-.
    vm_compute in Hd. discriminate Hd.
Defined.

End TestOrchestratorMore.

(** ** What a computation keeps *)

Lemma preserves_ret {S A} (Q : S -> Prop) (a : A) : preserves Q (ret a).
Proof. intros s Hs. exact Hs. Qed.

Lemma preserves_raise {S A} (Q : S -> Prop) (e : exn) : preserves Q (raise (A := A) e).
Proof. intros s Hs. exact Hs. Qed.

Lemma preserves_eval {S A} (Q : S -> Prop) (r : exn + A) : preserves Q (eval r).
Proof. intros s Hs. exact Hs. Qed.

Lemma preserves_gets {S A} (Q : S -> Prop) (f : S -> A) : preserves Q (gets f).
Proof. intros s Hs. exact Hs. Qed.

Lemma preserves_modify {S} (Q : S -> Prop) (f : S -> S) :
  (forall s, Q s -> Q (f s)) -> preserves Q (modify f).
Proof. intros Hf s Hs. apply Hf, Hs. Qed.

Lemma preserves_bind {S A B} (Q : S -> Prop) (m : M S A) (k : A -> M S B) :
  preserves Q m -> (forall a, preserves Q (k a)) -> preserves Q (bind m k).
Proof.
  intros Hm Hk s Hs. unfold bind. specialize (Hm s Hs).
  destruct (m s) as [[e|a] s']; simpl in *; [exact Hm|]. apply Hk, Hm.
Qed.

Lemma preserves_try_except {S A} (Q : S -> Prop) (m : M S A) (h : exn -> M S A) :
  preserves Q m -> (forall e, preserves Q (h e)) -> preserves Q (try_except m h).
Proof.
  intros Hm Hh s Hs. unfold try_except. specialize (Hm s Hs).
  destruct (m s) as [[e|a] s']; simpl in *; [|exact Hm]. apply Hh, Hm.
Qed.

Lemma preserves_for_each {S A} (Q : S -> Prop) (xs : list A) (body : A -> M S unit) :
  (forall x, preserves Q (body x)) -> preserves Q (for_each xs body).
Proof.
  intros Hbody. induction xs as [|x xs IH]; simpl.
  - apply preserves_ret.
  - apply preserves_bind; [apply Hbody|intros _; exact IH].
Qed.

(** Goes through a computation statement by statement. *)
Ltac preserve_step :=
  first
    [ apply preserves_ret | apply preserves_raise | apply preserves_eval
    | apply preserves_gets
    | apply preserves_try_except; [|intros ?]
    | apply preserves_bind; [|intros ?]
    | apply preserves_for_each; intros ?
    | match goal with
      | |- preserves _ (if ?b then _ else _) => destruct b
      | |- preserves _ (let '(_, _) := ?p in _) => destruct p
      | |- preserves _ (match ?p with _ => _ end) => destruct p
      end ].

Ltac preserve := repeat preserve_step.

Module TestOrchestratorKeeps.
Import TestOrchestrator.

Section Orchestrator.

Context {C : Type} `{ApiClient C}.
Context (Q : C -> Prop).

Lemma preserves_call {A} (m : M C A) : preserves Q m -> preserves (of_client Q) (call m).
Proof.
  intros Hm o Ho. unfold call. specialize (Hm (api_client o) Ho).
  destruct (m (api_client o)) as [r c]. exact Hm.
Qed.

Lemma preserves_record stage result : preserves (of_client Q) (record stage result).
Proof. intros o Ho. exact Ho. Qed.

Lemma preserves_print l : preserves (of_client Q) (print l).
Proof. intros o Ho. exact Ho. Qed.

Lemma preserves_failed_with stage e : preserves (of_client Q) (failed_with stage e).
Proof. intros o Ho. exact Ho. Qed.

Hypothesis Hget_tenants : preserves Q get_tenants.
Hypothesis Hget_virtual_services : preserves Q get_virtual_services.
Hypothesis Hget_service_engines : preserves Q get_service_engines.
Hypothesis Hget_virtual_service_by_name :
  forall name, preserves Q (get_virtual_service_by_name name).
Hypothesis Hupdate_virtual_service :
  forall uuid payload, preserves Q (update_virtual_service uuid payload).
Hypothesis Hget_virtual_service_by_uuid :
  forall uuid, preserves Q (get_virtual_service_by_uuid uuid).

Local Ltac stage :=
  repeat first
    [ apply preserves_record | apply preserves_print | apply preserves_failed_with
    | apply preserves_call; auto
    | progress preserve ].

Lemma stage_1_keeps : preserves (of_client Q) stage_1_pre_fetcher.
Proof. unfold stage_1_pre_fetcher, show_virtual_services. stage. Qed.

Lemma stage_2_keeps : preserves (of_client Q) stage_2_pre_validation.
Proof. unfold stage_2_pre_validation. stage. Qed.

Lemma stage_3_keeps uuid : preserves (of_client Q) (stage_3_task_trigger uuid).
Proof. unfold stage_3_task_trigger. stage. Qed.

Lemma stage_4_keeps uuid : preserves (of_client Q) (stage_4_post_validation uuid).
Proof. unfold stage_4_post_validation. stage. Qed.

Lemma print_summary_keeps : preserves (of_client Q) _print_summary.
Proof. unfold _print_summary. stage. Qed.

Lemma run_full_workflow_keeps : preserves (of_client Q) run_full_workflow.
Proof.
  unfold run_full_workflow.
  pose proof stage_1_keeps. pose proof stage_2_keeps.
  pose proof stage_3_keeps. pose proof stage_4_keeps. pose proof print_summary_keeps.
  repeat first
    [ assumption | apply preserves_print
    | match goal with Hk : forall uuid, preserves _ _ |- _ => apply Hk end
    | preserve_step ].
Qed.

End Orchestrator.
End TestOrchestratorKeeps.

Module APIClientKeeps.
Import APIClient.

Section Transport.

Context {W : Type} (send : request -> W -> (exn + response) * W).
Context (P : APIClient.t -> Prop).

Local Notation "'kept'" := (fun s : state (W := W) => P (self s)).

Lemma request_with_keeps build : preserves kept (request_with send build).
Proof.
  intros s Hs. unfold request_with, session.
  destruct (send (build (self s)) (world s)) as [res w]. exact Hs.
Qed.

Local Ltac method := repeat first [apply request_with_keeps | preserve_step].

Lemma register_keeps username password : preserves kept (register send username password).
Proof. unfold register. method. Qed.

Lemma get_tenants_keeps : preserves kept (get_tenants send).
Proof. unfold get_tenants. method. Qed.

Lemma get_virtual_services_keeps : preserves kept (get_virtual_services send).
Proof. unfold get_virtual_services. method. Qed.

Lemma get_service_engines_keeps : preserves kept (get_service_engines send).
Proof. unfold get_service_engines. method. Qed.

Lemma get_virtual_service_by_uuid_keeps uuid :
  preserves kept (get_virtual_service_by_uuid send uuid).
Proof. unfold get_virtual_service_by_uuid. method. Qed.

Lemma get_virtual_service_by_name_keeps name :
  preserves kept (get_virtual_service_by_name send name).
Proof.
  unfold get_virtual_service_by_name.
  repeat first [apply get_virtual_services_keeps | preserve_step].
Qed.

Lemma update_virtual_service_keeps uuid payload :
  preserves kept (update_virtual_service send uuid payload).
Proof. unfold update_virtual_service. method. Qed.

End Transport.
End APIClientKeeps.

(** X26.  A workflow over the real client changes the service only: the
    client object it was given keeps its base URL, its timeout and its
    token, whatever the service answers. *)
Theorem workflow_leaves_the_client_alone {W : Type}
        (send : request -> W -> (exn + response) * W)
        (o : TestOrchestrator.t (C := APIClient.state (W := W))) :
  let o' := snd (TestOrchestrator.run_full_workflow (H := real_client send) o) in
  APIClient.self (TestOrchestrator.api_client o')
    = APIClient.self (TestOrchestrator.api_client o).
Proof.
  set (P := fun c : APIClient.t => c = APIClient.self (TestOrchestrator.api_client o)).
  apply (TestOrchestratorKeeps.run_full_workflow_keeps (H := real_client send)
           (fun s => P (APIClient.self s))).
  - exact (APIClientKeeps.get_tenants_keeps send P).
  - exact (APIClientKeeps.get_virtual_services_keeps send P).
  - exact (APIClientKeeps.get_service_engines_keeps send P).
  - exact (APIClientKeeps.get_virtual_service_by_name_keeps send P).
  - exact (APIClientKeeps.update_virtual_service_keeps send P).
  - exact (APIClientKeeps.get_virtual_service_by_uuid_keeps send P).
  - reflexivity.
Qed.

(** ** More on the setup of the framework *)

Module TestFrameworkMore.
Import TestFramework.

Section Framework.

Context {W : Type} (send : request -> W -> (exn + response) * W).

Lemma setup_returns (fw : @t W) : exists ok fw', setup send fw = (inr ok, fw').
Proof.
  unfold setup, try_except.
  match goal with |- context [match ?m fw with _ => _ end] =>
    destruct (m fw) as [[e|ok] fw'] end; eauto.
Qed.

Lemma setup_not_a_mapping (fw : @t W) :
  is_dict (ConfigLoader.config (config_loader fw)) = false ->
  setup send fw = (inr false, fw).
Proof.
  intros Hcfg. unfold setup, try_except.
  erewrite bind_returns by reflexivity.
  erewrite bind_raises
    by (unfold eval, ConfigLoader.get_api_config; rewrite py_get_raises by exact Hcfg;
        reflexivity).
  reflexivity.
Qed.

Lemma setup_incomplete (fw : @t W) cfg api creds :
  ConfigLoader.config (config_loader fw) = PDict cfg ->
  default (PDict ∅) (cfg !! "api") = PDict api ->
  default (PDict ∅) (cfg !! "credentials") = PDict creds ->
  let base_url := default PNone (api !! "base_url") in
  let username := default PNone (creds !! "username") in
  let password := default PNone (creds !! "password") in
  (truthy base_url && truthy username && truthy password = false ->
   setup send fw = (inr false, fw)) /\
  (truthy base_url && truthy username && truthy password = true ->
   (forall url, base_url <> PStr url) ->
   setup send fw = (inr false, fw)).
Proof.
  intros Hcfg Hapi Hcreds base_url username password.
  assert (missing_settings base_url (PDict creds)
          = inr (negb (truthy base_url && truthy username && truthy password)))
    as Hmissing.
  { unfold missing_settings. simpl. fold username password.
    destruct (truthy base_url), (truthy username), (truthy password); reflexivity. }
  assert (forall ok,
            truthy base_url && truthy username && truthy password = ok ->
            (ok = true -> forall url, base_url <> PStr url) ->
            setup send fw = (inr false, fw)) as Hsetup.
  { intros ok Hok Hstr. unfold setup, try_except.
    erewrite bind_returns by reflexivity.
    erewrite bind_returns
      by (unfold eval, ConfigLoader.get_api_config; rewrite Hcfg; simpl; rewrite Hapi;
          reflexivity).
    erewrite bind_returns
      by (unfold eval, ConfigLoader.get_credentials; rewrite Hcfg; simpl; rewrite Hcreds;
          reflexivity).
    erewrite bind_returns by reflexivity.
    erewrite bind_returns
      by (unfold eval, ConfigLoader.get_timeout; rewrite Hcfg; simpl; rewrite Hapi;
          reflexivity).
    erewrite bind_returns
      by (unfold eval; fold base_url; rewrite Hmissing, Hok; reflexivity).
    destruct ok; simpl; [|reflexivity].
    specialize (Hstr eq_refl). subst base_url. revert Hstr.
    destruct (default PNone (api !! "base_url")) as [| | | |url| |];
      intros Hstr; try (erewrite bind_raises by reflexivity; reflexivity).
    now destruct (Hstr url). }
  split.
  - intros Hmiss. apply (Hsetup false Hmiss). discriminate.
  - intros Hpresent Hstr. apply (Hsetup true Hpresent). intros _. exact Hstr.
Qed.

(** X20.  [setup] never raises.  It returns [False] having sent no request
    and built no client when the document is not a mapping, when the base
    URL, the username or the password is missing or falsy (an empty string
    included), and when the base URL is not a [str]. *)
Theorem setup_refuses_incomplete_settings (fw : @t W) :
  (exists ok fw', setup send fw = (inr ok, fw')) /\
  (is_dict (ConfigLoader.config (config_loader fw)) = false ->
   setup send fw = (inr false, fw)) /\
  (forall cfg api creds,
     ConfigLoader.config (config_loader fw) = PDict cfg ->
     default (PDict ∅) (cfg !! "api") = PDict api ->
     default (PDict ∅) (cfg !! "credentials") = PDict creds ->
     let base_url := default PNone (api !! "base_url") in
     let username := default PNone (creds !! "username") in
     let password := default PNone (creds !! "password") in
     (truthy base_url && truthy username && truthy password = false ->
      setup send fw = (inr false, fw)) /\
     (truthy base_url && truthy username && truthy password = true ->
      (forall url, base_url <> PStr url) ->
      setup send fw = (inr false, fw))).
Proof.
  split; [apply setup_returns|]. split; [apply setup_not_a_mapping|].
  intros cfg api creds. apply setup_incomplete.
Qed.

(** [setup] and the calls on the client leave the loaded configuration. *)
Lemma call_keeps_config_loader {A} loader method (m : M (APIClient.state (W := W)) A) :
  preserves (fun fw : @t W => config_loader fw = loader) (call method m).
Proof.
  intros fw Hfw. unfold call. destruct (api_client fw) as [c|]; [|exact Hfw].
  destruct (m (APIClient.State c (world fw))) as [r s']. exact Hfw.
Qed.

Lemma setup_keeps_config_loader loader :
  preserves (fun fw : @t W => config_loader fw = loader) (setup send).
Proof.
  unfold setup.
  repeat first
    [ apply call_keeps_config_loader
    | apply preserves_modify; intros fw Hfw; exact Hfw
    | preserve_step ].
Qed.

(** A call of a method that leaves the client object as it is leaves the
    framework's fields as they are. *)
Lemma call_keeps {A} loader client method (m : M (APIClient.state (W := W)) A) :
  (forall c, preserves (fun s => APIClient.self s = c) m) ->
  preserves (fun fw : @t W => config_loader fw = loader /\ api_client fw = client)
            (call method m).
Proof.
  intros Hm fw [Hloader Hclient]. unfold call.
  destruct (api_client fw) as [c|] eqn:Hc; [|simpl; split; congruence].
  specialize (Hm c (APIClient.State c (world fw)) eq_refl).
  destruct (m (APIClient.State c (world fw))) as [r s']. simpl in *.
  split; [exact Hloader|]. rewrite Hm. exact Hclient.
Qed.

End Framework.

End TestFrameworkMore.

(** ** Running the test cases *)

Module TestRunFacts.
Import TestRun.

(** The lines of the stages of a completed test case. *)
Lemma print_stages_returns (results : list (string * value)) (console : list final_line) :
  Forall (fun entry : string * value => recorded entry.2) results ->
  for_each results print_stage console
    = (inr tt,
       (console ++ map (fun entry : string * value =>
                          FinalStage entry.1 (shown_status entry.2)) results)%list).
Proof.
  intros Hall. revert console.
  induction Hall as [|[stage r] results Hr _ IH]; intros console; simpl.
  - now rewrite app_nil_r.
  - assert (print_stage (stage, r) console
            = (inr tt, (console ++ [FinalStage stage (shown_status r)])%list)) as Hstage.
    { unfold print_stage, print. simpl in Hr.
      destruct Hr as [->|[Hr|Hr]]; [reflexivity| |];
        rewrite (has_status_truthy _ _ Hr);
        destruct Hr as (d & -> & Hd); simpl; rewrite Hd; reflexivity. }
    rewrite (bind_returns _ _ _ _ _ Hstage), IH, <- app_assoc. reflexivity.
Qed.

Lemma print_final_summary_returns (results : list outcome) (console : list final_line) :
  Forall well_formed results ->
  print_final_summary results console
    = (inr tt,
       (console ++ FinalBanner :: flat_map final_lines results ++ [FinalEnd])%list).
Proof.
  intros Hall. unfold print_final_summary.
  erewrite bind_returns by reflexivity.
  assert (forall console,
            for_each results (fun result =>
              print (FinalTestCase (test_name result)) ;;
              print (FinalStatus (status result)) ;;
              match result with
              | Completed _ workflow_results => for_each workflow_results print_stage
              | Failed _ error => print (FinalError error)
              end) console
            = (inr tt, (console ++ flat_map final_lines results)%list)) as Hloop.
  { induction Hall as [|result results Hwf _ IH]; intros c; simpl.
    - now rewrite app_nil_r.
    - assert ((print (FinalTestCase (test_name result)) ;;
               print (FinalStatus (status result)) ;;
               match result with
               | Completed _ workflow_results => for_each workflow_results print_stage
               | Failed _ error => print (FinalError error)
               end) c
              = (inr tt, (c ++ final_lines result)%list)) as Hresult.
      { erewrite bind_returns by reflexivity.
        erewrite bind_returns by reflexivity.
        destruct result as [n rs|n err]; simpl.
        + rewrite (print_stages_returns rs _ Hwf). now rewrite <- !app_assoc.
        + unfold print, modify. now rewrite <- !app_assoc. }
      rewrite (bind_returns _ _ _ _ _ Hresult), IH, <- app_assoc. reflexivity. }
  erewrite bind_returns by apply Hloop.
  unfold print, modify. now rewrite <- !app_assoc.
Qed.

(** The first entry that fails a test, with those before it. *)
Lemma forallb_first_failure {A} (f : A -> bool) (l : list A) :
  forallb f l = false ->
  exists before x after,
    l = (before ++ x :: after)%list /\ Forall (fun y => f y = true) before /\ f x = false.
Proof.
  induction l as [|y l IH]; simpl; [discriminate|].
  destruct (f y) eqn:Hy; simpl.
  - intros Hl. destruct (IH Hl) as (before & x & after & -> & Hbefore & Hx).
    exists (y :: before), x, after. repeat split; [constructor|]; assumption.
  - intros _. exists [], y, l. repeat split; [constructor|assumption].
Qed.

Section Run.

Context {W : Type} (send : request -> W -> (exn + response) * W).
Context (workflow_for_other_target :
           value -> M (TestFramework.t (W := W)) (list (string * value))).
Context (run_tests_in_parallel_threading
         run_tests_in_parallel_multiprocessing
         run_tests_async : value -> M (TestFramework.t (W := W)) (list outcome)).

Local Notation "'workflow''" := (workflow send workflow_for_other_target).
Local Notation "'run_test_case''" := (run_test_case send workflow_for_other_target).
Local Notation "'run_each''" := (run_each send workflow_for_other_target).
Local Notation "'run_tests_sequentially''" :=
  (run_tests_sequentially send workflow_for_other_target).
Local Notation "'run_tests''" :=
  (run_tests send workflow_for_other_target run_tests_in_parallel_threading
             run_tests_in_parallel_multiprocessing run_tests_async).
Local Notation "'main''" :=
  (main send workflow_for_other_target run_tests_in_parallel_threading
        run_tests_in_parallel_multiprocessing run_tests_async).

(** The workflow of a new orchestrator on a [str] target returns, with
    results that are each [None] or what a stage records. *)
Lemma workflow_returns (name : string) (fw : TestFramework.t) :
  exists results fw',
    workflow' (PStr name) fw = (inr results, fw') /\
    Forall (fun kv : string * value => recorded kv.2) results.
Proof.
  unfold workflow.
  destruct (TestOrchestrator.run_full_workflow (H := shared_client send)
              (TestOrchestrator.__init__ fw name)) as [res o] eqn:Hrun.
  pose proof (TestOrchestratorFacts.run_full_workflow_recorded
                (H := shared_client send) _ _ _
                (TestOrchestratorFacts.init_recorded fw name) Hrun) as Hrec.
  destruct (TestOrchestratorFacts.run_full_workflow_cases (H := shared_client send)
              (TestOrchestrator.__init__ fw name)
              (TestOrchestratorFacts.init_recorded fw name))
    as (r1 & o1 & r2 & o2 & _ & _ & _ & Hr2 & _ & _ & Hfailed & Hsuccess).
  destruct Hr2 as [Hr2|Hr2].
  - destruct (Hsuccess Hr2)
      as (uuid & r3 & o3 & r4 & o4 & o5 & _ & _ & _ & _ & _ & _ & _ & Hres5 & Hrun').
    rewrite Hrun in Hrun'. injection Hrun' as -> ->.
    eexists _, _. split; [reflexivity|]. now rewrite <- Hres5.
  - rewrite (Hfailed Hr2) in Hrun. injection Hrun as <- <-.
    eexists _, _. split; [reflexivity|]. exact Hrec.
Qed.

Lemma run_test_case_run (d : gmap string value) (fw : TestFramework.t) :
  let name := default (PStr "unknown") (d !! "name") in
  run_test_case' (PDict d) fw =
    match ConfigLoader.get_target_virtual_service (TestFramework.config_loader fw) with
    | inl e => (inr (Failed name (str_exn e)), fw)
    | inr target_default =>
        let run := workflow' (default target_default (d !! "target_virtual_service")) fw in
        (inr match fst run with
             | inl e => Failed name (str_exn e)
             | inr results => Completed name results
             end,
         snd run)
    end.
Proof.
  intros name. unfold run_test_case, try_except, bind, eval, gets, ret. simpl.
  destruct (ConfigLoader.get_target_virtual_service (TestFramework.config_loader fw))
    as [e|target_default]; [reflexivity|].
  destruct (workflow' (default target_default (d !! "target_virtual_service")) fw)
    as [[e|results] fw']; reflexivity.
Qed.

Lemma run_test_case_returns (d : gmap string value) (fw : TestFramework.t) :
  exists result fw',
    run_test_case' (PDict d) fw = (inr result, fw') /\
    test_name result = default (PStr "unknown") (d !! "name").
Proof.
  rewrite run_test_case_run.
  destruct (ConfigLoader.get_target_virtual_service (TestFramework.config_loader fw))
    as [e|target_default]; [eexists _, _; split; reflexivity|].
  cbv zeta.
  destruct (workflow' (default target_default (d !! "target_virtual_service")) fw)
    as [[e|results] fw']; eexists _, _; split; reflexivity.
Qed.

Lemma run_each_returns (test_cases : list value) (results : list outcome)
      (fw : TestFramework.t) :
  Forall is_object test_cases ->
  exists new fw',
    run_each' test_cases results fw = (inr (results ++ new)%list, fw') /\
    Forall2 (fun test_case result =>
               py_get test_case "name" (PStr "unknown") = inr (test_name result))
            test_cases new.
Proof.
  intros Hall. revert results fw.
  induction Hall as [|test_case test_cases Hobj _ IH]; intros results fw; simpl.
  - exists [], fw. rewrite app_nil_r. split; [reflexivity|constructor].
  - destruct test_case; try discriminate.
    destruct (run_test_case_returns d fw) as (result & fw1 & Hrun & Hname).
    rewrite (bind_returns _ _ _ _ _ Hrun).
    destruct (IH (results ++ [result])%list fw1) as (new & fw' & -> & Hnew).
    exists (result :: new), fw'. rewrite <- app_assoc. split; [reflexivity|].
    constructor; [simpl; now rewrite Hname|exact Hnew].
Qed.

Lemma run_each_aborts (before after : list value) (x : value) (results : list outcome)
      (fw : TestFramework.t) :
  Forall is_object before ->
  is_dict x = false ->
  exists fw',
    run_each' (before ++ x :: after) results fw = (inl (AttributeError x "get"), fw').
Proof.
  intros Hall Hx. revert results fw.
  induction Hall as [|test_case before Hobj _ IH]; intros results fw; simpl.
  - erewrite bind_raises; [eauto|].
    unfold run_test_case, bind, eval. rewrite py_get_raises by exact Hx. reflexivity.
  - destruct test_case; try discriminate.
    destruct (run_test_case_returns d fw) as (result & fw1 & Hrun & _).
    rewrite (bind_returns _ _ _ _ _ Hrun). apply IH.
Qed.

(** The workflow on a [str] target leaves the framework's configuration
    and client object as they are. *)
Lemma workflow_keeps loader client (name : string) :
  preserves (fun fw : TestFramework.t (W := W) =>
               TestFramework.config_loader fw = loader /\
               TestFramework.api_client fw = client)
            (workflow' (PStr name)).
Proof.
  intros fw Hfw. unfold workflow.
  pose proof (TestOrchestratorKeeps.run_full_workflow_keeps (H := shared_client send)
                (fun fw : TestFramework.t (W := W) =>
                   TestFramework.config_loader fw = loader /\
                   TestFramework.api_client fw = client)) as Hkeeps.
  specialize (Hkeeps
    ltac:(apply TestFrameworkMore.call_keeps; intros c;
          apply (APIClientKeeps.get_tenants_keeps send (fun c' => c' = c)))
    ltac:(apply TestFrameworkMore.call_keeps; intros c;
          apply (APIClientKeeps.get_virtual_services_keeps send (fun c' => c' = c)))
    ltac:(apply TestFrameworkMore.call_keeps; intros c;
          apply (APIClientKeeps.get_service_engines_keeps send (fun c' => c' = c)))
    ltac:(intros n; apply TestFrameworkMore.call_keeps; intros c;
          apply (APIClientKeeps.get_virtual_service_by_name_keeps send (fun c' => c' = c)))
    ltac:(intros uuid payload; apply TestFrameworkMore.call_keeps; intros c;
          apply (APIClientKeeps.update_virtual_service_keeps send (fun c' => c' = c)))
    ltac:(intros uuid; apply TestFrameworkMore.call_keeps; intros c;
          apply (APIClientKeeps.get_virtual_service_by_uuid_keeps send (fun c' => c' = c)))
    (TestOrchestrator.__init__ fw name) Hfw).
  unfold of_client in Hkeeps.
  destruct (TestOrchestrator.run_full_workflow (H := shared_client send)
              (TestOrchestrator.__init__ fw name)) as [r o].
  exact Hkeeps.
Qed.

Lemma run_test_case_completes cfg (d : gmap string value) (fw : TestFramework.t) :
  ConfigLoader.config (TestFramework.config_loader fw) = PDict cfg ->
  is_str (target_of cfg (PDict d)) = true ->
  exists results fw',
    run_test_case' (PDict d) fw
      = (inr (Completed (default (PStr "unknown") (d !! "name")) results), fw') /\
    Forall (fun entry : string * value => recorded entry.2) results /\
    TestFramework.config_loader fw' = TestFramework.config_loader fw /\
    TestFramework.api_client fw' = TestFramework.api_client fw.
Proof.
  intros Hcfg Htarget. rewrite run_test_case_run.
  unfold ConfigLoader.get_target_virtual_service. rewrite Hcfg, py_get_dict. cbv zeta.
  unfold target_of in Htarget.
  destruct (default (default (PStr "backend-vs-t1r_1000-1")
                             (cfg !! "target_virtual_service"))
                    (d !! "target_virtual_service")) as [| | | |name| |];
    try discriminate.
  pose proof (workflow_keeps _ _ name fw (conj eq_refl eq_refl)) as Hkeeps.
  destruct (workflow_returns name fw) as (results & fw' & Hrun & Hrec).
  rewrite Hrun in Hkeeps |- *. simpl in Hkeeps. destruct Hkeeps as [Hloader Hclient].
  exists results, fw'. repeat split; assumption.
Qed.

Lemma run_each_completes cfg (test_cases : list value) (results : list outcome)
      (fw : TestFramework.t) :
  ConfigLoader.config (TestFramework.config_loader fw) = PDict cfg ->
  Forall (fun test_case => is_str (target_of cfg test_case) = true) test_cases ->
  exists new fw',
    run_each' test_cases results fw = (inr (results ++ new)%list, fw') /\
    Forall well_formed new /\
    Forall2 (fun test_case result =>
               status result = "completed" /\
               py_get test_case "name" (PStr "unknown") = inr (test_name result))
            test_cases new.
Proof.
  intros Hcfg Hall. revert results fw Hcfg.
  induction Hall as [|test_case test_cases Htarget _ IH]; intros results fw Hcfg; simpl.
  - exists [], fw. rewrite app_nil_r. repeat split; constructor.
  - destruct test_case as [| | | | | |d]; try discriminate.
    destruct (run_test_case_completes cfg d fw Hcfg Htarget)
      as (rs & fw1 & Hrun & Hrec & Hloader & _).
    rewrite (bind_returns _ _ _ _ _ Hrun).
    destruct (IH (results ++ [Completed (default (PStr "unknown") (d !! "name")) rs])%list
                 fw1)
      as (new & fw' & -> & Hwf & Hnew); [now rewrite Hloader|].
    eexists (_ :: new), fw'. rewrite <- app_assoc. split; [reflexivity|].
    split; constructor; try assumption. now split.
Qed.

(** [run_tests] once the sequential method is chosen. *)
Lemma run_tests_sequential_run (s : t) cfg (test_cases : value) :
  ConfigLoader.config (TestFramework.config_loader (framework s)) = PDict cfg ->
  cfg !! "test_cases" = Some test_cases ->
  truthy test_cases = true ->
  run_tests' (PStr "sequential") s =
    match run_tests_sequentially' test_cases (framework s) with
    | (inr results, fw') => (inr results, Build fw' results)
    | (inl e, fw') => (inl e, Build fw' (test_results s))
    end.
Proof.
  intros Hcfg Hcases Htruthy. unfold run_tests.
  erewrite bind_returns by reflexivity.
  erewrite bind_returns
    by (unfold eval, ConfigLoader.get_test_cases; rewrite Hcfg; simpl; rewrite Hcases;
        reflexivity).
  cbn [from_option id]. rewrite Htruthy.
  change (negb true) with false. cbv iota.
  erewrite bind_returns by reflexivity.
  change (py_eq_str (PStr "sequential") "sequential") with true. cbv iota.
  unfold bind at 1, on_framework.
  destruct (run_tests_sequentially' test_cases (framework s)) as [[e|results] fw'];
    reflexivity.
Qed.

(** X21.  A test case that is a mapping always gets an outcome, carrying
    its [name] (["unknown"] when it has none): failed, with the message,
    when reading the default target or the workflow raises, and completed
    otherwise.  On a [str] target the workflow does not raise, so the
    outcome is completed whatever its stages recorded, and the framework
    keeps its configuration and its client object.  A test case that is
    not a mapping raises, before anything is run. *)
Theorem run_test_case_outcome (fw : TestFramework.t) :
  (forall d, exists result fw',
     run_test_case' (PDict d) fw = (inr result, fw') /\
     test_name result = default (PStr "unknown") (d !! "name")) /\
  (forall d e,
     ConfigLoader.get_target_virtual_service (TestFramework.config_loader fw) = inl e ->
     run_test_case' (PDict d) fw
       = (inr (Failed (default (PStr "unknown") (d !! "name")) (str_exn e)), fw)) /\
  (forall cfg d,
     ConfigLoader.config (TestFramework.config_loader fw) = PDict cfg ->
     is_str (target_of cfg (PDict d)) = true ->
     exists results fw',
       run_test_case' (PDict d) fw
         = (inr (Completed (default (PStr "unknown") (d !! "name")) results), fw') /\
       Forall (fun entry : string * value => recorded entry.2) results /\
       TestFramework.config_loader fw' = TestFramework.config_loader fw /\
       TestFramework.api_client fw' = TestFramework.api_client fw) /\
  (forall v, is_dict v = false ->
     run_test_case' v fw = (inl (AttributeError v "get"), fw)).
Proof.
  split; [intros d; apply run_test_case_returns|]. split; [|split].
  - intros d e He. rewrite run_test_case_run, He. reflexivity.
  - intros cfg d. apply run_test_case_completes.
  - intros v Hv. unfold run_test_case, bind, eval.
    rewrite py_get_raises by exact Hv. reflexivity.
Qed.

(** X22.  Over a list of test cases that are mappings, the sequential run
    returns one outcome per test case, in the order of the list, each with
    the name of its test case; a workflow that raises gives a failed outcome
    and the run goes on with the next test case. *)
Theorem sequential_run_keeps_order (test_cases : list value) (fw : TestFramework.t) :
  Forall is_object test_cases ->
  exists results fw',
    run_tests_sequentially' (PList test_cases) fw = (inr results, fw') /\
    Forall2 (fun test_case result =>
               py_get test_case "name" (PStr "unknown") = inr (test_name result))
            test_cases results.
Proof.
  intros Hall. unfold run_tests_sequentially.
  erewrite bind_returns by reflexivity.
  erewrite bind_returns by reflexivity.
  destruct (run_each_returns test_cases [] fw Hall) as (new & fw' & -> & Hnew).
  eauto.
Qed.


(** X24.  [run_tests] runs nothing, returns the empty list and keeps the
    results of an earlier run when the configuration has no test cases, and
    when the method (the argument, or the configured one when the argument
    is [None]) is none of the four it knows.  With the sequential method it stores
    what the sequential run returns and returns it. *)
Theorem run_tests_dispatch (s : t) cfg (parallelism_method : value) :
  ConfigLoader.config (TestFramework.config_loader (framework s)) = PDict cfg ->
  let test_cases := default (PList []) (cfg !! "test_cases") in
  (truthy test_cases = false -> run_tests' parallelism_method s = (inr [], s)) /\
  (truthy test_cases = true ->
   forall method,
     (if is_None parallelism_method
      then ConfigLoader.get_parallelism_method (TestFramework.config_loader (framework s))
      else inr parallelism_method) = inr method ->
     ((forall name, In name ["sequential"; "threading"; "multiprocessing"; "asyncio"] ->
                    method <> PStr name) ->
      run_tests' parallelism_method s = (inr [], s)) /\
     (method = PStr "sequential" ->
      forall results fw',
        run_tests_sequentially' test_cases (framework s) = (inr results, fw') ->
        run_tests' parallelism_method s = (inr results, Build fw' results))).
Proof.
  intros Hcfg test_cases.
  assert (ConfigLoader.get_test_cases (TestFramework.config_loader (framework s))
          = inr test_cases) as Hcases.
  { unfold ConfigLoader.get_test_cases. now rewrite Hcfg. }
  split.
  - intros Hnone. unfold run_tests.
    erewrite bind_returns by reflexivity.
    erewrite bind_returns by (unfold eval; rewrite Hcases; reflexivity).
    rewrite Hnone. reflexivity.
  - intros Hsome method Hmethod.
    assert (run_tests' parallelism_method s =
            (if py_eq_str method "sequential" then
               results <- on_framework (run_tests_sequentially' test_cases) ;;
               set_test_results results ;; gets test_results
             else if py_eq_str method "threading" then
               results <- on_framework (run_tests_in_parallel_threading test_cases) ;;
               set_test_results results ;; gets test_results
             else if py_eq_str method "multiprocessing" then
               results <- on_framework (run_tests_in_parallel_multiprocessing test_cases) ;;
               set_test_results results ;; gets test_results
             else if py_eq_str method "asyncio" then
               results <- on_framework (run_tests_async test_cases) ;;
               set_test_results results ;; gets test_results
             else ret []) s) as Hrun.
    { unfold run_tests.
      erewrite bind_returns by reflexivity.
      erewrite bind_returns by (unfold eval; rewrite Hcases; reflexivity).
      rewrite Hsome. change (negb true) with false. cbv iota.
      erewrite bind_returns; [reflexivity|].
      destruct (is_None parallelism_method); [unfold eval; now rewrite Hmethod|].
      injection Hmethod as ->. reflexivity. }
    rewrite Hrun. clear Hrun. split.
    + intros Hunknown.
      repeat match goal with
      | |- context [py_eq_str method ?name] =>
          let Hname := fresh "Hname" in
          destruct (py_eq_str method name) eqn:Hname;
          [apply py_eq_str_spec in Hname; destruct (Hunknown name); simpl; tauto|]
      end.
      reflexivity.
    + intros -> results fw' Hseq.
      change (py_eq_str (PStr "sequential") "sequential") with true. cbv iota.
      unfold bind at 1, on_framework. rewrite Hseq. reflexivity.
Qed.

(** X25.  On outcomes whose stages hold what the orchestrator records, the
    final summary does not raise.  It prints a banner, then for each outcome
    its name and status followed by one line per stage, or by the error of
    a failed one, then the closing line; a stage that has not run is shown
    as [not-executed], a stage that has run with the status it recorded. *)
Theorem final_summary_lines (results : list outcome) (console : list final_line) :
  Forall well_formed results ->
  print_final_summary results console
    = (inr tt,
       (console ++ FinalBanner :: flat_map final_lines results ++ [FinalEnd])%list) /\
  shown_status PNone = PStr "not-executed" /\
  (forall status stage_result,
     has_status status stage_result -> shown_status stage_result = PStr status).
Proof.
  intros Hall. split; [now apply print_final_summary_returns|].
  split; [reflexivity|].
  intros status stage_result (d & -> & Hd). simpl. now rewrite Hd.
Qed.

(** X27.  The exit status of [main] does not tell how the test cases went.
    Once the setup has succeeded, a sequential run over test cases with
    [str] targets exits with 0 when every entry of [test_cases] is a
    mapping, whatever the stages recorded, and with 1 when some entry is
    not. *)
Theorem main_exit_status_ignores_outcomes fs (config : string) (w : W) cfg
        (test_cases : list value) (fw' : TestFramework.t) :
  fs config = ConfigLoader.Document (PDict cfg) ->
  TestFramework.setup send
    (TestFramework.Build (ConfigLoader.Build config (PDict cfg)) None w) = (inr true, fw') ->
  cfg !! "test_cases" = Some (PList test_cases) ->
  (forall test_case, In test_case test_cases -> is_dict test_case = true ->
                     is_str (target_of cfg test_case) = true) ->
  fst (main' fs config (PStr "sequential") w)
    = if forallb is_dict test_cases then 0 else 1.
Proof.
  intros Hfile Hsetup Hcases Htargets.
  pose proof (TestFrameworkMore.setup_keeps_config_loader send
                (ConfigLoader.Build config (PDict cfg))
                (TestFramework.Build (ConfigLoader.Build config (PDict cfg)) None w)
                eq_refl) as Hloader.
  rewrite Hsetup in Hloader. simpl in Hloader.
  assert (ConfigLoader.config (TestFramework.config_loader fw') = PDict cfg) as Hcfg
    by now rewrite Hloader.
  unfold main, TestFramework.__init__, ConfigLoader.__init__, ConfigLoader._load_config.
  rewrite Hfile. cbv [and_then]. rewrite Hsetup.
  destruct test_cases as [|test_case test_cases].
  { unfold run_tests.
    erewrite bind_returns by reflexivity.
    erewrite bind_returns
      by (unfold eval, ConfigLoader.get_test_cases; simpl; rewrite Hcfg; simpl;
          rewrite Hcases; reflexivity).
    reflexivity. }
  rewrite (run_tests_sequential_run (Build fw' []) cfg (PList (test_case :: test_cases)))
    by (try reflexivity; assumption).
  change (run_tests_sequentially' (PList (test_case :: test_cases))
            (framework (Build fw' [])))
    with (run_each' (test_case :: test_cases) [] fw').
  destruct (forallb is_dict (test_case :: test_cases)) eqn:Hall.
  - assert (Forall (fun test_case => is_str (target_of cfg test_case) = true)
                   (test_case :: test_cases)) as Hstr.
    { apply Forall_forall. intros tc Hin. apply list_elem_of_In in Hin.
      apply Htargets; [exact Hin|].
      apply (proj1 (forallb_forall _ _) Hall tc Hin). }
    destruct (run_each_completes cfg _ [] fw' Hcfg Hstr) as (new & fw2 & -> & Hwf & _).
    cbn [app test_results]. now rewrite (print_final_summary_returns new [] Hwf).
  - destruct (forallb_first_failure _ _ Hall) as (before & x & after & -> & Hbefore & Hx).
    destruct (run_each_aborts before after x [] fw' Hbefore Hx) as (fw2 & ->).
    reflexivity.
Qed.

(** X28.  [main] exits with 1 and leaves the service as it was, so without
    a request sent, when the configuration file is missing, unreadable or
    not YAML, when its document is not a mapping, and when the base URL,
    the username or the password is missing or falsy. *)
Theorem main_stops_before_any_request fs (config : string) (parallel : value) (w : W) :
  (forall e,
     fs config = ConfigLoader.Missing \/ fs config = ConfigLoader.Unreadable e \/
     fs config = ConfigLoader.Malformed e ->
     main' fs config parallel w = (1, w)) /\
  (forall v, fs config = ConfigLoader.Document v -> is_dict v = false ->
             main' fs config parallel w = (1, w)) /\
  (forall cfg api creds,
     fs config = ConfigLoader.Document (PDict cfg) ->
     default (PDict ∅) (cfg !! "api") = PDict api ->
     default (PDict ∅) (cfg !! "credentials") = PDict creds ->
     truthy (default PNone (api !! "base_url")) &&
     truthy (default PNone (creds !! "username")) &&
     truthy (default PNone (creds !! "password")) = false ->
     main' fs config parallel w = (1, w)).
Proof.
  unfold main, TestFramework.__init__, ConfigLoader.__init__, ConfigLoader._load_config.
  split; [|split].
  - intros e [->|[->| ->]]; reflexivity.
  - intros v -> Hv. cbv [and_then].
    rewrite (TestFrameworkMore.setup_not_a_mapping send) by exact Hv. reflexivity.
  - intros cfg api creds -> Hapi Hcreds Hmissing. cbv [and_then].
    rewrite (proj1 (TestFrameworkMore.setup_incomplete send
                      (TestFramework.Build (ConfigLoader.Build config (PDict cfg)) None w)
                      cfg api creds eq_refl Hapi Hcreds) Hmissing).
    reflexivity.
Qed.

End Run.

Lemma sequential_run_keeps_order_witness :
  exists results fw',
    run_tests_sequentially Examples.load_balancer MoreExamples.unsupported
      (PList [dict_of [("name", PStr "disable-backend")]; dict_of []])
      (MoreExamples.framework_on Examples.settings true) = (inr results, fw') /\
    Forall2 (fun test_case result =>
               py_get test_case "name" (PStr "unknown") = inr (test_name result))
            [dict_of [("name", PStr "disable-backend")]; dict_of []] results.
Proof.
  apply (sequential_run_keeps_order Examples.load_balancer MoreExamples.unsupported).
  repeat constructor.
Defined.


Lemma run_tests_dispatch_witness :
  let s := Build (MoreExamples.framework_on Examples.settings true) [] in
  run_tests Examples.load_balancer MoreExamples.unsupported MoreExamples.unsupported MoreExamples.unsupported MoreExamples.unsupported
    (PStr "fibers") s = (inr [], s).
Proof.
  intros s.
  destruct (run_tests_dispatch Examples.load_balancer MoreExamples.unsupported
              MoreExamples.unsupported MoreExamples.unsupported MoreExamples.unsupported s
              (list_to_map
                 [("api", dict_of [("base_url", PStr "https://lb.example/");
                                   ("timeout", PInt 10)]);
                  ("credentials", dict_of [("username", PStr "admin");
                                           ("password", PStr "secret")]);
                  ("test_cases", PList [dict_of [("name", PStr "disable-backend")]])])
              (PStr "fibers") eq_refl) as [_ Hsome].
  destruct (Hsome eq_refl (PStr "fibers") eq_refl) as [Hunknown _].
  apply Hunknown.
  intros name Hname. simpl in Hname.
  destruct Hname as [<-|[<-|[<-|[<-|[]]]]]; discriminate.
Defined.

Lemma final_summary_lines_witness :
  let stopped :=
    Completed (PStr "disable-backend")
      [("pre_fetcher", dict_of [("status", PStr "success")]);
       ("pre_validation", dict_of [("status", PStr "failed")]);
       ("task_trigger", PNone); ("post_validation", PNone)] in
  print_final_summary [stopped; Failed (PStr "other") "boom"] []
    = (inr tt,
       [FinalBanner;
        FinalTestCase (PStr "disable-backend"); FinalStatus "completed";
        FinalStage "pre_fetcher" (PStr "success");
        FinalStage "pre_validation" (PStr "failed");
        FinalStage "task_trigger" (PStr "not-executed");
        FinalStage "post_validation" (PStr "not-executed");
        FinalTestCase (PStr "other"); FinalStatus "failed"; FinalError "boom";
        FinalEnd]).
Proof.
  intros stopped.
  destruct (final_summary_lines [stopped; Failed (PStr "other") "boom"] [])
    as [Hlines _]; [|exact Hlines].
  constructor; [|constructor; [exact I|constructor]].
  constructor; [right; left; eexists; split; reflexivity|].
  constructor; [right; right; eexists; split; reflexivity|].
  constructor; [left; reflexivity|].
  constructor; [left; reflexivity|constructor].
Defined.

Lemma main_exit_status_ignores_outcomes_witness :
  fst (main Examples.read_only MoreExamples.unsupported MoreExamples.unsupported MoreExamples.unsupported MoreExamples.unsupported
         MoreExamples.settings_file "test_config.yaml" (PStr "sequential") true) = 0 /\
  fst (main Examples.load_balancer MoreExamples.unsupported MoreExamples.unsupported MoreExamples.unsupported MoreExamples.unsupported
         MoreExamples.odd_batch_file "test_config.yaml" (PStr "sequential") true) = 1.
Proof.
  split.
  - eapply (main_exit_status_ignores_outcomes Examples.read_only
              MoreExamples.unsupported MoreExamples.unsupported MoreExamples.unsupported
              MoreExamples.unsupported MoreExamples.settings_file "test_config.yaml" true
              (list_to_map
                 [("api", dict_of [("base_url", PStr "https://lb.example/");
                                   ("timeout", PInt 10)]);
                  ("credentials", dict_of [("username", PStr "admin");
                                           ("password", PStr "secret")]);
                  ("test_cases", PList [dict_of [("name", PStr "disable-backend")]])])
              [dict_of [("name", PStr "disable-backend")]]);
      [reflexivity|reflexivity|reflexivity|].
    intros test_case [<-|[]] _. reflexivity.
  - eapply (main_exit_status_ignores_outcomes Examples.load_balancer
              MoreExamples.unsupported MoreExamples.unsupported MoreExamples.unsupported
              MoreExamples.unsupported MoreExamples.odd_batch_file "test_config.yaml" true
              MoreExamples.odd_batch
              [dict_of [("name", PStr "first")]; PStr "second";
               dict_of [("name", PStr "third")]]);
      [reflexivity|reflexivity|reflexivity|].
    intros test_case [<-|[<-|[<-|[]]]] Hdict; try reflexivity. discriminate.
Defined.

End TestRunFacts.
